(** * SoftVideoEncoderOMXComponent: port negotiation and pixel conversion

    A shallow embedding of
    [media/libstagefright/omx/SoftVideoEncoderOMXComponent.cpp] and its
    header.  Fixed-width C++ integers are integers of [Z] with the
    wrap-around of every conversion and operation written out; the
    component object is a record that every member function takes and
    returns; byte buffers are maps from byte offsets to byte values. *)

From Stdlib Require Import ZArith Lia List Bool String.
Import ListNotations.

Local Open Scope Z_scope.

(** ** Fixed-width integers *)

Module Int.

Definition u8 (z : Z) : Z := z mod 2 ^ 8.
Definition u16 (z : Z) : Z := z mod 2 ^ 16.
Definition u32 (z : Z) : Z := z mod 2 ^ 32.
Definition usize (z : Z) : Z := z mod 2 ^ 64.
(** Conversion to [int32_t]: two's complement. *)
Definition s32 (z : Z) : Z := (z + 2 ^ 31) mod 2 ^ 32 - 2 ^ 31.

(** [unsigned] arithmetic (32 bits). *)
Definition add32 (a b : Z) : Z := u32 (a + b).
Definition sub32 (a b : Z) : Z := u32 (a - b).
Definition mul32 (a b : Z) : Z := u32 (a * b).
Definition neg32 (a : Z) : Z := u32 (- a).
Definition shr32 (a n : Z) : Z := Z.shiftr (u32 a) n.

(** [int32_t] arithmetic; the division truncates towards zero. *)
Definition smul32 (a b : Z) : Z := s32 (a * b).
Definition sdiv32 (a b : Z) : Z := s32 (Z.quot a b).

Definition INT32_MAX : Z := 2 ^ 31 - 1.
Definition UINT32_MAX : Z := 2 ^ 32 - 1.

End Int.

(** ** OpenMAX enumerations, as far as the component names them *)

Inductive OMX_ERRORTYPE : Set :=
| OMX_ErrorNone
| OMX_ErrorUndefined
| OMX_ErrorBadParameter
| OMX_ErrorNotImplemented
| OMX_ErrorUnsupportedSetting
| OMX_ErrorBadPortIndex
| OMX_ErrorNoMore
| OMX_ErrorUnsupportedIndex.

(** Color formats: the four enumerators the component names, and every
    other value of the enumeration by its number. *)
Inductive OMX_COLOR_FORMATTYPE : Set :=
| OMX_COLOR_FormatUnused
| OMX_COLOR_FormatYUV420Planar
| OMX_COLOR_FormatYUV420SemiPlanar
| OMX_COLOR_FormatAndroidOpaque
| OMX_COLOR_FormatOther (code : Z).

Inductive OMX_VIDEO_CODINGTYPE : Set :=
| OMX_VIDEO_CodingUnused
| OMX_VIDEO_CodingOther (code : Z).

Inductive OMX_DIRTYPE : Set := OMX_DirInput | OMX_DirOutput.

(** [OMX_BOOL] is an enumeration: a request can carry any value. *)
Definition OMX_BOOL := Z.
Definition OMX_FALSE : OMX_BOOL := 0.
Definition OMX_TRUE : OMX_BOOL := 1.

Definition color_eqb (a b : OMX_COLOR_FORMATTYPE) : bool :=
  match a, b with
  | OMX_COLOR_FormatUnused, OMX_COLOR_FormatUnused => true
  | OMX_COLOR_FormatYUV420Planar, OMX_COLOR_FormatYUV420Planar => true
  | OMX_COLOR_FormatYUV420SemiPlanar, OMX_COLOR_FormatYUV420SemiPlanar => true
  | OMX_COLOR_FormatAndroidOpaque, OMX_COLOR_FormatAndroidOpaque => true
  | OMX_COLOR_FormatOther x, OMX_COLOR_FormatOther y => x =? y
  | _, _ => false
  end.

Definition coding_eqb (a b : OMX_VIDEO_CODINGTYPE) : bool :=
  match a, b with
  | OMX_VIDEO_CodingUnused, OMX_VIDEO_CodingUnused => true
  | OMX_VIDEO_CodingOther x, OMX_VIDEO_CodingOther y => x =? y
  | _, _ => false
  end.

(** ** Parameter structures *)

(** [def.format.video] *)
Record OMX_VIDEO_PORTDEFINITIONTYPE : Set := mkVideoDef {
  cMIMEType : string;
  nFrameWidth : Z;              (* OMX_U32 *)
  nFrameHeight : Z;             (* OMX_U32 *)
  nStride : Z;                  (* OMX_S32 *)
  nSliceHeight : Z;             (* OMX_U32 *)
  nBitrate : Z;                 (* OMX_U32 *)
  xFramerate : Z;               (* OMX_U32, Q16 *)
  bFlagErrorConcealment : OMX_BOOL;
  eCompressionFormat : OMX_VIDEO_CODINGTYPE;
  eColorFormat : OMX_COLOR_FORMATTYPE
}.

Record OMX_PARAM_PORTDEFINITIONTYPE : Set := mkPortDef {
  nSize : Z;
  nPortIndex : Z;               (* OMX_U32 *)
  eDir : OMX_DIRTYPE;
  nBufferCountActual : Z;
  nBufferCountMin : Z;
  nBufferSize : Z;              (* OMX_U32 *)
  bEnabled : OMX_BOOL;
  bPopulated : OMX_BOOL;
  bBuffersContiguous : OMX_BOOL;
  nBufferAlignment : Z;
  video : OMX_VIDEO_PORTDEFINITIONTYPE
}.

Record OMX_VIDEO_PARAM_PORTFORMATTYPE : Set := mkPortFormat {
  pf_nSize : Z;
  pf_nPortIndex : Z;
  pf_nIndex : Z;
  pf_eCompressionFormat : OMX_VIDEO_CODINGTYPE;
  pf_eColorFormat : OMX_COLOR_FORMATTYPE;
  pf_xFramerate : Z
}.

Record StoreMetaDataInBuffersParams : Set := mkStoreMeta {
  sm_nSize : Z;
  sm_nPortIndex : Z;
  bStoreMetaData : OMX_BOOL
}.

Record OMX_PARAM_COMPONENTROLETYPE : Set := mkRole {
  cr_nSize : Z;
  cRole : string
}.

Record OMX_VIDEO_PARAM_PROFILELEVELTYPE : Set := mkProfileLevel {
  pl_nSize : Z;
  pl_nPortIndex : Z;
  eProfile : Z;
  eLevel : Z;
  nProfileIndex : Z
}.

(** A parameter index together with the structure its [OMX_PTR] is cast
    to at that index. *)
Inductive OMX_PARAM : Set :=
| OMX_IndexParamVideoErrorCorrection
| OMX_IndexParamStandardComponentRole (roleParams : OMX_PARAM_COMPONENTROLETYPE)
| OMX_IndexParamPortDefinition (def : OMX_PARAM_PORTDEFINITIONTYPE)
| OMX_IndexParamVideoPortFormat (format : OMX_VIDEO_PARAM_PORTFORMATTYPE)
| OMX_IndexParamVideoProfileLevelQuerySupported
    (profileLevel : OMX_VIDEO_PARAM_PROFILELEVELTYPE)
| OMX_IndexParamConsumerUsageBits (usageBits : Z)
| kStoreMetaDataExtensionIndex (storeParam : StoreMetaDataInBuffersParams)
| OMX_IndexOther (index : Z).

(** Field updates of the port definition. *)
Definition set_geometry (w h stride slice : Z) (v : OMX_VIDEO_PORTDEFINITIONTYPE) :=
  mkVideoDef (cMIMEType v) w h stride slice (nBitrate v) (xFramerate v)
             (bFlagErrorConcealment v) (eCompressionFormat v) (eColorFormat v).
Definition set_frame_size (w h : Z) (v : OMX_VIDEO_PORTDEFINITIONTYPE) :=
  set_geometry w h (nStride v) (nSliceHeight v) v.
Definition set_xFramerate (f : Z) (v : OMX_VIDEO_PORTDEFINITIONTYPE) :=
  mkVideoDef (cMIMEType v) (nFrameWidth v) (nFrameHeight v) (nStride v)
             (nSliceHeight v) (nBitrate v) f
             (bFlagErrorConcealment v) (eCompressionFormat v) (eColorFormat v).
Definition set_eColorFormat (c : OMX_COLOR_FORMATTYPE) (v : OMX_VIDEO_PORTDEFINITIONTYPE) :=
  mkVideoDef (cMIMEType v) (nFrameWidth v) (nFrameHeight v) (nStride v)
             (nSliceHeight v) (nBitrate v) (xFramerate v)
             (bFlagErrorConcealment v) (eCompressionFormat v) c.
Definition set_nBitrate (b : Z) (v : OMX_VIDEO_PORTDEFINITIONTYPE) :=
  mkVideoDef (cMIMEType v) (nFrameWidth v) (nFrameHeight v) (nStride v)
             (nSliceHeight v) b (xFramerate v)
             (bFlagErrorConcealment v) (eCompressionFormat v) (eColorFormat v).
Definition set_video (v : OMX_VIDEO_PORTDEFINITIONTYPE) (d : OMX_PARAM_PORTDEFINITIONTYPE) :=
  mkPortDef (nSize d) (nPortIndex d) (eDir d) (nBufferCountActual d)
            (nBufferCountMin d) (nBufferSize d) (bEnabled d) (bPopulated d)
            (bBuffersContiguous d) (nBufferAlignment d) v.
Definition set_nBufferSize (n : Z) (d : OMX_PARAM_PORTDEFINITIONTYPE) :=
  mkPortDef (nSize d) (nPortIndex d) (eDir d) (nBufferCountActual d)
            (nBufferCountMin d) n (bEnabled d) (bPopulated d)
            (bBuffersContiguous d) (nBufferAlignment d) (video d).

(** ** The component object *)

Definition kInputPortIndex : Z := 0.
Definition kOutputPortIndex : Z := 1.
Definition kInputBufferAlignment : Z := 1.
Definition kOutputBufferAlignment : Z := 2.

Definition kSupportedColorFormats : list OMX_COLOR_FORMATTYPE :=
  [ OMX_COLOR_FormatYUV420Planar;
    OMX_COLOR_FormatYUV420SemiPlanar;
    OMX_COLOR_FormatAndroidOpaque ].

(** The members of [SoftVideoEncoderOMXComponent] that the negotiation
    and the extraction read or write.  [inDef] and [outDef] are the
    definitions [editPortInfo(kInputPortIndex)->mDef] and
    [editPortInfo(kOutputPortIndex)->mDef] of the base class; [mShmData]
    holds the length of the scratch array, [None] for [NULL];
    [mEglDisplay] is [None] for [EGL_NO_DISPLAY]. *)
Record Component : Set := mkComponent {
  mInputDataIsMeta : bool;
  mWidth : Z;                   (* int32_t *)
  mHeight : Z;                  (* int32_t *)
  mBitrate : Z;                 (* uint32_t *)
  mFramerate : Z;               (* uint32_t, Q16 *)
  mColorFormat : OMX_COLOR_FORMATTYPE;
  mMinOutputBufferSize : Z;     (* uint32_t *)
  mMinCompressionRatio : Z;     (* uint32_t *)
  mComponentRole : string;
  mCodingType : OMX_VIDEO_CODINGTYPE;
  mProfileLevels : list (Z * Z);  (* mProfile, mLevel *)
  mIsPowervr : bool;
  mEglDisplay : option Z;
  mShmData : option Z;
  inDef : OMX_PARAM_PORTDEFINITIONTYPE;
  outDef : OMX_PARAM_PORTDEFINITIONTYPE
}.

(** Member updates. *)
Definition with_geometry (w h : Z) (c : Component) : Component :=
  mkComponent (mInputDataIsMeta c) w h (mBitrate c) (mFramerate c)
    (mColorFormat c) (mMinOutputBufferSize c) (mMinCompressionRatio c)
    (mComponentRole c) (mCodingType c) (mProfileLevels c) (mIsPowervr c)
    (mEglDisplay c) (mShmData c) (inDef c) (outDef c).
Definition with_mShmData (p : option Z) (c : Component) : Component :=
  mkComponent (mInputDataIsMeta c) (mWidth c) (mHeight c) (mBitrate c)
    (mFramerate c) (mColorFormat c) (mMinOutputBufferSize c)
    (mMinCompressionRatio c) (mComponentRole c) (mCodingType c)
    (mProfileLevels c) (mIsPowervr c) (mEglDisplay c) p (inDef c) (outDef c).
Definition with_mFramerate (f : Z) (c : Component) : Component :=
  mkComponent (mInputDataIsMeta c) (mWidth c) (mHeight c) (mBitrate c) f
    (mColorFormat c) (mMinOutputBufferSize c) (mMinCompressionRatio c)
    (mComponentRole c) (mCodingType c) (mProfileLevels c) (mIsPowervr c)
    (mEglDisplay c) (mShmData c) (inDef c) (outDef c).
Definition with_mBitrate (b : Z) (c : Component) : Component :=
  mkComponent (mInputDataIsMeta c) (mWidth c) (mHeight c) b (mFramerate c)
    (mColorFormat c) (mMinOutputBufferSize c) (mMinCompressionRatio c)
    (mComponentRole c) (mCodingType c) (mProfileLevels c) (mIsPowervr c)
    (mEglDisplay c) (mShmData c) (inDef c) (outDef c).
Definition with_mColorFormat (f : OMX_COLOR_FORMATTYPE) (c : Component) : Component :=
  mkComponent (mInputDataIsMeta c) (mWidth c) (mHeight c) (mBitrate c)
    (mFramerate c) f (mMinOutputBufferSize c) (mMinCompressionRatio c)
    (mComponentRole c) (mCodingType c) (mProfileLevels c) (mIsPowervr c)
    (mEglDisplay c) (mShmData c) (inDef c) (outDef c).
Definition with_mInputDataIsMeta (b : bool) (c : Component) : Component :=
  mkComponent b (mWidth c) (mHeight c) (mBitrate c)
    (mFramerate c) (mColorFormat c) (mMinOutputBufferSize c)
    (mMinCompressionRatio c) (mComponentRole c) (mCodingType c)
    (mProfileLevels c) (mIsPowervr c) (mEglDisplay c) (mShmData c)
    (inDef c) (outDef c).
Definition with_policy (minSize ratio : Z) (c : Component) : Component :=
  mkComponent (mInputDataIsMeta c) (mWidth c) (mHeight c) (mBitrate c)
    (mFramerate c) (mColorFormat c) minSize ratio
    (mComponentRole c) (mCodingType c) (mProfileLevels c) (mIsPowervr c)
    (mEglDisplay c) (mShmData c) (inDef c) (outDef c).
Definition with_ports (i o : OMX_PARAM_PORTDEFINITIONTYPE) (c : Component) : Component :=
  mkComponent (mInputDataIsMeta c) (mWidth c) (mHeight c) (mBitrate c)
    (mFramerate c) (mColorFormat c) (mMinOutputBufferSize c)
    (mMinCompressionRatio c) (mComponentRole c) (mCodingType c)
    (mProfileLevels c) (mIsPowervr c) (mEglDisplay c) (mShmData c) i o.

(** The [isValidOMXParam] template of the base class header: one
    instance per parameter structure. *)
Class OMXParam (T : Type) := isValidOMXParam : T -> bool.

(** What a member function that can hit a failed [CHECK] does. *)
Inductive outcome (A : Type) : Type :=
| Returned (a : A)
| Aborted.
Arguments Returned {A} a.
Arguments Aborted {A}.

(** ** Port negotiation *)

Section Negotiation.

(** Declared outside this file of the repository: the sizes of the two
    metadata structures of [HardwareAPI.h], the validity check of the
    base class header, the handlers of the base class, the system
    property store, and two constants. *)
Variable sizeof_VideoNativeMetadata : Z.
Variable sizeof_VideoGrallocMetadata : Z.
Context {valid_portdef : OMXParam OMX_PARAM_PORTDEFINITIONTYPE}.
Context {valid_portformat : OMXParam OMX_VIDEO_PARAM_PORTFORMATTYPE}.
Context {valid_storemeta : OMXParam StoreMetaDataInBuffersParams}.
Context {valid_role : OMXParam OMX_PARAM_COMPONENTROLETYPE}.
Context {valid_profilelevel : OMXParam OMX_VIDEO_PARAM_PROFILELEVELTYPE}.
Variable SimpleSoftOMXComponent_internalSetParameter :
  OMX_PARAM -> Component -> OMX_ERRORTYPE * Component.
Variable SimpleSoftOMXComponent_internalGetParameter :
  OMX_PARAM -> Component -> OMX_ERRORTYPE * OMX_PARAM.
(** [property_get key default] gives the length and the value read. *)
Variable property_get : string -> string -> Z * string.
Variable OMX_MAX_STRINGNAME_SIZE : Z.
Variable GRALLOC_USAGE_SW_READ_OFTEN : Z.

(** [uint32_t rawBufferSize = nStride * nSliceHeight * 3 / 2]: the
    product of an [OMX_S32] and an [OMX_U32] is unsigned. *)
Definition rawBufferSize (stride slice : Z) : Z :=
  Int.mul32 (Int.mul32 (Int.u32 stride) slice) 3 / 2.

Definition metadataBufferSize : Z :=
  Z.max sizeof_VideoNativeMetadata sizeof_VideoGrallocMetadata.

Definition updatePortParams (c : Component) : Component :=
  let w := Int.u32 (mWidth c) in
  let h := Int.u32 (mHeight c) in
  let stride := Int.s32 w in
  let slice := h in
  let v :=
    set_eColorFormat (mColorFormat c)
      (set_xFramerate (mFramerate c)
         (set_geometry w h stride slice (video (inDef c)))) in
  let raw := rawBufferSize (nStride v) (nSliceHeight v) in
  let inSize :=
    if color_eqb (eColorFormat v) OMX_COLOR_FormatAndroidOpaque
    then Int.u32 metadataBufferSize
    else raw in
  let inDef' := set_nBufferSize inSize (set_video v (inDef c)) in
  let vo :=
    set_nBitrate (mBitrate c) (set_frame_size w h (video (outDef c))) in
  let outSize := Z.max (mMinOutputBufferSize c) (raw / mMinCompressionRatio c) in
  let outDef' := set_nBufferSize outSize (set_video vo (outDef c)) in
  with_ports inDef' outDef' c.

Definition supportedInputColor (f : OMX_COLOR_FORMATTYPE) : bool :=
  color_eqb f OMX_COLOR_FormatYUV420Planar
  || color_eqb f OMX_COLOR_FormatYUV420SemiPlanar
  || color_eqb f OMX_COLOR_FormatAndroidOpaque.

(** [internalSetPortParams].  [mShmData] holds the size the scratch
    buffer was allocated with, [mWidth * mHeight * 4] in [int32_t].
    [new GLubyte[n]] is taken to return: with a negative [n] the code
    throws and the call never returns, so what is stated of a call
    that allocates is stated for [0 <= n]. *)
Definition internalSetPortParams (port : OMX_PARAM_PORTDEFINITIONTYPE)
    (c : Component) : OMX_ERRORTYPE * Component :=
  if negb (isValidOMXParam port) then (OMX_ErrorBadParameter, c)
  else if nPortIndex port =? kInputPortIndex then
    let c1 := with_geometry (Int.s32 (nFrameWidth (video port)))
                            (Int.s32 (nFrameHeight (video port))) c in
    let c2 :=
      if mIsPowervr c1 then
        match mShmData c1 with
        | None =>
            with_mShmData
              (Some (Int.smul32 (Int.smul32 (mWidth c1) (mHeight c1)) 4)) c1
        | Some _ => c1
        end
      else c1 in
    let c3 := with_mFramerate (xFramerate (video port)) c2 in
    if negb (coding_eqb (eCompressionFormat (video port)) OMX_VIDEO_CodingUnused)
       || negb (supportedInputColor (eColorFormat (video port)))
    then (OMX_ErrorUnsupportedSetting, c3)
    else
      (OMX_ErrorNone,
       updatePortParams (with_mColorFormat (eColorFormat (video port)) c3))
  else if nPortIndex port =? kOutputPortIndex then
    if negb (coding_eqb (eCompressionFormat (video port)) (mCodingType c))
       || negb (color_eqb (eColorFormat (video port)) OMX_COLOR_FormatUnused)
    then (OMX_ErrorUnsupportedSetting, c)
    else (OMX_ErrorNone, updatePortParams (with_mBitrate (nBitrate (video port)) c))
  else (OMX_ErrorBadPortIndex, c).

(** [strncmp(a, b, n) == 0]: the first [n] characters agree, a string
    ending where the other ends. *)
Fixpoint strncmp_eq (a b : string) (n : nat) : bool :=
  match n with
  | O => true
  | S n' =>
      match a, b with
      | EmptyString, EmptyString => true
      | String x a', String y b' => Ascii.eqb x y && strncmp_eq a' b' n'
      | _, _ => false
      end
  end.

Definition internalSetParameter (param : OMX_PARAM) (c : Component)
    : OMX_ERRORTYPE * Component :=
  match param with
  | OMX_IndexParamVideoErrorCorrection => (OMX_ErrorNotImplemented, c)
  | OMX_IndexParamStandardComponentRole roleParams =>
      if negb (isValidOMXParam roleParams) then (OMX_ErrorBadParameter, c)
      else if negb (strncmp_eq (cRole roleParams) (mComponentRole c)
                      (Z.to_nat (OMX_MAX_STRINGNAME_SIZE - 1)))
      then (OMX_ErrorUnsupportedSetting, c)
      else (OMX_ErrorNone, c)
  | OMX_IndexParamPortDefinition port =>
      let (err, c') := internalSetPortParams port c in
      match err with
      | OMX_ErrorNone => SimpleSoftOMXComponent_internalSetParameter param c'
      | _ => (err, c')
      end
  | OMX_IndexParamVideoPortFormat format =>
      if negb (isValidOMXParam format) then (OMX_ErrorBadParameter, c)
      else if pf_nPortIndex format =? kInputPortIndex then
        if supportedInputColor (pf_eColorFormat format)
        then (OMX_ErrorNone,
              updatePortParams (with_mColorFormat (pf_eColorFormat format) c))
        else (OMX_ErrorUnsupportedSetting, c)
      else if pf_nPortIndex format =? kOutputPortIndex then
        if coding_eqb (pf_eCompressionFormat format) (mCodingType c)
        then (OMX_ErrorNone, c)
        else (OMX_ErrorUnsupportedSetting, c)
      else (OMX_ErrorBadPortIndex, c)
  | kStoreMetaDataExtensionIndex storeParam =>
      if negb (isValidOMXParam storeParam) then (OMX_ErrorBadParameter, c)
      else if sm_nPortIndex storeParam =? kOutputPortIndex then
        (if negb (bStoreMetaData storeParam =? 0)
         then OMX_ErrorUnsupportedSetting else OMX_ErrorNone, c)
      else if negb (sm_nPortIndex storeParam =? kInputPortIndex) then
        (OMX_ErrorBadPortIndex, c)
      else
        let c1 :=
          with_mInputDataIsMeta (bStoreMetaData storeParam =? OMX_TRUE) c in
        let c2 :=
          if mInputDataIsMeta c1
          then with_mColorFormat OMX_COLOR_FormatAndroidOpaque c1
          else if color_eqb (mColorFormat c1) OMX_COLOR_FormatAndroidOpaque
          then with_mColorFormat OMX_COLOR_FormatYUV420Planar c1
          else c1 in
        (OMX_ErrorNone, updatePortParams c2)
  | _ => SimpleSoftOMXComponent_internalSetParameter param c
  end.

(** The base-class handler at [OMX_IndexParamPortDefinition], which
    fills the caller's structure. *)
Variable SimpleSoftOMXComponent_getPortDefinition :
  OMX_PARAM_PORTDEFINITIONTYPE -> Component ->
  OMX_ERRORTYPE * OMX_PARAM_PORTDEFINITIONTYPE.

(** [mWidth * mHeight * 3 / 2] in [int32_t]. *)
Definition rawFrameSize (c : Component) : Z :=
  Int.sdiv32 (Int.smul32 (Int.smul32 (mWidth c) (mHeight c)) 3) 2.

Definition internalGetParameter (param : OMX_PARAM) (c : Component)
    : outcome (OMX_ERRORTYPE * OMX_PARAM) :=
  match param with
  | OMX_IndexParamVideoErrorCorrection =>
      Returned (OMX_ErrorNotImplemented, param)
  | OMX_IndexParamVideoPortFormat formatParams =>
      if negb (isValidOMXParam formatParams)
      then Returned (OMX_ErrorBadParameter, param)
      else if pf_nPortIndex formatParams =? kInputPortIndex then
        match nth_error kSupportedColorFormats
                (Z.to_nat (pf_nIndex formatParams)) with
        | None => Returned (OMX_ErrorNoMore, param)
        | Some f =>
            Returned
              (OMX_ErrorNone,
               OMX_IndexParamVideoPortFormat
                 (mkPortFormat (pf_nSize formatParams)
                    (pf_nPortIndex formatParams) (pf_nIndex formatParams)
                    OMX_VIDEO_CodingUnused f (mFramerate c)))
        end
      else if pf_nPortIndex formatParams =? kOutputPortIndex then
        Returned
          (OMX_ErrorNone,
           OMX_IndexParamVideoPortFormat
             (mkPortFormat (pf_nSize formatParams)
                (pf_nPortIndex formatParams) (pf_nIndex formatParams)
                (mCodingType c) OMX_COLOR_FormatUnused 0))
      else Returned (OMX_ErrorBadPortIndex, param)
  | OMX_IndexParamVideoProfileLevelQuerySupported profileLevel =>
      if negb (isValidOMXParam profileLevel)
      then Returned (OMX_ErrorBadParameter, param)
      else if negb (pl_nPortIndex profileLevel =? kOutputPortIndex)
      then Returned (OMX_ErrorUnsupportedIndex, param)
      else
        match nth_error (mProfileLevels c)
                (Z.to_nat (nProfileIndex profileLevel)) with
        | None => Returned (OMX_ErrorNoMore, param)
        | Some (p, l) =>
            Returned
              (OMX_ErrorNone,
               OMX_IndexParamVideoProfileLevelQuerySupported
                 (mkProfileLevel (pl_nSize profileLevel)
                    (pl_nPortIndex profileLevel) p l
                    (nProfileIndex profileLevel)))
        end
  | OMX_IndexParamConsumerUsageBits _ =>
      Returned (OMX_ErrorNone,
                OMX_IndexParamConsumerUsageBits GRALLOC_USAGE_SW_READ_OFTEN)
  | OMX_IndexParamPortDefinition def =>
      if 1 <? nPortIndex def then Returned (OMX_ErrorUndefined, param)
      else
        let (err, def1) := SimpleSoftOMXComponent_getPortDefinition def c in
        match err with
        | OMX_ErrorNone =>
            let def2 :=
              set_video (set_frame_size (Int.u32 (mWidth c))
                                        (Int.u32 (mHeight c)) (video def1))
                        def1 in
            let (len, property) := property_get "ro.hardware.egl" "default" in
            let isMesa := (0 <? len) && String.eqb property "mesa" in
            let isPowervr := (0 <? len) && String.eqb property "powervr" in
            let isEmulation := (0 <? len) && String.eqb property "emulation" in
            if negb isMesa && negb isPowervr && negb isEmulation
               && negb (color_eqb (mColorFormat c) OMX_COLOR_FormatYUV420Planar
                        || color_eqb (mColorFormat c)
                             OMX_COLOR_FormatYUV420SemiPlanar)
            then Aborted
            else
              Returned
                (OMX_ErrorNone,
                 OMX_IndexParamPortDefinition
                   (set_nBufferSize (Int.u32 (rawFrameSize c)) def2))
        | _ => Returned (err, OMX_IndexParamPortDefinition def1)
        end
  | _ =>
      Returned (SimpleSoftOMXComponent_internalGetParameter param c)
  end.

(** [size_t frameSize]; the [int32_t] operand is converted to [size_t]. *)
Definition frameSize (c : Component) : Z :=
  if mInputDataIsMeta c then metadataBufferSize
  else Int.usize (rawFrameSize c).

(** [validateInputBuffer] on a header with [nFilledLen]; the second
    component is what [ALOGW] prints. *)
Definition validateInputBuffer (nFilledLen : Z) (c : Component)
    : OMX_ERRORTYPE * list string :=
  if nFilledLen <? frameSize c then (OMX_ErrorUndefined, [])
  else if frameSize c <? nFilledLen
  then (OMX_ErrorNone, ["Input buffer contains more data than expected."%string])
  else (OMX_ErrorNone, []).

(** The constructor. The base class has no ports until [initPorts] adds
    them: [noPort] stands for the two absent definitions. *)
Definition construct (noPort : OMX_PARAM_PORTDEFINITIONTYPE)
    (componentRole : string) (codingType : OMX_VIDEO_CODINGTYPE)
    (profileLevels : list (Z * Z)) (width height : Z) : Component :=
  let (len, property) := property_get "ro.hardware.egl" "default" in
  mkComponent false width height 192000 (Z.shiftl 30 16)
    OMX_COLOR_FormatYUV420Planar 384 1 componentRole codingType profileLevels
    ((0 <? len) && String.eqb property "powervr")
    None None noPort noPort.

(** [initPorts]; [def] is the uninitialised local the function fills,
    [size] what [InitOMXParams] writes to [nSize]. *)
Definition initPorts (def : OMX_PARAM_PORTDEFINITIONTYPE) (size : Z)
    (numInputBuffers numOutputBuffers outputBufferSize : Z) (mime : string)
    (minCompressionRatio : Z) (c : Component) : Component :=
  let c := with_policy outputBufferSize minCompressionRatio c in
  let w := Int.u32 (mWidth c) in
  let h := Int.u32 (mHeight c) in
  let inV :=
    mkVideoDef "video/raw" w h (Int.s32 w) h 0 (mFramerate c) OMX_FALSE
      OMX_VIDEO_CodingUnused (mColorFormat c) in
  let inD :=
    mkPortDef size kInputPortIndex OMX_DirInput numInputBuffers
      numInputBuffers (nBufferSize def) OMX_TRUE OMX_FALSE OMX_FALSE
      kInputBufferAlignment inV in
  let outV :=
    mkVideoDef mime w h 0 0 (mBitrate c) (Z.shiftl 0 16) OMX_FALSE
      (mCodingType c) OMX_COLOR_FormatUnused in
  let outD :=
    mkPortDef size kOutputPortIndex OMX_DirOutput numOutputBuffers
      numOutputBuffers (nBufferSize def) OMX_TRUE OMX_FALSE OMX_FALSE
      kOutputBufferAlignment outV in
  updatePortParams (with_ports inD outD c).

End Negotiation.

(** ** Byte buffers

    A buffer maps a byte offset from its base pointer to the byte stored
    there; a pointer into it is an offset.  Multi-byte accesses are
    little-endian, as on every Android target. *)

Definition buffer : Type := Z -> Z.

Definition store8 (m : buffer) (a v : Z) : buffer :=
  fun a' => if a' =? a then Int.u8 v else m a'.

Definition load32 (m : buffer) (a : Z) : Z :=
  Z.lor (m a)
    (Z.lor (Z.shiftl (m (a + 1)) 8)
       (Z.lor (Z.shiftl (m (a + 2)) 16) (Z.shiftl (m (a + 3)) 24))).

Definition store16 (m : buffer) (a v : Z) : buffer :=
  store8 (store8 m a v) (a + 1) (Z.shiftr (Int.u16 v) 8).

(** [memcpy(dst + d, src + s, n)] *)
Fixpoint memcpy (n : nat) (dst : buffer) (d : Z) (src : buffer) (s : Z) : buffer :=
  match n with
  | O => dst
  | S n' => memcpy n' (store8 dst d (src s)) (d + 1) src (s + 1)
  end.

(** Every cell holds a byte. *)
Definition is_byte (b : Z) : Prop := 0 <= b < 256.
Definition bytes (m : buffer) : Prop := forall a, 0 <= m a < 256.

Definition buffer_of_list (l : list Z) : buffer :=
  fun a => if a <? 0 then 0 else nth (Z.to_nat a) l 0.

(** The [n] bytes from offset [a]. *)
Definition read (m : buffer) (a : Z) (n : nat) : list Z :=
  map (fun i => m (a + Z.of_nat i)) (seq 0 n).

(** ** Semiplanar to planar *)

Module SemiPlanar.

(** The running pointers of the chroma loop and the output written so
    far. *)
Record state : Type := mkState {
  out : buffer;
  inYVU_4 : Z;
  outCb : Z;
  outCr : Z
}.

(** One pass of the inner loop body. *)
Definition body (inYVU : buffer) (st : state) : state :=
  let temp := load32 inYVU (inYVU_4 st) in
  let tempU := Z.land temp 255 in
  let tempU := Z.lor tempU (Z.land (Z.shiftr temp 8) 65280) in
  let tempV := Z.land (Z.shiftr temp 8) 255 in
  let tempV := Z.lor tempV (Z.land (Z.shiftr temp 16) 65280) in
  let o := store16 (out st) (outCb st) tempU in
  let o := store16 o (outCr st) tempV in
  mkState o (inYVU_4 st + 4) (outCb st + 2) (outCr st + 2).

(** [for (j = width >> 2; j > 0; --j)] *)
Fixpoint loop_j (inYVU : buffer) (j : nat) (st : state) : state :=
  match j with
  | O => st
  | S j' => loop_j inYVU j' (body inYVU st)
  end.

(** [for (i = height >> 1; i > 0; --i)] *)
Fixpoint loop_i (inYVU : buffer) (i : nat) (width : Z) (st : state) : state :=
  match i with
  | O => st
  | S i' =>
      loop_i inYVU i' width (loop_j inYVU (Z.to_nat (Z.shiftr width 2)) st)
  end.

End SemiPlanar.

Definition ConvertYUV420SemiPlanarToYUV420Planar
    (inYVU outYUV : buffer) (width height : Z) : buffer :=
  let outYsize := Int.smul32 width height in
  let outCb := outYsize in
  let outCr := outYsize + Z.shiftr outYsize 2 in
  let outY := memcpy (Z.to_nat (Int.usize outYsize)) outYUV 0 inYVU 0 in
  SemiPlanar.out
    (SemiPlanar.loop_i inYVU (Z.to_nat (Z.shiftr height 1)) width
       (SemiPlanar.mkState outY outYsize outCb outCr)).

(** The reference packer, from the words of the specification: a planar
    image is its Y plane, then its Cb plane, then its Cr plane; the
    semiplanar layout keeps the Y plane and interleaves the two chroma
    planes byte by byte, Cb first. *)
Fixpoint interleave (cb cr : list Z) : list Z :=
  match cb, cr with
  | u :: cb', v :: cr' => u :: v :: interleave cb' cr'
  | _, _ => []
  end.

Definition packSemiPlanar (y cb cr : list Z) : list Z := y ++ interleave cb cr.

(** ** Packed RGB to planar *)

Module RGB.

Definition luma (red green blue : Z) : Z :=
  Int.add32
    (Int.shr32
       (Int.add32
          (Int.add32 (Int.add32 (Int.mul32 red 65) (Int.mul32 green 129))
             (Int.mul32 blue 25))
          128)
       8)
    16.

Definition U (red green blue : Z) : Z :=
  Int.add32
    (Int.shr32
       (Int.add32
          (Int.add32
             (Int.sub32 (Int.mul32 (Int.neg32 red) 38) (Int.mul32 green 74))
             (Int.mul32 blue 112))
          128)
       8)
    128.

Definition V (red green blue : Z) : Z :=
  Int.add32
    (Int.shr32
       (Int.add32
          (Int.sub32
             (Int.sub32 (Int.mul32 red 112) (Int.mul32 green 94))
             (Int.mul32 blue 18))
          128)
       8)
    128.

(** The destination and the pointers the two loops advance. *)
Record state : Type := mkState {
  dst : buffer;
  src : Z;
  dstY : Z;
  dstU : Z;
  dstV : Z
}.

Section Loops.

Variable pixels : buffer.          (* the memory [src] points into *)
Variables dstStride width srcStride : Z.
Variables redOffset greenOffset blueOffset : Z.

(** The body of the loop over [x]. *)
Definition pixel (x y : Z) (st : state) : state :=
  let red := pixels (src st + redOffset) in
  let green := pixels (src st + greenOffset) in
  let blue := pixels (src st + blueOffset) in
  let d := store8 (dst st) (dstY st + x) (luma red green blue) in
  let d :=
    if (Z.land x 1 =? 0) && (Z.land y 1 =? 0) then
      store8 (store8 d (dstU st + Z.shiftr x 1) (U red green blue))
        (dstV st + Z.shiftr x 1) (V red green blue)
    else d in
  mkState d (src st + 4) (dstY st) (dstU st) (dstV st).

(** [for (x = ...; x < width; ++x)], [n] passes left. *)
Fixpoint loop_x (n : nat) (x y : Z) (st : state) : state :=
  match n with
  | O => st
  | S n' => loop_x n' (x + 1) y (pixel x y st)
  end.

(** What follows the loop over [x] in the body of the loop over [y]. *)
Definition next_row (y : Z) (st : state) : state :=
  let half := if Z.land y 1 =? 0 then Z.shiftr dstStride 1 else 0 in
  mkState (dst st) (src st + (srcStride - 4 * width)) (dstY st + dstStride)
    (dstU st + half) (dstV st + half).

(** [for (y = ...; y < height; ++y)], [n] passes left. *)
Fixpoint loop_y (n : nat) (y : Z) (st : state) : state :=
  match n with
  | O => st
  | S n' => loop_y n' (y + 1) (next_row y (loop_x (Z.to_nat width) 0 y st))
  end.

End Loops.

(** The three bytes the pixel at [p] gives rise to. *)
Definition lumaAt (pixels : buffer) (ro go bo p : Z) : Z :=
  Int.u8 (luma (pixels (p + ro)) (pixels (p + go)) (pixels (p + bo))).
Definition UAt (pixels : buffer) (ro go bo p : Z) : Z :=
  Int.u8 (U (pixels (p + ro)) (pixels (p + go)) (pixels (p + bo))).
Definition VAt (pixels : buffer) (ro go bo p : Z) : Z :=
  Int.u8 (V (pixels (p + ro)) (pixels (p + go)) (pixels (p + bo))).

(** Where the pointers stand when the loop over [y] enters row [y], for
    a destination at [Y0] and a source at [src0]. *)
Definition at_row (dstStride srcStride Y0 dstVStride src0 : Z)
    (y : Z) (st : state) : Prop :=
  dstY st = Y0 + y * dstStride
  /\ dstU st = Y0 + dstStride * dstVStride + (y + 1) / 2 * (dstStride / 2)
  /\ dstV st
     = Y0 + dstStride * dstVStride + dstStride / 2 * (dstVStride / 2)
       + (y + 1) / 2 * (dstStride / 2)
  /\ src st = src0 + y * srcStride.

End RGB.

Section Conversion.

(** The build-time macro of the same name. *)
Variable SURFACE_IS_BGR32 : bool.

Definition redOffset (bgr : bool) : Z :=
  let bgr := if SURFACE_IS_BGR32 then negb bgr else bgr in
  if bgr then 2 else 0.
Definition greenOffset : Z := 1.
Definition blueOffset (bgr : bool) : Z :=
  let bgr := if SURFACE_IS_BGR32 then negb bgr else bgr in
  if bgr then 0 else 2.

(** [ConvertRGB32ToPlanar]: [dst] is the buffer [dstY] points into (at
    offset [dstY]), [pixels] the one [src] points into. The two [CHECK]s
    abort on an odd width or height. *)
Definition ConvertRGB32ToPlanar (dst : buffer) (dstY : Z)
    (dstStride dstVStride : Z) (pixels : buffer) (src : Z)
    (width height srcStride : Z) (bgr : bool) : outcome buffer :=
  if negb (Z.land width 1 =? 0) then Aborted
  else if negb (Z.land height 1 =? 0) then Aborted
  else
    let dstU := dstY + Int.usize (dstStride * dstVStride) in
    let dstV :=
      dstU + Int.usize (Z.shiftr dstStride 1 * Z.shiftr dstVStride 1) in
    Returned
      (RGB.dst
         (RGB.loop_y pixels dstStride width srcStride
            (redOffset bgr) greenOffset (blueOffset bgr)
            (Z.to_nat height) 0
            (RGB.mkState dst src dstY dstU dstV))).

(** ** Flexible YUV to planar *)

Record android_ycbcr : Set := mkYCbCr {
  ycbcr_y : Z;
  ycbcr_cb : Z;
  ycbcr_cr : Z;
  ystride : Z;
  cstride : Z;
  chroma_step : Z
}.

(** [n] rows of [memcpy(dst, src, len)], the pointers advancing by
    their strides. *)
Fixpoint copy_rows (n : nat) (len : nat) (d : buffer) (dp dstep : Z)
    (s : buffer) (sp sstep : Z) : buffer :=
  match n with
  | O => d
  | S n' =>
      copy_rows n' len (memcpy len d dp s sp) (dp + dstep) dstep
        s (sp + sstep) sstep
  end.

(** The planar chroma loop: a row of U and a row of V per pass. *)
Fixpoint planar_rows (n : nat) (len : nat) (d : buffer) (dU dV dstep : Z)
    (s : buffer) (sU sV sstep : Z) : buffer :=
  match n with
  | O => d
  | S n' =>
      let d := memcpy len d dU s sU in
      let d := memcpy len d dV s sV in
      planar_rows n' len d (dU + dstep) (dV + dstep) dstep
        s (sU + sstep) (sV + sstep) sstep
  end.

(** The inner loop of the arbitrary-step chroma walk; it returns the
    four advanced pointers. *)
Fixpoint step_row (n : nat) (d : buffer) (dU dV : Z) (s : buffer)
    (sU sV step : Z) : buffer * (Z * Z * Z * Z) :=
  match n with
  | O => (d, (dU, dV, sU, sV))
  | S n' =>
      let d := store8 d dU (s sU) in
      let d := store8 d dV (s sV) in
      step_row n' d (dU + 1) (dV + 1) s (sU + step) (sV + step) step
  end.

Fixpoint step_rows (n : nat) (len : nat) (d : buffer) (dU dV dskip : Z)
    (s : buffer) (sU sV step sskip : Z) : buffer :=
  match n with
  | O => d
  | S n' =>
      let '(d, (dU, dV, sU, sV)) := step_row len d dU dV s sU sV step in
      step_rows n' len d (dU + dskip) (dV + dskip) dskip
        s (sU + sskip) (sV + sskip) step sskip
  end.

Definition ConvertFlexYUVToPlanar (dst : buffer) (dstStride dstVStride : Z)
    (mapped : buffer) (ycbcr : android_ycbcr) (width height : Z) : buffer :=
  let dstU := Int.usize (dstVStride * dstStride) in
  let dstV :=
    dstU + Int.usize (Z.shiftr dstVStride 1 * Z.shiftr dstStride 1) in
  let d :=
    copy_rows (Z.to_nat (Int.usize height)) (Z.to_nat (Int.usize width))
      dst 0 dstStride mapped (ycbcr_y ycbcr) (ystride ycbcr) in
  let rows := Z.to_nat (Int.usize (Z.shiftr height 1)) in
  if (cstride ycbcr =? Z.shiftr (ystride ycbcr) 1)
     && (chroma_step ycbcr =? 1)
  then
    planar_rows rows (Z.to_nat (Int.usize (Z.shiftr width 1))) d
      dstU dstV (Z.shiftr dstStride 1)
      mapped (ycbcr_cb ycbcr) (ycbcr_cr ycbcr) (cstride ycbcr)
  else
    let half := Int.usize (Z.shiftr width 1) in
    step_rows rows (Z.to_nat half) d dstU dstV
      (Z.shiftr dstStride 1 - Z.shiftr width 1)
      mapped (ycbcr_cb ycbcr) (ycbcr_cr ycbcr) (chroma_step ycbcr)
      (cstride ycbcr - Z.shiftr width 1 * chroma_step ycbcr).

End Conversion.

(** ** Extraction of a graphic buffer *)

Inductive MetadataBufferType : Set :=
| kMetadataBufferTypeANWBuffer
| kMetadataBufferTypeGrallocSource
| kMetadataBufferTypeOther (code : Z).

Inductive HalPixelFormat : Set :=
| HAL_PIXEL_FORMAT_YV12
| HAL_PIXEL_FORMAT_YCrCb_420_SP
| HAL_PIXEL_FORMAT_YCbCr_420_888
| HAL_PIXEL_FORMAT_RGBX_8888
| HAL_PIXEL_FORMAT_RGBA_8888
| HAL_PIXEL_FORMAT_BGRA_8888
| HAL_PIXEL_FORMAT_Other (code : Z).

Record ANativeWindowBuffer : Set := mkANWBuffer {
  anw_handle : Z;
  anw_format : HalPixelFormat;
  anw_stride : Z;               (* int *)
  anw_height : Z                (* int *)
}.

(** What [src] points to: the type tag, and the fields the two casts
    ([VideoNativeMetadata], [VideoGrallocMetadata]) read behind it. *)
Record Metadata : Set := mkMetadata {
  eType : MetadataBufferType;
  pBuffer : ANativeWindowBuffer;
  nFenceFd : Z;                 (* int *)
  pHandle : Z
}.

Definition set_nFenceFd (fd : Z) (m : Metadata) : Metadata :=
  mkMetadata (eType m) (pBuffer m) fd (pHandle m).

(** The result of [extractGraphicBuffer]: the returned pointer ([None]
    for [NULL], otherwise [dst]), the destination memory and the source
    metadata as the call leaves them. *)
Record Extracted : Type := mkExtracted {
  ret : option Z;
  dst_after : buffer;
  src_after : Metadata
}.

Section Extraction.

Variable SURFACE_IS_BGR32 : bool.
Variable sizeof_VideoNativeMetadata : Z.
Variable sizeof_VideoGrallocMetadata : Z.
Variable kFenceTimeoutMs : Z.
(** [Fence(fd).wait(timeout)]; [0] is [OK]. *)
Variable Fence_wait : Z -> Z -> Z.
(** [GraphicBufferMapper::lock] and [lockYCbCr] on a handle: the status
    and the pointer (or plane description) into the mapped memory. *)
Variable mapper_lock : Z -> Z * Z.
Variable mapper_lockYCbCr : Z -> Z * android_ycbcr.
Variable mapped : buffer.
(** The pixels [glReadPixels] leaves in [mShmData] after the draw of the
    imported buffer. *)
Variable glReadPixels : ANativeWindowBuffer -> Z -> Z -> buffer.

Definition is_yuv_layout (format : HalPixelFormat) : bool :=
  match format with
  | HAL_PIXEL_FORMAT_YV12
  | HAL_PIXEL_FORMAT_YCrCb_420_SP
  | HAL_PIXEL_FORMAT_YCbCr_420_888 => true
  | _ => false
  end.

Definition is_BGRA (format : HalPixelFormat) : bool :=
  match format with HAL_PIXEL_FORMAT_BGRA_8888 => true | _ => false end.

(** The part of [extractGraphicBuffer] after the metadata has been read:
    the size check, the lock and the conversion. [ycbcr0] is the
    uninitialised local of the same name. *)
Definition convertLocked (c : Component) (dst : buffer) (dstSize : Z)
    (meta : Metadata) (width height : Z)
    (handle : Z) (format : HalPixelFormat) (srcStride srcVStride : Z)
    (ycbcr0 : android_ycbcr) : outcome Extracted :=
  let dstStride := width in
  let dstVStride := height in
  let neededSize :=
    Int.usize
      (dstStride * dstVStride + Z.shiftr width 1
       + Z.shiftr dstStride 1
         * Int.usize (Z.shiftr dstVStride 1 + Z.shiftr height 1 - 1)) in
  if dstSize <? neededSize then Returned (mkExtracted None dst meta)
  else
    let '(res, bits, ycbcr) :=
      match format with
      | HAL_PIXEL_FORMAT_YCbCr_420_888 =>
          let (res, y) := mapper_lockYCbCr handle in (res, 0, y)
      | _ => let (res, bits) := mapper_lock handle in (res, bits, ycbcr0)
      end in
    if negb (res =? 0) then Returned (mkExtracted None dst meta)
    else
      let rgb (pixels : buffer) (src : Z) : outcome Extracted :=
        match ConvertRGB32ToPlanar SURFACE_IS_BGR32 dst 0 dstStride dstVStride
                pixels src width height srcStride (is_BGRA format) with
        | Returned d => Returned (mkExtracted (Some 0) d meta)
        | Aborted => Aborted
        end in
      let gpu : outcome Extracted :=
        match mEglDisplay c with
        | Some _ => rgb (glReadPixels (pBuffer meta) width height) 0
        | None => Returned (mkExtracted None dst meta)
        end in
      match format with
      | HAL_PIXEL_FORMAT_YV12 =>
          let cr := bits + Int.usize (srcStride * srcVStride) in
          let y :=
            mkYCbCr bits
              (cr + Int.usize (Z.shiftr srcStride 1 * Z.shiftr srcVStride 1))
              cr srcStride (Z.shiftr srcStride 1) 1 in
          Returned
            (mkExtracted (Some 0)
               (ConvertFlexYUVToPlanar dst dstStride dstVStride mapped y
                  (Int.s32 width) (Int.s32 height))
               meta)
      | HAL_PIXEL_FORMAT_YCrCb_420_SP =>
          let cr := bits + Int.usize (srcStride * srcVStride) in
          let y := mkYCbCr bits (cr + 1) cr srcStride srcStride 2 in
          Returned
            (mkExtracted (Some 0)
               (ConvertFlexYUVToPlanar dst dstStride dstVStride mapped y
                  (Int.s32 width) (Int.s32 height))
               meta)
      | HAL_PIXEL_FORMAT_YCbCr_420_888 =>
          if mIsPowervr c then gpu
          else
            Returned
              (mkExtracted (Some 0)
                 (ConvertFlexYUVToPlanar dst dstStride dstVStride mapped ycbcr
                    (Int.s32 width) (Int.s32 height))
                 meta)
      | HAL_PIXEL_FORMAT_RGBX_8888
      | HAL_PIXEL_FORMAT_RGBA_8888
      | HAL_PIXEL_FORMAT_BGRA_8888 =>
          if mIsPowervr c then gpu else rgb mapped bits
      | HAL_PIXEL_FORMAT_Other _ => Returned (mkExtracted None dst meta)
      end.

Definition extractGraphicBuffer (c : Component) (dst : buffer) (dstSize : Z)
    (src : Metadata) (srcSize : Z) (width height : Z)
    (ycbcr0 : android_ycbcr) : outcome Extracted :=
  match eType src with
  | kMetadataBufferTypeOther _ => Returned (mkExtracted None dst src)
  | kMetadataBufferTypeANWBuffer =>
      if srcSize <? sizeof_VideoNativeMetadata
      then Returned (mkExtracted None dst src)
      else
        let buffer := pBuffer src in
        let handle := anw_handle buffer in
        let format := anw_format buffer in
        let srcStride := Int.usize (anw_stride buffer) in
        let srcVStride := Int.usize (anw_height buffer) in
        let srcStride :=
          if mIsPowervr c || negb (is_yuv_layout format)
          then Int.usize (srcStride * 4) else srcStride in
        if 0 <=? nFenceFd src then
          let fd := nFenceFd src in
          let src := set_nFenceFd (-1) src in
          if negb (Fence_wait fd kFenceTimeoutMs =? 0)
          then Returned (mkExtracted None dst src)
          else
            convertLocked c dst dstSize src width height
              handle format srcStride srcVStride ycbcr0
        else
          convertLocked c dst dstSize src width height
            handle format srcStride srcVStride ycbcr0
  | kMetadataBufferTypeGrallocSource =>
      if srcSize <? sizeof_VideoGrallocMetadata
      then Returned (mkExtracted None dst src)
      else
        convertLocked c dst dstSize src width height
          (pHandle src) HAL_PIXEL_FORMAT_RGBA_8888
          (Int.usize (width * 4)) height ycbcr0
  end.

End Extraction.

(** ** Configuration changes

    The three ways a client changes the configuration: the port
    definition, the port format, and the store-metadata toggle. *)

Inductive ConfigChange : Set :=
| PortParams (port : OMX_PARAM_PORTDEFINITIONTYPE)
| PortFormat (format : OMX_VIDEO_PARAM_PORTFORMATTYPE)
| MetadataMode (storeParam : StoreMetaDataInBuffersParams).

Section Changes.

Variable sizeof_VideoNativeMetadata : Z.
Variable sizeof_VideoGrallocMetadata : Z.
Context {valid_portdef : OMXParam OMX_PARAM_PORTDEFINITIONTYPE}.
Context {valid_portformat : OMXParam OMX_VIDEO_PARAM_PORTFORMATTYPE}.
Context {valid_storemeta : OMXParam StoreMetaDataInBuffersParams}.
Context {valid_role : OMXParam OMX_PARAM_COMPONENTROLETYPE}.
Variable SimpleSoftOMXComponent_internalSetParameter :
  OMX_PARAM -> Component -> OMX_ERRORTYPE * Component.
Variable OMX_MAX_STRINGNAME_SIZE : Z.

Definition apply_change (ch : ConfigChange) (c : Component)
    : OMX_ERRORTYPE * Component :=
  match ch with
  | PortParams port =>
      internalSetPortParams sizeof_VideoNativeMetadata
        sizeof_VideoGrallocMetadata port c
  | PortFormat format =>
      internalSetParameter sizeof_VideoNativeMetadata
        sizeof_VideoGrallocMetadata SimpleSoftOMXComponent_internalSetParameter
        OMX_MAX_STRINGNAME_SIZE (OMX_IndexParamVideoPortFormat format) c
  | MetadataMode storeParam =>
      internalSetParameter sizeof_VideoNativeMetadata
        sizeof_VideoGrallocMetadata SimpleSoftOMXComponent_internalSetParameter
        OMX_MAX_STRINGNAME_SIZE (kStoreMetaDataExtensionIndex storeParam) c
  end.

End Changes.

(** What a recomputation leaves in the two port definitions. *)
Definition recomputed (c : Component) : Prop :=
  nFrameWidth (video (inDef c)) = Int.u32 (mWidth c)
  /\ nFrameHeight (video (inDef c)) = Int.u32 (mHeight c)
  /\ eColorFormat (video (inDef c)) = mColorFormat c
  /\ nBufferSize (outDef c)
     = Z.max (mMinOutputBufferSize c)
         (((mWidth c * mHeight c * 3) mod 2 ^ 32) / 2 / mMinCompressionRatio c).

(** The invariant of the two port definitions: the output buffer size
    is the policy applied to the raw size of the input port's geometry. *)
Definition port_sizes_consistent (c : Component) : Prop :=
  nBufferSize (outDef c)
  = Z.max (mMinOutputBufferSize c)
      (rawBufferSize (nStride (video (inDef c)))
         (nSliceHeight (video (inDef c)))
       / mMinCompressionRatio c).

(** The accepted requests that touch no member: a port format or a
    store-metadata toggle addressed to the output port. *)
Definition output_port_request (ch : ConfigChange) : Prop :=
  match ch with
  | PortParams _ => False
  | PortFormat format => pf_nPortIndex format = kOutputPortIndex
  | MetadataMode storeParam => sm_nPortIndex storeParam = kOutputPortIndex
  end.

(** The [ro.hardware.egl] property is set to [name]. *)
Definition egl_is (property_get : string -> string -> Z * string)
    (name : string) : Prop :=
  0 < fst (property_get "ro.hardware.egl" "default")%string
  /\ snd (property_get "ro.hardware.egl" "default")%string = name.

(** ** A concrete component

    An encoder of QCIF frames on a 64-bit build, used to run the model. *)

Module Example.

Definition sizeof_VideoNativeMetadata : Z := 24.
Definition sizeof_VideoGrallocMetadata : Z := 16.

(** Every structure passes the size check. *)
Definition well_sized (T : Type) : OMXParam T := fun _ => true.

(** A base class that accepts what the component hands on. *)
Definition base_set (p : OMX_PARAM) (c : Component) : OMX_ERRORTYPE * Component :=
  (OMX_ErrorNone, c).

(** Modelled from the spec: the port-definition read of the base class
    [SimpleSoftOMXComponent::internalGetParameter], which is not in this
    file of the repository; querying a port's configuration is a pure
    read of the stored definition and never fails. *)
Definition base_getPortDefinition (def : OMX_PARAM_PORTDEFINITIONTYPE)
    (c : Component) : OMX_ERRORTYPE * OMX_PARAM_PORTDEFINITIONTYPE :=
  (OMX_ErrorNone, if nPortIndex def =? kInputPortIndex then inDef c else outDef c).

(** No [ro.hardware.egl] property: the call yields its default. *)
Definition property_unset (key default : string) : Z * string :=
  (Z.of_nat (String.length default), default).

Definition property_mesa (key default : string) : Z * string :=
  (4, "mesa"%string).

Definition blank : OMX_PARAM_PORTDEFINITIONTYPE :=
  mkPortDef 0 0 OMX_DirInput 0 0 0 0 0 0 0
    (mkVideoDef "" 0 0 0 0 0 0 0 OMX_VIDEO_CodingUnused OMX_COLOR_FormatUnused).

Definition avc : OMX_VIDEO_CODINGTYPE := OMX_VIDEO_CodingOther 7.

Definition encoder : Component :=
  initPorts sizeof_VideoNativeMetadata sizeof_VideoGrallocMetadata
    blank 96 2 2 31584 "video/avc" 2
    (construct property_unset blank "video_encoder.avc" avc [] 176 144).

(** A well-formed input-port definition asking for [w] x [h] frames in
    color format [f]. *)
Definition input_request (w h : Z) (f : OMX_COLOR_FORMATTYPE)
    : OMX_PARAM_PORTDEFINITIONTYPE :=
  mkPortDef 96 kInputPortIndex OMX_DirInput 2 2 0 1 0 0 1
    (mkVideoDef "video/raw" w h w h 0 (Z.shiftl 15 16) 0
       OMX_VIDEO_CodingUnused f).

(** A well-formed output-port definition with compression format [k]. *)
Definition output_request (k : OMX_VIDEO_CODINGTYPE) (bitrate : Z)
    : OMX_PARAM_PORTDEFINITIONTYPE :=
  mkPortDef 96 kOutputPortIndex OMX_DirOutput 2 2 0 1 0 0 2
    (mkVideoDef "video/avc" 176 144 0 0 bitrate 0 0 k OMX_COLOR_FormatUnused).

(** The member functions with the parameters above. *)
Definition set_port_params :=
  internalSetPortParams sizeof_VideoNativeMetadata sizeof_VideoGrallocMetadata
    (valid_portdef := well_sized _).

Definition set_parameter :=
  internalSetParameter sizeof_VideoNativeMetadata sizeof_VideoGrallocMetadata
    (valid_portdef := well_sized _) (valid_portformat := well_sized _)
    (valid_storemeta := well_sized _) (valid_role := well_sized _)
    base_set 128.

Definition change :=
  apply_change sizeof_VideoNativeMetadata sizeof_VideoGrallocMetadata
    (valid_portdef := well_sized _) (valid_portformat := well_sized _)
    (valid_storemeta := well_sized _) (valid_role := well_sized _)
    base_set 128.

Definition get_parameter (property_get : string -> string -> Z * string) :=
  internalGetParameter
    (valid_portformat := well_sized _) (valid_profilelevel := well_sized _)
    (fun p _ => (OMX_ErrorNone, p)) property_get 3 base_getPortDefinition.

Definition validate :=
  validateInputBuffer sizeof_VideoNativeMetadata sizeof_VideoGrallocMetadata.

Definition frameSize_of :=
  frameSize sizeof_VideoNativeMetadata sizeof_VideoGrallocMetadata.

(** A 4 x 2 planar image: eight luma bytes and two bytes per chroma
    plane. *)
Definition y_plane : list Z := [16; 32; 48; 64; 80; 96; 112; 128].
Definition cb_plane : list Z := [100; 101].
Definition cr_plane : list Z := [200; 201].

(** A 2 x 2 RGBA image: a red, a green, a blue and a white pixel. *)
Definition rgba : list Z :=
  [255; 0; 0; 255;  0; 255; 0; 255;  0; 0; 255; 255;  255; 255; 255; 255].

Definition zeroed : buffer := fun _ => 0.

(** The metadata of a native-window buffer that holds [rgba] and comes
    with the fence descriptor 5. *)
Definition fenced : Metadata :=
  mkMetadata kMetadataBufferTypeANWBuffer
    (mkANWBuffer 1 HAL_PIXEL_FORMAT_RGBA_8888 2 2) 5 0.

(** [extractGraphicBuffer] of a 2 x 2 frame into a zeroed destination of
    6 bytes, on a platform whose fence waits return [status]. *)
Definition extract (status : Z) : outcome Extracted :=
  extractGraphicBuffer false sizeof_VideoNativeMetadata
    sizeof_VideoGrallocMetadata 1000 (fun _ _ => status)
    (fun _ => (0, 0)) (fun _ => (0, mkYCbCr 0 0 0 0 0 0))
    (buffer_of_list rgba) (fun _ _ _ => zeroed)
    encoder zeroed 6 fenced 24 2 2 (mkYCbCr 0 0 0 0 0 0).

(** The encoder after metadata mode was switched on. *)
Definition opaque_encoder : Component :=
  snd (set_parameter
         (kStoreMetaDataExtensionIndex (mkStoreMeta 12 kInputPortIndex OMX_TRUE))
         encoder).

End Example.

(** ** Teardown of the rendering context *)

(** The handles of the rendering context that [closeEgl] reads and
    clears besides [mEglDisplay] and [mShmData]: [mProgram] is [0] when
    there is no program; the surface and the context are [None] for
    [EGL_NO_SURFACE] and [EGL_NO_CONTEXT]. *)
Record EglHandles : Set := mkEglHandles {
  mProgram : Z;
  mEglSurface : option Z;
  mEglContext : option Z
}.

(** The releases [closeEgl] performs, in the order it performs them. *)
Inductive EglCall : Set :=
| delete_mShmData
| glDeleteProgram (program : Z)
| eglMakeCurrent_none (display : Z)
| eglDestroySurface (display surface : Z)
| eglDestroyContext (display context : Z)
| eglTerminate (display : Z).

Definition with_mEglDisplay (d : option Z) (c : Component) : Component :=
  mkComponent (mInputDataIsMeta c) (mWidth c) (mHeight c) (mBitrate c)
    (mFramerate c) (mColorFormat c) (mMinOutputBufferSize c)
    (mMinCompressionRatio c) (mComponentRole c) (mCodingType c)
    (mProfileLevels c) (mIsPowervr c) d (mShmData c) (inDef c) (outDef c).

Definition closeEgl (c : Component) (h : EglHandles)
    : Component * EglHandles * list EglCall :=
  if mIsPowervr c then
    let '(c, calls) :=
      match mShmData c with
      | Some _ => (with_mShmData None c, [delete_mShmData])
      | None => (c, [])
      end in
    match mEglDisplay c with
    | None => (c, h, calls)
    | Some display =>
        let '(program, calls) :=
          if negb (mProgram h =? 0)
          then (0, calls ++ [glDeleteProgram (mProgram h)])
          else (mProgram h, calls) in
        let calls := calls ++ [eglMakeCurrent_none display] in
        let calls :=
          match mEglSurface h with
          | Some s => calls ++ [eglDestroySurface display s]
          | None => calls
          end in
        let calls :=
          match mEglContext h with
          | Some x => calls ++ [eglDestroyContext display x]
          | None => calls
          end in
        let calls := calls ++ [eglTerminate display] in
        (with_mEglDisplay None c, mkEglHandles program None None, calls)
    end
  else (c, h, []).

(** ** The states a component goes through *)

Section Reachable.

Variable sizeof_VideoNativeMetadata : Z.
Variable sizeof_VideoGrallocMetadata : Z.
Context {valid_portdef : OMXParam OMX_PARAM_PORTDEFINITIONTYPE}.
Context {valid_portformat : OMXParam OMX_VIDEO_PARAM_PORTFORMATTYPE}.
Context {valid_storemeta : OMXParam StoreMetaDataInBuffersParams}.
Context {valid_role : OMXParam OMX_PARAM_COMPONENTROLETYPE}.
Variable SimpleSoftOMXComponent_internalSetParameter :
  OMX_PARAM -> Component -> OMX_ERRORTYPE * Component.
Variable OMX_MAX_STRINGNAME_SIZE : Z.
Variable property_get : string -> string -> Z * string.

(** The arguments of the constructor and of [initPorts]. *)
Variable noPort def : OMX_PARAM_PORTDEFINITIONTYPE.
Variable componentRole mime : string.
Variable codingType : OMX_VIDEO_CODINGTYPE.
Variable profileLevels : list (Z * Z).
Variables width height size : Z.
Variables numInputBuffers numOutputBuffers outputBufferSize : Z.
Variable minCompressionRatio : Z.

(** The component after its constructor and [initPorts], and after any
    number of configuration requests, accepted or rejected. *)
Inductive reachable : Component -> Prop :=
| reachable_init :
    reachable
      (initPorts sizeof_VideoNativeMetadata sizeof_VideoGrallocMetadata
         def size numInputBuffers numOutputBuffers outputBufferSize mime
         minCompressionRatio
         (construct property_get noPort componentRole codingType
            profileLevels width height))
| reachable_change (ch : ConfigChange) (c : Component) :
    reachable c ->
    reachable
      (snd (apply_change sizeof_VideoNativeMetadata
              sizeof_VideoGrallocMetadata
              SimpleSoftOMXComponent_internalSetParameter
              OMX_MAX_STRINGNAME_SIZE ch c)).

(** What holds of the members and the two port definitions in every
    such state. *)
Definition negotiated (c : Component) : Prop :=
  port_sizes_consistent c
  /\ supportedInputColor (mColorFormat c) = true
  /\ eColorFormat (video (inDef c)) = mColorFormat c
  /\ nBufferSize (inDef c)
     = (if color_eqb (mColorFormat c) OMX_COLOR_FormatAndroidOpaque
        then Int.u32 (metadataBufferSize sizeof_VideoNativeMetadata
                        sizeof_VideoGrallocMetadata)
        else rawBufferSize (nStride (video (inDef c)))
               (nSliceHeight (video (inDef c))))
  /\ nFrameWidth (video (outDef c)) = nFrameWidth (video (inDef c))
  /\ nFrameHeight (video (outDef c)) = nFrameHeight (video (inDef c))
  /\ nBitrate (video (outDef c)) = mBitrate c
  /\ mCodingType c = codingType
  /\ eCompressionFormat (video (outDef c)) = codingType
  /\ eColorFormat (video (outDef c)) = OMX_COLOR_FormatUnused
  /\ eCompressionFormat (video (inDef c)) = OMX_VIDEO_CodingUnused
  /\ nPortIndex (inDef c) = kInputPortIndex
  /\ nPortIndex (outDef c) = kOutputPortIndex
  /\ mMinOutputBufferSize c = outputBufferSize
  /\ mMinCompressionRatio c = minCompressionRatio
  /\ (mIsPowervr c = false -> mShmData c = None).

End Reachable.

(** ** Further scenarios *)

Module Scenario.

(** The states of the QCIF encoder of [Example], and what holds of
    them. *)
Definition reachable : Component -> Prop :=
  reachable Example.sizeof_VideoNativeMetadata
    Example.sizeof_VideoGrallocMetadata
    (valid_portdef := Example.well_sized _)
    (valid_portformat := Example.well_sized _)
    (valid_storemeta := Example.well_sized _)
    (valid_role := Example.well_sized _)
    Example.base_set 128 Example.property_unset Example.blank Example.blank
    "video_encoder.avc" "video/avc" Example.avc [] 176 144 96 2 2 31584 2.

Definition negotiated : Component -> Prop :=
  negotiated Example.sizeof_VideoNativeMetadata
    Example.sizeof_VideoGrallocMetadata Example.avc 31584 2.

(** The encoder after metadata mode was switched on and a VGA frame in
    an unknown colour format was proposed. *)
Definition after_rejection : Component :=
  snd (Example.change
         (PortParams (Example.input_request 640 480 (OMX_COLOR_FormatOther 99)))
         Example.opaque_encoder).

(** The 4 x 2 image of [Example] as a window buffer holds it: in NV21
    the Y plane and a plane of V and U bytes in turn; in YV12 the Y
    plane, the V plane and the U plane. *)
Definition nv21 : list Z := Example.y_plane ++ [200; 100; 201; 101].
Definition yv12 : list Z :=
  Example.y_plane ++ Example.cr_plane ++ Example.cb_plane.

(** The metadata of a native-window buffer without a fence. *)
Definition window (format : HalPixelFormat) (stride height : Z) : Metadata :=
  mkMetadata kMetadataBufferTypeANWBuffer
    (mkANWBuffer 1 format stride height) (-1) 0.

(** Gralloc-source metadata: a bare handle. *)
Definition gralloc : Metadata :=
  mkMetadata kMetadataBufferTypeGrallocSource
    (mkANWBuffer 0 (HAL_PIXEL_FORMAT_Other 0) 0 0) (-1) 1.

(** [extractGraphicBuffer] of a [width] x [height] frame from a buffer
    that holds [image], into a zeroed destination of [dstSize] bytes. *)
Definition extract (image : list Z) (src : Metadata)
    (dstSize width height : Z) : outcome Extracted :=
  extractGraphicBuffer false Example.sizeof_VideoNativeMetadata
    Example.sizeof_VideoGrallocMetadata 1000 (fun _ _ => 0)
    (fun _ => (0, 0)) (fun _ => (0, mkYCbCr 0 0 0 0 0 0))
    (buffer_of_list image) (fun _ _ _ => Example.zeroed)
    Example.encoder Example.zeroed dstSize src 24 width height
    (mkYCbCr 0 0 0 0 0 0).

(** What the call of [Example.extract] leaves when the fence times
    out. *)
Definition timed_out : Extracted :=
  mkExtracted None Example.zeroed (set_nFenceFd (-1) Example.fenced).

(** An output buffer filled with the byte 7. *)
Definition sevens : buffer := fun _ => 7.



End Scenario.

(** * Properties *)

(** ** Enumerations and fixed-width arithmetic *)

Lemma color_eqb_eq (a b : OMX_COLOR_FORMATTYPE) : color_eqb a b = true <-> a = b.
Proof.
  destruct a, b; simpl; split; intros E; try reflexivity; try discriminate E.
  - apply Z.eqb_eq in E. now subst.
  - inversion E. apply Z.eqb_refl.
Qed.

Lemma color_eqb_neq (a b : OMX_COLOR_FORMATTYPE) : color_eqb a b = false <-> a <> b.
Proof.
  split.
  - intros E Heq. apply color_eqb_eq in Heq. congruence.
  - intros N. destruct (color_eqb a b) eqn:E; [|reflexivity].
    apply color_eqb_eq in E. contradiction.
Qed.

Lemma coding_eqb_eq (a b : OMX_VIDEO_CODINGTYPE) : coding_eqb a b = true <-> a = b.
Proof.
  destruct a, b; simpl; split; intros E; try reflexivity; try discriminate E.
  - apply Z.eqb_eq in E. now subst.
  - inversion E. apply Z.eqb_refl.
Qed.

Lemma coding_eqb_neq (a b : OMX_VIDEO_CODINGTYPE) : coding_eqb a b = false <-> a <> b.
Proof.
  split.
  - intros E Heq. apply coding_eqb_eq in Heq. congruence.
  - intros N. destruct (coding_eqb a b) eqn:E; [|reflexivity].
    apply coding_eqb_eq in E. contradiction.
Qed.

Lemma u32_s32 (z : Z) : Int.u32 (Int.s32 z) = Int.u32 z.
Proof.
  unfold Int.u32, Int.s32.
  rewrite Zminus_mod_idemp_l. f_equal. lia.
Qed.

Lemma u32_idem (z : Z) : Int.u32 (Int.u32 z) = Int.u32 z.
Proof. unfold Int.u32. apply Z.mod_mod. discriminate. Qed.

Lemma s32_small (z : Z) : - 2 ^ 31 <= z < 2 ^ 31 -> Int.s32 z = z.
Proof.
  intros H. unfold Int.s32. rewrite Z.mod_small; lia.
Qed.

(** The raw size that [updatePortParams] computes from the stored
    geometry is [w * h * 3 / 2] in 32-bit unsigned arithmetic. *)
Lemma rawBufferSize_stored (w h : Z) :
  rawBufferSize (Int.s32 (Int.u32 w)) (Int.u32 h) = ((w * h * 3) mod 2 ^ 32) / 2.
Proof.
  unfold rawBufferSize, Int.mul32. rewrite u32_s32, u32_idem.
  unfold Int.u32. f_equal.
  rewrite Z.mul_mod_idemp_l by discriminate.
  rewrite (Z.mul_mod (_ * _) 3), <- (Z.mul_mod w h) by discriminate.
  now rewrite <- Z.mul_mod by discriminate.
Qed.

(** ** Port negotiation *)

Section NegotiationFacts.

Variable sizeof_VideoNativeMetadata : Z.
Variable sizeof_VideoGrallocMetadata : Z.
Context {valid_portdef : OMXParam OMX_PARAM_PORTDEFINITIONTYPE}.
Context {valid_portformat : OMXParam OMX_VIDEO_PARAM_PORTFORMATTYPE}.
Context {valid_storemeta : OMXParam StoreMetaDataInBuffersParams}.
Context {valid_role : OMXParam OMX_PARAM_COMPONENTROLETYPE}.
Context {valid_profilelevel : OMXParam OMX_VIDEO_PARAM_PROFILELEVELTYPE}.
Variable SimpleSoftOMXComponent_internalSetParameter :
  OMX_PARAM -> Component -> OMX_ERRORTYPE * Component.
Variable SimpleSoftOMXComponent_internalGetParameter :
  OMX_PARAM -> Component -> OMX_ERRORTYPE * OMX_PARAM.
Variable SimpleSoftOMXComponent_getPortDefinition :
  OMX_PARAM_PORTDEFINITIONTYPE -> Component ->
  OMX_ERRORTYPE * OMX_PARAM_PORTDEFINITIONTYPE.
Variable property_get : string -> string -> Z * string.
Variable OMX_MAX_STRINGNAME_SIZE : Z.
Variable GRALLOC_USAGE_SW_READ_OFTEN : Z.

Local Abbreviation updatePortParams :=
  (updatePortParams sizeof_VideoNativeMetadata sizeof_VideoGrallocMetadata).
Local Abbreviation internalSetPortParams :=
  (internalSetPortParams sizeof_VideoNativeMetadata sizeof_VideoGrallocMetadata).
Local Abbreviation internalSetParameter :=
  (internalSetParameter sizeof_VideoNativeMetadata sizeof_VideoGrallocMetadata
     SimpleSoftOMXComponent_internalSetParameter OMX_MAX_STRINGNAME_SIZE).
Local Abbreviation apply_change :=
  (apply_change sizeof_VideoNativeMetadata sizeof_VideoGrallocMetadata
     SimpleSoftOMXComponent_internalSetParameter OMX_MAX_STRINGNAME_SIZE).
Local Abbreviation internalGetParameter :=
  (internalGetParameter SimpleSoftOMXComponent_internalGetParameter
     property_get GRALLOC_USAGE_SW_READ_OFTEN
     SimpleSoftOMXComponent_getPortDefinition).
Local Abbreviation validateInputBuffer :=
  (validateInputBuffer sizeof_VideoNativeMetadata sizeof_VideoGrallocMetadata).
Local Abbreviation frameSize :=
  (frameSize sizeof_VideoNativeMetadata sizeof_VideoGrallocMetadata).
Local Abbreviation metadataBufferSize :=
  (metadataBufferSize sizeof_VideoNativeMetadata sizeof_VideoGrallocMetadata).

Lemma updatePortParams_recomputed (c : Component) : recomputed (updatePortParams c).
Proof.
  unfold recomputed. repeat split.
  cbn -[Z.max Z.div Z.pow Z.mul rawBufferSize Int.u32 Int.s32].
  now rewrite rawBufferSize_stored.
Qed.

(** [initPorts] fixes the policy at its arguments. *)
Lemma initPorts_policy def size nIn nOut outputBufferSize mime ratio c :
  let c' :=
    initPorts sizeof_VideoNativeMetadata sizeof_VideoGrallocMetadata
      def size nIn nOut outputBufferSize mime ratio c in
  mMinOutputBufferSize c' = outputBufferSize
  /\ mMinCompressionRatio c' = ratio /\ recomputed c'.
Proof.
  cbv zeta. split; [reflexivity|]. split; [reflexivity|].
  apply updatePortParams_recomputed.
Qed.

(** How a request ends: either the port definitions and the policy are
    as before (and, if the request was accepted, it was addressed to the
    output port and nothing changed at all), or the request was accepted
    and the last thing it did was [updatePortParams], under the same
    policy. *)
Lemma apply_change_cases (ch : ConfigChange) (c : Component) :
  let r := apply_change ch c in
  (inDef (snd r) = inDef c /\ outDef (snd r) = outDef c
   /\ mMinOutputBufferSize (snd r) = mMinOutputBufferSize c
   /\ mMinCompressionRatio (snd r) = mMinCompressionRatio c
   /\ (fst r = OMX_ErrorNone -> output_port_request ch /\ snd r = c))
  \/ (fst r = OMX_ErrorNone
      /\ exists d, snd r = updatePortParams d
           /\ mMinOutputBufferSize d = mMinOutputBufferSize c
           /\ mMinCompressionRatio d = mMinCompressionRatio c).
Proof.
  cbv zeta. destruct ch as [port | format | storeParam]; cbn.
  - unfold internalSetPortParams.
    destruct (negb (isValidOMXParam port));
      [left; repeat split; discriminate|].
    destruct (nPortIndex port =? kInputPortIndex).
    + destruct (_ || _).
      * left. cbn. destruct (mIsPowervr c), (mShmData c);
          repeat split; discriminate.
      * right. split; [reflexivity|]. eexists. split; [reflexivity|].
        cbn. destruct (mIsPowervr c), (mShmData c); split; reflexivity.
    + destruct (nPortIndex port =? kOutputPortIndex);
        [|left; repeat split; discriminate].
      destruct (_ || _); [left; repeat split; discriminate|].
      right. split; [reflexivity|]. eexists. now split.
  - destruct (negb (isValidOMXParam format));
      [left; repeat split; discriminate|].
    destruct (pf_nPortIndex format =? kInputPortIndex).
    + destruct (supportedInputColor _);
        [|left; repeat split; discriminate].
      right. split; [reflexivity|]. eexists. now split.
    + destruct (pf_nPortIndex format =? kOutputPortIndex) eqn:P;
        [|left; repeat split; discriminate].
      apply Z.eqb_eq in P.
      destruct (coding_eqb _ _); left; repeat split;
        try discriminate; exact P.
  - destruct (negb (isValidOMXParam storeParam));
      [left; repeat split; discriminate|].
    destruct (sm_nPortIndex storeParam =? kOutputPortIndex) eqn:P.
    + apply Z.eqb_eq in P. left. repeat split; exact P.
    + destruct (negb (sm_nPortIndex storeParam =? kInputPortIndex));
        [left; repeat split; discriminate|].
      right. split; [reflexivity|]. eexists. split; [reflexivity|].
      destruct (bStoreMetaData storeParam =? OMX_TRUE); cbn;
        [split; reflexivity|]. now destruct (color_eqb _ _).
Qed.

Lemma updatePortParams_consistent (c : Component) :
  port_sizes_consistent (updatePortParams c).
Proof. reflexivity. Qed.

(** The invariant survives every request, accepted or rejected. *)
Lemma port_sizes_consistent_kept (ch : ConfigChange) (c : Component) :
  port_sizes_consistent c -> port_sizes_consistent (snd (apply_change ch c)).
Proof.
  intros I.
  destruct (apply_change_cases ch c)
    as [(Ei & Eo & Es & Er & _) | (_ & d & -> & _)].
  - unfold port_sizes_consistent in *. now rewrite Ei, Eo, Es, Er.
  - apply updatePortParams_consistent.
Qed.

(** A port format or a store-metadata request addressed to the output
    port changes nothing, whatever it is answered with. *)
Lemma output_port_request_noop (ch : ConfigChange) (c : Component) :
  output_port_request ch -> snd (apply_change ch c) = c.
Proof.
  intros O. destruct ch as [port | format | storeParam]; cbn in O |- *.
  - destruct O.
  - unfold internalSetParameter. rewrite O.
    change (kOutputPortIndex =? kInputPortIndex) with false.
    change (kOutputPortIndex =? kOutputPortIndex) with true.
    destruct (negb (isValidOMXParam format)); [reflexivity|].
    cbv iota. destruct (coding_eqb _ _); reflexivity.
  - unfold internalSetParameter. rewrite O.
    change (kOutputPortIndex =? kOutputPortIndex) with true.
    destruct (negb (isValidOMXParam storeParam)); reflexivity.
Qed.

(** [initPorts] establishes the invariant. *)
Lemma initPorts_consistent def size nIn nOut outputBufferSize mime ratio c :
  port_sizes_consistent
    (initPorts sizeof_VideoNativeMetadata sizeof_VideoGrallocMetadata
       def size nIn nOut outputBufferSize mime ratio c).
Proof. apply updatePortParams_consistent. Qed.

(** C1, as the code has it. Every accepted configuration change (a port
    definition handed to [internalSetPortParams], a port format or a
    store-metadata toggle handed to [internalSetParameter]) leaves the
    policy as [initPorts] stored it, and leaves the output-port buffer
    size at [max(mMinOutputBufferSize, raw / mMinCompressionRatio)] for
    the raw size of the geometry the input port shows, if it was so
    before. A change that is no port-format or store-metadata request
    addressed to the output port recomputes both ports: the input port
    then shows the stored width and height, and the output size is
    [max(mMinOutputBufferSize, (w * h * 3 / 2) / mMinCompressionRatio)]
    for the stored [w] and [h], the product being taken in [uint32_t]
    (the exact quotient when [w * h * 3] fits 32 bits). An accepted
    port-format or store-metadata request addressed to the output port
    recomputes nothing and changes nothing: the size stays the one of
    the last recomputation, whatever the stored width and height are by
    then. *)
Theorem output_buffer_size_after_change (ch : ConfigChange) (c c' : Component) :
  apply_change ch c = (OMX_ErrorNone, c') ->
  mMinOutputBufferSize c' = mMinOutputBufferSize c
  /\ mMinCompressionRatio c' = mMinCompressionRatio c
  /\ (port_sizes_consistent c ->
      nBufferSize (outDef c')
      = Z.max (mMinOutputBufferSize c')
          (rawBufferSize (nStride (video (inDef c')))
             (nSliceHeight (video (inDef c')))
           / mMinCompressionRatio c'))
  /\ (~ output_port_request ch ->
      recomputed c'
      /\ (0 <= mWidth c' * mHeight c' * 3 < 2 ^ 32 ->
          nBufferSize (outDef c')
          = Z.max (mMinOutputBufferSize c')
              ((mWidth c' * mHeight c' * 3 / 2) / mMinCompressionRatio c')))
  /\ (output_port_request ch ->
      c' = c /\ nBufferSize (outDef c') = nBufferSize (outDef c)).
Proof.
  intros E.
  pose proof (apply_change_cases ch c) as Cases.
  pose proof (port_sizes_consistent_kept ch c) as Kept.
  pose proof (output_port_request_noop ch c) as Noop.
  rewrite E in Cases, Kept, Noop. cbn [fst snd] in Cases, Kept, Noop.
  assert (Same : output_port_request ch ->
                 c' = c /\ nBufferSize (outDef c') = nBufferSize (outDef c)).
  { intros O. rewrite (Noop O). now split. }
  destruct Cases as [(_ & _ & Es & Er & N) | (_ & d & Ed & Es & Er)].
  - destruct (N eq_refl) as [O _].
    split; [exact Es|]. split; [exact Er|]. split; [exact Kept|].
    split; [|exact Same]. intros No. destruct (No O).
  - subst c'.
    split; [exact Es|]. split; [exact Er|]. split; [exact Kept|].
    split; [|exact Same]. intros _.
    pose proof (updatePortParams_recomputed d) as Hrec. split; [exact Hrec|].
    intros Hfit. destruct Hrec as (_ & _ & _ & ->).
    now rewrite (Z.mod_small _ _ Hfit).
Qed.

(** C2. On the input port, switching metadata mode on sets the color
    format to [OMX_COLOR_FormatAndroidOpaque], whatever it was, so in
    particular from the two YUV420 formats; switching it off right after
    sets the format to [OMX_COLOR_FormatYUV420Planar]; and switching it
    off while the format is not opaque leaves the format as it is. The
    input port definition follows the member each time. *)
Theorem metadata_toggle_color_format
    (on off : StoreMetaDataInBuffersParams) (c : Component) :
  isValidOMXParam on = true -> isValidOMXParam off = true ->
  sm_nPortIndex on = kInputPortIndex -> bStoreMetaData on = OMX_TRUE ->
  sm_nPortIndex off = kInputPortIndex -> bStoreMetaData off = OMX_FALSE ->
  let r1 := internalSetParameter (kStoreMetaDataExtensionIndex on) c in
  let r2 := internalSetParameter (kStoreMetaDataExtensionIndex off) (snd r1) in
  let r0 := internalSetParameter (kStoreMetaDataExtensionIndex off) c in
  (fst r1 = OMX_ErrorNone
   /\ mInputDataIsMeta (snd r1) = true
   /\ mColorFormat (snd r1) = OMX_COLOR_FormatAndroidOpaque
   /\ eColorFormat (video (inDef (snd r1))) = OMX_COLOR_FormatAndroidOpaque)
  /\ (fst r2 = OMX_ErrorNone
      /\ mInputDataIsMeta (snd r2) = false
      /\ mColorFormat (snd r2) = OMX_COLOR_FormatYUV420Planar
      /\ eColorFormat (video (inDef (snd r2))) = OMX_COLOR_FormatYUV420Planar)
  /\ (mColorFormat c <> OMX_COLOR_FormatAndroidOpaque ->
      fst r0 = OMX_ErrorNone
      /\ mColorFormat (snd r0) = mColorFormat c
      /\ eColorFormat (video (inDef (snd r0))) = mColorFormat c).
Proof.
  intros Von Voff Pon Bon Poff Boff. cbv zeta.
  unfold internalSetParameter.
  rewrite Von, Voff, Pon, Bon, Poff, Boff. cbn.
  repeat split;
    match goal with
    | N : _ <> _ |- _ => apply color_eqb_neq in N; rewrite N; reflexivity
    end.
Qed.

(** C7. A well-formed output-port definition whose compression format
    is not the component's coding type, or whose color format is not
    [OMX_COLOR_FormatUnused], is rejected with
    [OMX_ErrorUnsupportedSetting], by [internalSetPortParams] and by
    [internalSetParameter] alike, and the component is left exactly as
    it was: bitrate, geometry, color format and both port definitions. *)
Theorem output_port_rejection_keeps_state
    (port : OMX_PARAM_PORTDEFINITIONTYPE) (c : Component) :
  isValidOMXParam port = true ->
  nPortIndex port = kOutputPortIndex ->
  eCompressionFormat (video port) <> mCodingType c
  \/ eColorFormat (video port) <> OMX_COLOR_FormatUnused ->
  internalSetPortParams port c = (OMX_ErrorUnsupportedSetting, c)
  /\ internalSetParameter (OMX_IndexParamPortDefinition port) c
     = (OMX_ErrorUnsupportedSetting, c).
Proof.
  intros V P Bad.
  assert (E : internalSetPortParams port c = (OMX_ErrorUnsupportedSetting, c)).
  { unfold internalSetPortParams. rewrite V, P. cbn.
    destruct Bad as [N | N].
    - apply coding_eqb_neq in N. now rewrite N.
    - apply color_eqb_neq in N. rewrite N. now rewrite orb_true_r. }
  split; [exact E|].
  unfold internalSetParameter. now rewrite E.
Qed.

(** C8, as the code has it. A well-formed store-metadata request
    addressed to the output port never changes the component; it is
    rejected with [OMX_ErrorUnsupportedSetting] when it asks to enable
    metadata storage and accepted with [OMX_ErrorNone] when it asks to
    disable it. *)
Theorem output_metadata_request
    (storeParam : StoreMetaDataInBuffersParams) (c : Component) :
  isValidOMXParam storeParam = true ->
  sm_nPortIndex storeParam = kOutputPortIndex ->
  internalSetParameter (kStoreMetaDataExtensionIndex storeParam) c
  = (if bStoreMetaData storeParam =? OMX_FALSE
     then OMX_ErrorNone else OMX_ErrorUnsupportedSetting, c).
Proof.
  intros V P. unfold internalSetParameter. rewrite V, P. cbn.
  unfold OMX_FALSE. now destruct (bStoreMetaData storeParam =? 0).
Qed.


(** C3. [validateInputBuffer] returns [OMX_ErrorUndefined] exactly when
    the filled length is below the expected size and [OMX_ErrorNone]
    otherwise, a longer buffer being logged only. The expected size is
    the larger of the two metadata structure sizes in metadata mode,
    and [width * height * 3 / 2] otherwise (for a non-negative geometry
    whose product fits [int32_t]). At 640 x 480 without metadata it is
    460800, and a buffer of 460799 bytes is rejected. *)
Theorem validateInputBuffer_threshold (c : Component) (L : Z) :
  (fst (validateInputBuffer L c) = OMX_ErrorUndefined <-> L < frameSize c)
  /\ (fst (validateInputBuffer L c) = OMX_ErrorNone <-> frameSize c <= L)
  /\ (snd (validateInputBuffer L c) <> [] <-> frameSize c < L)
  /\ (mInputDataIsMeta c = true ->
      frameSize c
      = Z.max sizeof_VideoNativeMetadata sizeof_VideoGrallocMetadata)
  /\ (mInputDataIsMeta c = false ->
      0 <= mWidth c -> 0 <= mHeight c ->
      mWidth c * mHeight c * 3 <= Int.INT32_MAX ->
      frameSize c = mWidth c * mHeight c * 3 / 2)
  /\ (mInputDataIsMeta c = false -> mWidth c = 640 -> mHeight c = 480 ->
      frameSize c = 460800
      /\ fst (validateInputBuffer 460799 c) = OMX_ErrorUndefined).
Proof.
  assert (T : forall n,
    (fst (validateInputBuffer n c) = OMX_ErrorUndefined <-> n < frameSize c)
    /\ (fst (validateInputBuffer n c) = OMX_ErrorNone <-> frameSize c <= n)
    /\ (snd (validateInputBuffer n c) <> [] <-> frameSize c < n)).
  { intros n. unfold validateInputBuffer.
    destruct (Z.ltb_spec n (frameSize c)) as [Lt | Ge]; cbn.
    - repeat split; intros; try lia; try discriminate; try reflexivity.
      contradiction.
    - destruct (Z.ltb_spec (frameSize c) n) as [Gt | Le]; cbn;
        repeat split; intros; try lia; try discriminate; try reflexivity.
      contradiction. }
  destruct (T L) as (T1 & T2 & T3).
  split; [exact T1|]. split; [exact T2|]. split; [exact T3|].
  split; [|split].
  - intros M. unfold frameSize. now rewrite M.
  - intros M Hw Hh Fit. unfold frameSize. rewrite M.
    unfold rawFrameSize, Int.sdiv32, Int.smul32, Int.INT32_MAX in *.
    assert (0 <= mWidth c * mHeight c) by lia.
    rewrite (s32_small (mWidth c * mHeight c)) by lia.
    rewrite (s32_small (mWidth c * mHeight c * 3)) by lia.
    rewrite Z.quot_div_nonneg by lia.
    assert (0 <= mWidth c * mHeight c * 3 / 2 <= mWidth c * mHeight c * 3)
      by (split; [apply Z.div_pos; lia | apply Z.div_le_upper_bound; lia]).
    rewrite s32_small by lia.
    unfold Int.usize. apply Z.mod_small. lia.
  - intros M Hw Hh.
    assert (F : frameSize c = 460800).
    { unfold frameSize, rawFrameSize. now rewrite M, Hw, Hh. }
    split; [exact F|]. apply (T 460799). lia.
Qed.

(** C9, as the code has it. For the input or the output port, when the
    base class fills the definition without error, the port-definition
    query returns [OMX_ErrorNone] and that definition with the stored
    width and height and with [mWidth * mHeight * 3 / 2] as buffer
    size, provided [ro.hardware.egl] is [mesa], [powervr] or
    [emulation], or the stored color format is one of the two YUV420
    formats; in every other case the [CHECK] aborts. The query takes the
    component and gives none back: no member is assigned. *)
Theorem port_definition_query
    (def def1 : OMX_PARAM_PORTDEFINITIONTYPE) (c : Component) :
  nPortIndex def = kInputPortIndex \/ nPortIndex def = kOutputPortIndex ->
  SimpleSoftOMXComponent_getPortDefinition def c = (OMX_ErrorNone, def1) ->
  let r := internalGetParameter (OMX_IndexParamPortDefinition def) c in
  let checked :=
    egl_is property_get "mesa" \/ egl_is property_get "powervr"
    \/ egl_is property_get "emulation"
    \/ mColorFormat c = OMX_COLOR_FormatYUV420Planar
    \/ mColorFormat c = OMX_COLOR_FormatYUV420SemiPlanar in
  (checked ->
   r = Returned
         (OMX_ErrorNone,
          OMX_IndexParamPortDefinition
            (set_nBufferSize (Int.u32 (rawFrameSize c))
               (set_video
                  (set_frame_size (Int.u32 (mWidth c)) (Int.u32 (mHeight c))
                     (video def1))
                  def1))))
  /\ (~ checked -> r = Aborted).
Proof.
  intros P B. cbv zeta. unfold internalGetParameter, egl_is.
  replace (1 <? nPortIndex def) with false
    by (destruct P as [-> | ->]; reflexivity).
  rewrite B. destruct (property_get _ _) as [len p]. cbn [fst snd].
  destruct (Z.ltb_spec 0 len) as [Pos | Neg]; cbn [andb negb].
  - destruct (String.eqb_spec p "mesa") as [-> | N1];
      [split; [reflexivity | intros H; exfalso; apply H; auto]|].
    destruct (String.eqb_spec p "powervr") as [-> | N2];
      [split; [reflexivity | intros H; exfalso; apply H; auto]|].
    destruct (String.eqb_spec p "emulation") as [-> | N3];
      [split; [reflexivity | intros H; exfalso; apply H; auto 6]|].
    cbn [andb negb].
    destruct (color_eqb (mColorFormat c) OMX_COLOR_FormatYUV420Planar) eqn:Ep.
    { apply color_eqb_eq in Ep. split; [reflexivity|].
      intros H; exfalso; apply H; auto 6. }
    destruct (color_eqb (mColorFormat c) OMX_COLOR_FormatYUV420SemiPlanar) eqn:Es.
    { apply color_eqb_eq in Es. split; [reflexivity|].
      intros H; exfalso; apply H; auto 6. }
    apply color_eqb_neq in Ep, Es. cbn. split; [|reflexivity].
    intros [[_ E] | [[_ E] | [[_ E] | [E | E]]]]; congruence.
  - destruct (color_eqb (mColorFormat c) OMX_COLOR_FormatYUV420Planar) eqn:Ep.
    { apply color_eqb_eq in Ep. split; [reflexivity|].
      intros H; exfalso; apply H; auto 6. }
    destruct (color_eqb (mColorFormat c) OMX_COLOR_FormatYUV420SemiPlanar) eqn:Es.
    { apply color_eqb_eq in Es. split; [reflexivity|].
      intros H; exfalso; apply H; auto 6. }
    apply color_eqb_neq in Ep, Es. cbn. split; [|reflexivity].
    intros [[L _] | [[L _] | [[L _] | [E | E]]]]; try lia; congruence.
Qed.

End NegotiationFacts.

(** ** The negotiation theorems at the concrete component *)

(** A CIF request on the QCIF encoder: the output buffer grows to
    [320 * 240 * 3 / 2 / 2]. *)
Lemma output_buffer_size_after_change_witness :
  let ch := PortParams (Example.input_request 320 240 OMX_COLOR_FormatYUV420Planar) in
  let c' := snd (Example.change ch Example.encoder) in
  Example.change ch Example.encoder = (OMX_ErrorNone, c')
  /\ nBufferSize (outDef c') = 57600.
Proof.
  cbv zeta. split; [reflexivity|].
  destruct (output_buffer_size_after_change
              Example.sizeof_VideoNativeMetadata
              Example.sizeof_VideoGrallocMetadata
              (valid_portdef := Example.well_sized _)
              (valid_portformat := Example.well_sized _)
              (valid_storemeta := Example.well_sized _)
              (valid_role := Example.well_sized _)
              Example.base_set 128
              (PortParams
                 (Example.input_request 320 240 OMX_COLOR_FormatYUV420Planar))
              Example.encoder
              (snd (Example.change
                      (PortParams
                         (Example.input_request 320 240
                            OMX_COLOR_FormatYUV420Planar))
                      Example.encoder))
              eq_refl)
    as (_ & _ & _ & Rec & _).
  destruct (Rec (fun O => O)) as [_ Out].
  rewrite Out; [reflexivity | vm_compute; split; congruence].
Defined.

(** C1 fails as stated: after a rejected VGA proposal has moved the
    stored geometry of the QCIF encoder to 640 x 480, a port-format
    request on the output port is accepted, and the output-port buffer
    size is still 31584 where the formula gives 230400. *)
Lemma accepted_output_format_keeps_size :
  let c1 :=
    snd (Example.set_port_params
           (Example.input_request 640 480 (OMX_COLOR_FormatOther 99))
           Example.encoder) in
  let r :=
    Example.change
      (PortFormat
         (mkPortFormat 24 kOutputPortIndex 0 Example.avc
            OMX_COLOR_FormatUnused 0)) c1 in
  fst r = OMX_ErrorNone
  /\ mWidth (snd r) = 640 /\ mHeight (snd r) = 480
  /\ mMinOutputBufferSize (snd r) = 31584
  /\ mMinCompressionRatio (snd r) = 2
  /\ nBufferSize (outDef (snd r)) = 31584
  /\ Z.max 31584 (640 * 480 * 3 / 2 / 2) = 230400.
Proof. cbv zeta. repeat split. Qed.

(** Metadata mode switched on and off again on the QCIF encoder. *)
Lemma metadata_toggle_color_format_witness :
  let on := mkStoreMeta 12 kInputPortIndex OMX_TRUE in
  let off := mkStoreMeta 12 kInputPortIndex OMX_FALSE in
  let r1 := Example.set_parameter (kStoreMetaDataExtensionIndex on) Example.encoder in
  let r2 := Example.set_parameter (kStoreMetaDataExtensionIndex off) (snd r1) in
  mColorFormat Example.encoder = OMX_COLOR_FormatYUV420Planar
  /\ mColorFormat (snd r1) = OMX_COLOR_FormatAndroidOpaque
  /\ mColorFormat (snd r2) = OMX_COLOR_FormatYUV420Planar.
Proof.
  cbv zeta. split; [reflexivity|].
  destruct (metadata_toggle_color_format
              Example.sizeof_VideoNativeMetadata
              Example.sizeof_VideoGrallocMetadata
              (valid_portdef := Example.well_sized _)
              (valid_portformat := Example.well_sized _)
              (valid_storemeta := Example.well_sized _)
              (valid_role := Example.well_sized _)
              Example.base_set 128
              (mkStoreMeta 12 kInputPortIndex OMX_TRUE)
              (mkStoreMeta 12 kInputPortIndex OMX_FALSE)
              Example.encoder
              eq_refl eq_refl eq_refl eq_refl eq_refl eq_refl)
    as ((_ & _ & On & _) & (_ & _ & Off & _) & _).
  split; [exact On | exact Off].
Defined.

(** An HEVC output definition proposed to the AVC encoder. *)
Lemma output_port_rejection_keeps_state_witness :
  let port := Example.output_request (OMX_VIDEO_CodingOther 11) 500000 in
  eCompressionFormat (video port) <> mCodingType Example.encoder
  /\ Example.set_port_params port Example.encoder
     = (OMX_ErrorUnsupportedSetting, Example.encoder).
Proof.
  cbv zeta. split; [discriminate|].
  apply (output_port_rejection_keeps_state
           Example.sizeof_VideoNativeMetadata
           Example.sizeof_VideoGrallocMetadata
           (valid_portdef := Example.well_sized _)
           (valid_portformat := Example.well_sized _)
           (valid_storemeta := Example.well_sized _)
           (valid_role := Example.well_sized _)
           Example.base_set 128
           (Example.output_request (OMX_VIDEO_CodingOther 11) 500000)
           Example.encoder eq_refl eq_refl).
  left. discriminate.
Defined.

(** C8 fails as stated: a request to disable metadata storage on the
    output port is accepted. *)
Lemma output_metadata_disable_accepted :
  Example.set_parameter
    (kStoreMetaDataExtensionIndex (mkStoreMeta 12 kOutputPortIndex OMX_FALSE))
    Example.encoder
  = (OMX_ErrorNone, Example.encoder).
Proof. reflexivity. Qed.

(** A request to enable metadata storage on the output port. *)
Lemma output_metadata_request_witness :
  Example.set_parameter
    (kStoreMetaDataExtensionIndex (mkStoreMeta 12 kOutputPortIndex OMX_TRUE))
    Example.encoder
  = (OMX_ErrorUnsupportedSetting, Example.encoder).
Proof.
  apply (output_metadata_request
           Example.sizeof_VideoNativeMetadata
           Example.sizeof_VideoGrallocMetadata
           (valid_portdef := Example.well_sized _)
           (valid_portformat := Example.well_sized _)
           (valid_storemeta := Example.well_sized _)
           (valid_role := Example.well_sized _)
           Example.base_set 128
           (mkStoreMeta 12 kOutputPortIndex OMX_TRUE)
           Example.encoder eq_refl eq_refl).
Defined.



(** The 640 x 480 scenario. *)
Lemma validateInputBuffer_threshold_witness :
  let c := with_geometry 640 480 Example.encoder in
  mInputDataIsMeta c = false
  /\ Example.frameSize_of c = 460800
  /\ fst (Example.validate 460799 c) = OMX_ErrorUndefined
  /\ fst (Example.validate 460800 c) = OMX_ErrorNone.
Proof.
  cbv zeta. split; [reflexivity|].
  destruct (validateInputBuffer_threshold
              Example.sizeof_VideoNativeMetadata
              Example.sizeof_VideoGrallocMetadata
              (with_geometry 640 480 Example.encoder) 460800)
    as (_ & Ok & _ & _ & _ & S).
  destruct (S eq_refl eq_refl eq_refl) as [F R].
  split; [exact F|]. split; [exact R|].
  apply Ok. unfold Example.frameSize_of in F. rewrite F. apply Z.le_refl.
Defined.

(** C9 fails as stated: with the opaque color format stored and no
    [ro.hardware.egl] property, the query of the input port aborts. *)
Lemma port_definition_query_aborts :
  Example.get_parameter Example.property_unset
    (OMX_IndexParamPortDefinition
       (Example.input_request 0 0 OMX_COLOR_FormatUnused))
    Example.opaque_encoder
  = Aborted.
Proof. reflexivity. Qed.

(** The same query on a [mesa] platform. *)
Lemma port_definition_query_witness :
  let def := Example.input_request 0 0 OMX_COLOR_FormatUnused in
  egl_is Example.property_mesa "mesa"
  /\ exists d,
       Example.get_parameter Example.property_mesa
         (OMX_IndexParamPortDefinition def) Example.opaque_encoder
       = Returned (OMX_ErrorNone, OMX_IndexParamPortDefinition d)
       /\ nFrameWidth (video d) = 176 /\ nBufferSize d = 38016.
Proof.
  cbv zeta. split; [split; reflexivity|].
  destruct (port_definition_query
              (valid_portformat := Example.well_sized _)
              (valid_profilelevel := Example.well_sized _)
              (fun p _ => (OMX_ErrorNone, p))
              Example.base_getPortDefinition Example.property_mesa 3
              (Example.input_request 0 0 OMX_COLOR_FormatUnused)
              (inDef Example.opaque_encoder)
              Example.opaque_encoder (or_introl eq_refl) eq_refl)
    as [R _].
  eexists. split.
  - apply R. left. split; reflexivity.
  - split; reflexivity.
Defined.

(** ** Extraction *)

Section ExtractionFacts.

Variable SURFACE_IS_BGR32 : bool.
Variable sizeof_VideoNativeMetadata : Z.
Variable sizeof_VideoGrallocMetadata : Z.
Variable kFenceTimeoutMs : Z.
Variable Fence_wait : Z -> Z -> Z.
Variable mapper_lock : Z -> Z * Z.
Variable mapper_lockYCbCr : Z -> Z * android_ycbcr.
Variable mapped : buffer.
Variable glReadPixels : ANativeWindowBuffer -> Z -> Z -> buffer.

Local Abbreviation extractGraphicBuffer :=
  (extractGraphicBuffer SURFACE_IS_BGR32 sizeof_VideoNativeMetadata
     sizeof_VideoGrallocMetadata kFenceTimeoutMs Fence_wait mapper_lock
     mapper_lockYCbCr mapped glReadPixels).

(** C6. When the source metadata is a native-window buffer that carries
    a fence (a non-negative descriptor) and the wait on that fence does
    not return [OK] within [kFenceTimeoutMs], [extractGraphicBuffer]
    returns [NULL] and the destination holds what it held before the
    call: nothing is written to it ahead of the wait. *)
Theorem fence_timeout_leaves_destination
    (c : Component) (dst : buffer) (dstSize : Z) (src : Metadata)
    (srcSize width height : Z) (ycbcr0 : android_ycbcr) :
  eType src = kMetadataBufferTypeANWBuffer ->
  0 <= nFenceFd src ->
  Fence_wait (nFenceFd src) kFenceTimeoutMs <> 0 ->
  exists e,
    extractGraphicBuffer c dst dstSize src srcSize width height ycbcr0
    = Returned e
    /\ ret e = None /\ dst_after e = dst.
Proof.
  intros T F W. unfold extractGraphicBuffer. rewrite T.
  destruct (srcSize <? sizeof_VideoNativeMetadata).
  - eexists. split; [reflexivity|]. split; reflexivity.
  - apply Z.leb_le in F. rewrite F.
    apply Z.eqb_neq in W. rewrite W. cbn.
    eexists. split; [reflexivity|]. split; reflexivity.
Qed.

End ExtractionFacts.

(** ** Packed RGB to planar *)

(** Linear arithmetic with divisions and remainders by constants. *)
Ltac zdiv := Z.to_euclidean_division_equations; lia.

Lemma land1 x : Z.land x 1 = x mod 2.
Proof. change 1 with (Z.ones 1) at 1. now rewrite Z.land_ones. Qed.

Lemma shr1 x : Z.shiftr x 1 = x / 2.
Proof. now rewrite Z.shiftr_div_pow2. Qed.

Lemma store8_same m a v : store8 m a v a = Int.u8 v.
Proof. unfold store8. now rewrite Z.eqb_refl. Qed.

Lemma store8_other m a v a' : a' <> a -> store8 m a v a' = m a'.
Proof. intros N. unfold store8. apply Z.eqb_neq in N. now rewrite N. Qed.

Lemma shr8 z : Z.shiftr z 8 = z / 256.
Proof. now rewrite Z.shiftr_div_pow2. Qed.

Lemma add32_l a b : Int.add32 (Int.u32 a) b = Int.u32 (a + b).
Proof. unfold Int.add32, Int.u32. now rewrite Zplus_mod_idemp_l. Qed.
Lemma add32_lr a b : Int.add32 (Int.u32 a) (Int.u32 b) = Int.u32 (a + b).
Proof. unfold Int.add32, Int.u32. now rewrite <- Zplus_mod. Qed.
Lemma sub32_lr a b : Int.sub32 (Int.u32 a) (Int.u32 b) = Int.u32 (a - b).
Proof. unfold Int.sub32, Int.u32. now rewrite <- Zminus_mod. Qed.
Lemma mul32_l a b : Int.mul32 (Int.u32 a) b = Int.u32 (a * b).
Proof. unfold Int.mul32, Int.u32. now rewrite Zmult_mod_idemp_l. Qed.

(** The shift, the bias and the store to a byte, on a 32-bit sum that
    stands for [x]. *)
Lemma scale_exact x bias :
  - 65536 <= x < 65536 -> 0 <= x / 256 + bias < 256 -> 
  Int.u8 (Int.add32 (Int.shr32 (Int.u32 x) 8) bias) = Z.shiftr x 8 + bias.
Proof.
  intros Hx Hb. unfold Int.u8, Int.add32, Int.shr32. rewrite u32_idem.
  unfold Int.u32. rewrite !shr8.
  change (2 ^ 32) with 4294967296. change (2 ^ 8) with 256.
  zdiv.
Qed.

Lemma luma_exact r g b :
  0 <= r < 256 -> 0 <= g < 256 -> 0 <= b < 256 ->
  Int.u8 (RGB.luma r g b) = Z.shiftr (r * 65 + g * 129 + b * 25 + 128) 8 + 16.
Proof.
  intros. unfold RGB.luma. unfold Int.mul32 at 1 2 3.
  rewrite !add32_lr, add32_l.
  apply scale_exact; [lia|].
  zdiv.
Qed.

Lemma U_exact r g b :
  0 <= r < 256 -> 0 <= g < 256 -> 0 <= b < 256 ->
  Int.u8 (RGB.U r g b) = Z.shiftr (- r * 38 - g * 74 + b * 112 + 128) 8 + 128.
Proof.
  intros. unfold RGB.U. unfold Int.neg32. rewrite mul32_l.
  unfold Int.mul32. rewrite sub32_lr, add32_lr, add32_l.
  apply scale_exact; [lia|].
  zdiv.
Qed.

Lemma V_exact r g b :
  0 <= r < 256 -> 0 <= g < 256 -> 0 <= b < 256 ->
  Int.u8 (RGB.V r g b) = Z.shiftr (r * 112 - g * 94 - b * 18 + 128) 8 + 128.
Proof.
  intros. unfold RGB.V.
  unfold Int.mul32. rewrite !sub32_lr, add32_l.
  apply scale_exact; [lia|].
  zdiv.
Qed.

Section RGBFacts.

Variable pixels : buffer.
Variables dstStride width srcStride : Z.
Variables ro go bo : Z.

Local Abbreviation pixel := (RGB.pixel pixels ro go bo).
Local Abbreviation loop_x := (RGB.loop_x pixels ro go bo).
Local Abbreviation next_row := (RGB.next_row dstStride width srcStride).
Local Abbreviation loop_y := (RGB.loop_y pixels dstStride width srcStride ro go bo).

Local Abbreviation lumaAt := (RGB.lumaAt pixels ro go bo).
Local Abbreviation UAt := (RGB.UAt pixels ro go bo).
Local Abbreviation VAt := (RGB.VAt pixels ro go bo).

Lemma loop_x_pointers n : forall x y st,
  let st' := loop_x n x y st in
  RGB.src st' = RGB.src st + 4 * Z.of_nat n
  /\ RGB.dstY st' = RGB.dstY st /\ RGB.dstU st' = RGB.dstU st
  /\ RGB.dstV st' = RGB.dstV st.
Proof.
  induction n as [|n IH]; intros x y st; cbv zeta.
  - cbn. repeat split. lia.
  - cbn [RGB.loop_x]. destruct (IH (x + 1) y (pixel x y st)) as (A & B & C & D).
    rewrite A, B, C, D. cbn [RGB.pixel RGB.src RGB.dstY RGB.dstU RGB.dstV].
    repeat split. lia.
Qed.

Lemma loop_x_frame n : forall x y st a,
  ~ (RGB.dstY st + x <= a < RGB.dstY st + x + Z.of_nat n) ->
  ~ (y mod 2 = 0
     /\ RGB.dstU st + (x + 1) / 2 <= a < RGB.dstU st + (x + Z.of_nat n + 1) / 2) ->
  ~ (y mod 2 = 0
     /\ RGB.dstV st + (x + 1) / 2 <= a < RGB.dstV st + (x + Z.of_nat n + 1) / 2) ->
  RGB.dst (loop_x n x y st) a = RGB.dst st a.
Proof.
  induction n as [|n IH]; intros x y st a HY HU HV; [reflexivity|].
  cbn [RGB.loop_x]. rewrite IH; cbn [RGB.pixel RGB.dstY RGB.dstU RGB.dstV RGB.dst].
  - rewrite land1, shr1.
    destruct (Z.eqb_spec (x mod 2) 0) as [E | E]; cbn [andb].
    + rewrite land1. destruct (Z.eqb_spec (y mod 2) 0) as [Ey | Ey].
      * rewrite !store8_other; [reflexivity | zdiv | zdiv | zdiv].
      * rewrite store8_other; [reflexivity | zdiv].
    + rewrite store8_other; [reflexivity | zdiv].
  - lia.
  - replace (x + 1 + Z.of_nat n + 1) with (x + Z.of_nat (S n) + 1) by lia. 
    Z.to_euclidean_division_equations; lia.
  - replace (x + 1 + Z.of_nat n + 1) with (x + Z.of_nat (S n) + 1) by lia. 
    Z.to_euclidean_division_equations; lia.
Qed.

Lemma loop_x_written n : forall x y st,
  0 <= x ->
  RGB.dstY st + x + Z.of_nat n <= RGB.dstU st ->
  RGB.dstU st + (x + Z.of_nat n + 1) / 2 <= RGB.dstV st ->
  forall x', x <= x' < x + Z.of_nat n ->
  let p := RGB.src st + 4 * (x' - x) in
  let d := RGB.dst (loop_x n x y st) in
  d (RGB.dstY st + x') = lumaAt p
  /\ (x' mod 2 = 0 -> y mod 2 = 0 ->
      d (RGB.dstU st + x' / 2) = UAt p /\ d (RGB.dstV st + x' / 2) = VAt p).
Proof.
  induction n as [|n IH]; intros x y st Hx SY SU x' Hx'; [lia|].
  cbv zeta. cbn [RGB.loop_x].
  destruct (Z.eq_dec x' x) as [-> | Nx].
  - replace (RGB.src st + 4 * (x - x)) with (RGB.src st) by lia.
    split.
    + rewrite loop_x_frame; cbn [RGB.pixel RGB.dstY RGB.dstU RGB.dstV RGB.dst].
      * rewrite land1, shr1.
        destruct ((x mod 2 =? 0) && (Z.land y 1 =? 0)).
        -- rewrite store8_other, store8_other, store8_same;
             [reflexivity | zdiv | zdiv].
        -- now rewrite store8_same.
      * lia.
      * Z.to_euclidean_division_equations; lia.
      * Z.to_euclidean_division_equations; lia.
    + intros Ex Ey.
      rewrite !loop_x_frame; cbn [RGB.pixel RGB.dstY RGB.dstU RGB.dstV RGB.dst].
      * rewrite !land1, shr1, Ex, Ey. cbn.
        rewrite store8_same, store8_other, store8_same; [split; reflexivity|].
        Z.to_euclidean_division_equations; lia.
      * Z.to_euclidean_division_equations; lia.
      * Z.to_euclidean_division_equations; lia.
      * Z.to_euclidean_division_equations; lia.
      * Z.to_euclidean_division_equations; lia.
      * Z.to_euclidean_division_equations; lia.
      * Z.to_euclidean_division_equations; lia.
  - specialize (IH (x + 1) y (pixel x y st)).
    cbn [RGB.pixel RGB.dstY RGB.dstU RGB.dstV RGB.src] in IH.
    replace (RGB.src st + 4 * (x' - x)) with (RGB.src st + 4 + 4 * (x' - (x + 1))) by lia.
    apply IH; try lia.
    replace (x + 1 + Z.of_nat n + 1) with (x + Z.of_nat (S n) + 1) by lia.
    exact SU.
Qed.


(** The layout of the destination and the position of the source. *)
Variables Y0 dstVStride height src0 : Z.
Hypothesis width_range : 0 <= width <= dstStride.
Hypothesis width_even : width mod 2 = 0.
Hypothesis height_range : 0 <= height <= dstVStride.
Hypothesis height_even : height mod 2 = 0.

Local Abbreviation half := (dstStride / 2).
Local Abbreviation U0 := (Y0 + dstStride * dstVStride).
Local Abbreviation V0 := (Y0 + dstStride * dstVStride + half * (dstVStride / 2)).

Local Abbreviation at_row :=
  (RGB.at_row dstStride srcStride Y0 dstVStride src0).

Lemma at_row_next y st :
  0 <= y -> at_row y st ->
  at_row (y + 1) (next_row y (loop_x (Z.to_nat width) 0 y st)).
Proof.
  intros Hy (A & B & C & D).
  destruct (loop_x_pointers (Z.to_nat width) 0 y st) as (A' & B' & C' & D').
  unfold RGB.at_row, RGB.next_row. cbn [RGB.dstY RGB.dstU RGB.dstV RGB.src].
  rewrite A', B', C', D', A, B, C, D, land1, shr1, Z2Nat.id by lia.
  assert (E : (y + 1 + 1) / 2 = (y + 1) / 2 + (if y mod 2 =? 0 then 1 else 0)).
  { destruct (Z.eqb_spec (y mod 2) 0); zdiv. }
  rewrite E. destruct (y mod 2 =? 0); repeat split; ring.
Qed.


(** Rows lie [dstStride] apart and chroma rows [half] apart. *)
Lemma rows_apart (a b s : Z) : 0 <= s -> a <= b -> a * s <= b * s.
Proof. intros. now apply Z.mul_le_mono_nonneg_r. Qed.

Lemma loop_y_frame n : forall y st a,
  0 <= y -> at_row y st ->
  ~ (Y0 + y * dstStride <= a < Y0 + (y + Z.of_nat n) * dstStride) ->
  ~ (U0 + (y + 1) / 2 * half <= a < U0 + (y + Z.of_nat n + 1) / 2 * half) ->
  ~ (V0 + (y + 1) / 2 * half <= a < V0 + (y + Z.of_nat n + 1) / 2 * half) ->
  RGB.dst (loop_y n y st) a = RGB.dst st a.
Proof.
  induction n as [|n IH]; intros y st a Hy Row HY HU HV; [reflexivity|].
  cbn [RGB.loop_y].
  assert (0 <= half) by zdiv.
  assert (width / 2 <= half) by zdiv.
  pose proof (rows_apart (y + 1) (y + Z.of_nat (S n)) dstStride).
  pose proof (rows_apart ((y + 1) / 2 + 1) ((y + Z.of_nat (S n) + 1) / 2) half).
  pose proof (rows_apart ((y + 1 + 1) / 2) ((y + Z.of_nat (S n) + 1) / 2) half).
  pose proof (rows_apart ((y + 1) / 2) ((y + 1 + 1) / 2) half).
  replace (y + 1 + Z.of_nat n) with (y + Z.of_nat (S n)) in * by lia.
  assert ((y + 1) / 2 <= (y + 1 + 1) / 2) by zdiv.
  rewrite IH; [ | lia | apply at_row_next; assumption | | | ].
  - cbn [RGB.next_row RGB.dst].
    destruct Row as (A & B & C & D).
    apply loop_x_frame; rewrite ?A, ?B, ?C, Z2Nat.id by lia.
    + replace ((y + 1) * dstStride) with (y * dstStride + dstStride) in * by ring.
      lia.
    + intros [Ey Hr].
      assert ((y + 1) / 2 + 1 <= (y + Z.of_nat (S n) + 1) / 2) by zdiv.
      replace (((y + 1) / 2 + 1) * half) with ((y + 1) / 2 * half + half) in * by ring.
      assert (a < U0 + (y + 1) / 2 * half + half) by zdiv.
      change ((0 + 1) / 2) with 0 in Hr. lia.
    + intros [Ey Hr].
      assert ((y + 1) / 2 + 1 <= (y + Z.of_nat (S n) + 1) / 2) by zdiv.
      replace (((y + 1) / 2 + 1) * half) with ((y + 1) / 2 * half + half) in * by ring.
      assert (a < V0 + (y + 1) / 2 * half + half) by zdiv.
      change ((0 + 1) / 2) with 0 in Hr. lia.
  - replace (y + 1 + Z.of_nat n) with (y + Z.of_nat (S n)) by lia.
    replace ((y + 1) * dstStride) with (y * dstStride + dstStride) in * by ring.
    lia.
  - replace (y + 1 + Z.of_nat n + 1) with (y + Z.of_nat (S n) + 1) by lia. lia.
  - replace (y + 1 + Z.of_nat n + 1) with (y + Z.of_nat (S n) + 1) by lia. lia.
Qed.

(** The rows after [y] leave a cell of row [y] as the loop over [x]
    wrote it. *)
Ltac later_rows W :=
  rewrite loop_y_frame;
  [ cbn [RGB.next_row RGB.dst]; exact W
  | lia
  | apply at_row_next; [lia | repeat split; assumption]
  | | | ].

Lemma loop_y_written n : forall y st,
  0 <= y -> y + Z.of_nat n <= height -> at_row y st ->
  forall r x, y <= r < y + Z.of_nat n -> 0 <= x < width ->
  let p := src0 + r * srcStride + 4 * x in
  let d := RGB.dst (loop_y n y st) in
  d (Y0 + r * dstStride + x) = lumaAt p
  /\ (x mod 2 = 0 -> r mod 2 = 0 ->
      d (U0 + r / 2 * half + x / 2) = UAt p
      /\ d (V0 + r / 2 * half + x / 2) = VAt p).
Proof.
  induction n as [|n IH]; intros y st Hy Hn Row r x Hr Hx; [lia|].
  cbv zeta. cbn [RGB.loop_y].
  destruct (Z.eq_dec r y) as [-> | Nr].
  - clear IH. assert (0 <= half) by zdiv.
    assert (x / 2 < half) by zdiv.
    assert (E1 : (y + 1) * dstStride = y * dstStride + dstStride) by ring.
    assert (R1 : (y + 1 + Z.of_nat n) * dstStride <= dstStride * dstVStride)
      by (rewrite (Z.mul_comm dstStride); apply rows_apart; lia).
    assert (R2 : (y + 1) * dstStride <= (y + 1 + Z.of_nat n) * dstStride)
      by (apply rows_apart; lia).
    assert (R3 : (y + 1 + Z.of_nat n + 1) / 2 * half <= half * (dstVStride / 2))
      by (rewrite (Z.mul_comm half); apply rows_apart; zdiv).
    assert (R4 : (y + 1 + 1) / 2 * half <= (y + 1 + Z.of_nat n + 1) / 2 * half)
      by (apply rows_apart; zdiv).
    assert (R5 : half <= half * (dstVStride / 2))
      by (rewrite <- (Z.mul_1_r half) at 1; apply Z.mul_le_mono_nonneg_l; zdiv).
    destruct Row as (A & B & C & D).
    assert (SY : RGB.dstY st + 0 + Z.of_nat (Z.to_nat width) <= RGB.dstU st).
    { rewrite A, B, Z2Nat.id by lia.
      assert (0 <= (y + 1) / 2 * half) by (apply Z.mul_nonneg_nonneg; zdiv).
      lia. }
    assert (SU : RGB.dstU st + (0 + Z.of_nat (Z.to_nat width) + 1) / 2 <= RGB.dstV st).
    { rewrite B, C, Z2Nat.id by lia. assert ((0 + width + 1) / 2 <= half) by zdiv.
      lia. }
    assert (Hx' : 0 <= x < 0 + Z.of_nat (Z.to_nat width)) by (rewrite Z2Nat.id; lia).
    pose proof (loop_x_written (Z.to_nat width) 0 y st (Z.le_refl 0) SY SU x Hx')
      as [WL WC].
    rewrite A, D, Z.sub_0_r in WL.
    split.
    + later_rows WL.
      * lia.
      * assert (0 <= (y + 1 + 1) / 2 * half) by (apply Z.mul_nonneg_nonneg; zdiv).
        lia.
      * assert (0 <= (y + 1 + 1) / 2 * half) by (apply Z.mul_nonneg_nonneg; zdiv).
        lia.
    + intros Ex Ey.
      assert (Ec : (y + 1) / 2 = y / 2) by zdiv.
      assert (Ec' : (y + 1 + 1) / 2 = y / 2 + 1) by zdiv.
      assert (0 <= x / 2) by zdiv.
      assert (0 <= y / 2 * half) by (apply Z.mul_nonneg_nonneg; zdiv).
      destruct (WC Ex Ey) as [WU WV].
      rewrite B, D, Ec, Z.sub_0_r in WU. rewrite C, D, Ec, Z.sub_0_r in WV.
      rewrite Ec' in *.
      replace ((y / 2 + 1) * half) with (y / 2 * half + half) in * by ring.
      split.
      * later_rows WU.
        -- lia.
        -- rewrite Ec'.
           replace ((y / 2 + 1) * half) with (y / 2 * half + half) in * by ring.
           lia.
        -- rewrite Ec'.
           replace ((y / 2 + 1) * half) with (y / 2 * half + half) in * by ring.
           lia.
      * later_rows WV.
        -- lia.
        -- rewrite Ec'.
           replace ((y / 2 + 1) * half) with (y / 2 * half + half) in * by ring.
           lia.
        -- rewrite Ec'.
           replace ((y / 2 + 1) * half) with (y / 2 * half + half) in * by ring.
           lia.
  - apply (IH (y + 1) _); try lia.
    apply at_row_next; assumption.
Qed.

End RGBFacts.

Lemma usize_small (z : Z) : 0 <= z < 2 ^ 64 -> Int.usize z = z.
Proof. intros H. unfold Int.usize. now apply Z.mod_small. Qed.

(** C5. For an even width and an even height, [ConvertRGB32ToPlanar]
    passes its two checks and leaves, for every pixel [(x, y)] whose
    source bytes are [R], [G], [B] (read at the red, green and blue
    offsets, red and blue swapped by the [bgr] flag), the byte
    [((R*65 + G*129 + B*25 + 128) >> 8) + 16] at row [y], column [x] of
    the luma plane, and, for the pixels with [x] and [y] both even, the
    bytes [((-R*38 - G*74 + B*112 + 128) >> 8) + 128] and
    [((R*112 - G*94 - B*18 + 128) >> 8) + 128] at row [y/2], column
    [x/2] of the two chroma planes: the 32-bit unsigned arithmetic and
    the store to a byte lose nothing, and nothing is clamped. Nothing
    outside the three planes is written. The planes are those of a
    destination of stride [dstStride >= width] and [dstVStride >=
    height] rows. *)
Theorem ConvertRGB32ToPlanar_pixels
    (SURFACE_IS_BGR32 : bool) (dst : buffer) (dstY dstStride dstVStride : Z)
    (pixels : buffer) (src width height srcStride : Z) (bgr : bool) :
  bytes pixels ->
  0 <= width <= dstStride -> width mod 2 = 0 ->
  0 <= height <= dstVStride -> height mod 2 = 0 ->
  dstStride * dstVStride < 2 ^ 64 ->
  let dstU := dstY + dstStride * dstVStride in
  let dstV := dstU + dstStride / 2 * (dstVStride / 2) in
  exists d,
    ConvertRGB32ToPlanar SURFACE_IS_BGR32 dst dstY dstStride dstVStride
      pixels src width height srcStride bgr = Returned d
    /\ (forall x y, 0 <= x < width -> 0 <= y < height ->
        let p := src + y * srcStride + 4 * x in
        let R := pixels (p + redOffset SURFACE_IS_BGR32 bgr) in
        let G := pixels (p + greenOffset) in
        let B := pixels (p + blueOffset SURFACE_IS_BGR32 bgr) in
        d (dstY + y * dstStride + x)
        = Z.shiftr (R * 65 + G * 129 + B * 25 + 128) 8 + 16
        /\ (x mod 2 = 0 -> y mod 2 = 0 ->
            d (dstU + y / 2 * (dstStride / 2) + x / 2)
            = Z.shiftr (- R * 38 - G * 74 + B * 112 + 128) 8 + 128
            /\ d (dstV + y / 2 * (dstStride / 2) + x / 2)
               = Z.shiftr (R * 112 - G * 94 - B * 18 + 128) 8 + 128))
    /\ (forall a,
        ~ (dstY <= a < dstY + height * dstStride) ->
        ~ (dstU <= a < dstU + height / 2 * (dstStride / 2)) ->
        ~ (dstV <= a < dstV + height / 2 * (dstStride / 2)) ->
        d a = dst a)
    /\ (SURFACE_IS_BGR32 = false ->
        redOffset SURFACE_IS_BGR32 bgr = (if bgr then 2 else 0)
        /\ blueOffset SURFACE_IS_BGR32 bgr = (if bgr then 0 else 2)).
Proof.
  intros Hb Hw Ew Hh Eh Fit. cbv zeta.
  assert (Hs : 0 <= dstStride * dstVStride) by (apply Z.mul_nonneg_nonneg; lia).
  assert (Hc : 0 <= dstStride / 2 * (dstVStride / 2) < 2 ^ 64).
  { split; [apply Z.mul_nonneg_nonneg; zdiv|].
    apply Z.le_lt_trans with (dstStride * dstVStride); [|exact Fit].
    apply Z.mul_le_mono_nonneg; zdiv. }
  unfold ConvertRGB32ToPlanar.
  rewrite !land1, Ew, Eh. cbn [Z.eqb negb].
  rewrite !shr1, !usize_small by lia.
  eexists. split; [reflexivity|].
  set (st0 := RGB.mkState dst src dstY _ _).
  assert (Row : RGB.at_row dstStride srcStride dstY dstVStride src 0 st0).
  { unfold RGB.at_row, st0. cbn. repeat split; ring. }
  split; [|split].
  - intros x y Hx Hy.
    assert (Hy' : 0 <= y < 0 + Z.of_nat (Z.to_nat height))
      by (rewrite Z2Nat.id; lia).
    assert (Hn : 0 + Z.of_nat (Z.to_nat height) <= height)
      by (rewrite Z2Nat.id; lia).
    destruct (loop_y_written pixels dstStride width srcStride
                (redOffset SURFACE_IS_BGR32 bgr) greenOffset
                (blueOffset SURFACE_IS_BGR32 bgr)
                dstY dstVStride height src Hw Ew Hh Eh
                (Z.to_nat height) 0 st0 (Z.le_refl 0) Hn Row y x Hy' Hx)
      as [WL WC].
    cbv zeta. split.
    + rewrite WL. unfold RGB.lumaAt. apply luma_exact; apply Hb.
    + intros Ex Ey. destruct (WC Ex Ey) as [WU WV]. split.
      * rewrite WU. unfold RGB.UAt. apply U_exact; apply Hb.
      * rewrite WV. unfold RGB.VAt. apply V_exact; apply Hb.
  - intros a HY HU HV.
    apply (loop_y_frame pixels dstStride width srcStride
             (redOffset SURFACE_IS_BGR32 bgr) greenOffset
             (blueOffset SURFACE_IS_BGR32 bgr)
             dstY dstVStride height src Hw Ew (Z.to_nat height) 0 st0 a
             (Z.le_refl 0) Row);
      rewrite ?Z2Nat.id by lia; cbn [Z.add Z.mul];
      change ((0 + 1) / 2) with 0; rewrite ?Z.mul_0_l, ?Z.add_0_r.
    + exact HY.
    + replace ((height + 1) / 2) with (height / 2) by zdiv. exact HU.
    + replace ((height + 1) / 2) with (height / 2) by zdiv. exact HV.
  - intros ->. unfold redOffset, blueOffset. split; reflexivity.
Qed.

(** ** Semiplanar to planar *)

Lemma land_shiftl_low (x y n : Z) :
  0 <= n -> 0 <= x < 2 ^ n -> Z.land x (Z.shiftl y n) = 0.
Proof.
  intros Hn Hx. apply Z.bits_inj'. intros i Hi.
  rewrite Z.land_spec, Z.bits_0.
  destruct (Z.lt_ge_cases i n) as [Lt | Ge].
  - rewrite Z.shiftl_spec_low by assumption. apply andb_false_r.
  - rewrite <- (Z.mod_small x (2 ^ n)) by assumption.
    rewrite Z.mod_pow2_bits_high by lia. reflexivity.
Qed.

Lemma lor_shiftl_add (x y n : Z) :
  0 <= n -> 0 <= x < 2 ^ n -> Z.lor x (Z.shiftl y n) = x + y * 2 ^ n.
Proof.
  intros Hn Hx.
  pose proof (Z.add_lor_land x (Z.shiftl y n)) as E.
  rewrite land_shiftl_low in E by assumption.
  rewrite <- (Z.shiftl_mul_pow2 y n Hn). lia.
Qed.

Lemma load32_sum (m : buffer) (a : Z) :
  bytes m ->
  load32 m a
  = m a + 256 * m (a + 1) + 65536 * m (a + 2) + 16777216 * m (a + 3).
Proof.
  intros B. unfold load32.
  pose proof (B a). pose proof (B (a + 1)). pose proof (B (a + 2)).
  pose proof (B (a + 3)).
  replace (Z.shiftl (m (a + 3)) 24) with (Z.shiftl (Z.shiftl (m (a + 3)) 8) 16)
    by (rewrite Z.shiftl_shiftl by lia; reflexivity).
  rewrite <- Z.shiftl_lor.
  replace (Z.shiftl (Z.lor (m (a + 2)) (Z.shiftl (m (a + 3)) 8)) 16)
    with (Z.shiftl (Z.shiftl (Z.lor (m (a + 2)) (Z.shiftl (m (a + 3)) 8)) 8) 8)
    by (rewrite Z.shiftl_shiftl by lia; reflexivity).
  rewrite <- Z.shiftl_lor.
  rewrite !lor_shiftl_add by (change (2 ^ 8) with 256; lia).
  change (2 ^ 8) with 256. ring.
Qed.

Lemma land_shifted_mask (z k n : Z) :
  0 <= n -> Z.land z (Z.shiftl k n) = Z.shiftl (Z.land (Z.shiftr z n) k) n.
Proof.
  intros Hn. apply Z.bits_inj'. intros i Hi.
  rewrite Z.land_spec.
  destruct (Z.lt_ge_cases i n) as [Lt | Ge].
  - rewrite !Z.shiftl_spec_low by assumption. apply andb_false_r.
  - rewrite !Z.shiftl_spec by assumption.
    rewrite Z.land_spec, Z.shiftr_spec by lia.
    now replace (i - n + n) with i by lia.
Qed.

Lemma land_255 (z : Z) : Z.land z 255 = z mod 256.
Proof. change 255 with (Z.ones 8). now rewrite Z.land_ones. Qed.

(** The 16-bit value the loop body stores for a chroma plane: the bytes
    [lo] and [lo + 2] of the word it read. *)
Lemma pick_bytes (temp lo : Z) :
  0 <= lo ->
  Z.lor (Z.land (Z.shiftr temp lo) 255) (Z.land (Z.shiftr temp (lo + 8)) 65280)
  = (temp / 2 ^ lo) mod 256 + (temp / 2 ^ (lo + 16)) mod 256 * 256.
Proof.
  intros Hlo. change 65280 with (Z.shiftl 255 8).
  rewrite land_shifted_mask, Z.shiftr_shiftr, !land_255 by lia.
  rewrite lor_shiftl_add by (change (2 ^ 8) with 256; zdiv).
  rewrite !Z.shiftr_div_pow2 by lia.
  replace (lo + 8 + 8) with (lo + 16) by lia. reflexivity.
Qed.

Section SemiPlanarFacts.

Variable inYVU : buffer.
Hypothesis in_bytes : bytes inYVU.

Local Abbreviation body := (SemiPlanar.body inYVU).
Local Abbreviation loop_j := (SemiPlanar.loop_j inYVU).
Local Abbreviation loop_i := (SemiPlanar.loop_i inYVU).

(** One pass moves four source bytes to the two planes. *)
Lemma body_written (st : SemiPlanar.state) :
  let p := SemiPlanar.inYVU_4 st in
  let cb := SemiPlanar.outCb st in
  let cr := SemiPlanar.outCr st in
  let o := SemiPlanar.out (body st) in
  cb + 2 <= cr ->
  o cb = inYVU p /\ o (cb + 1) = inYVU (p + 2)
  /\ o cr = inYVU (p + 1) /\ o (cr + 1) = inYVU (p + 3).
Proof.
  cbv zeta. intros Sep. unfold SemiPlanar.body. cbn [SemiPlanar.out].
  change (Z.land (load32 inYVU (SemiPlanar.inYVU_4 st)) 255)
    with (Z.land (Z.shiftr (load32 inYVU (SemiPlanar.inYVU_4 st)) 0) 255).
  change (Z.shiftr (load32 inYVU (SemiPlanar.inYVU_4 st)) 16)
    with (Z.shiftr (load32 inYVU (SemiPlanar.inYVU_4 st)) (8 + 8)).
  change (Z.shiftr (load32 inYVU (SemiPlanar.inYVU_4 st)) 8)
    with (Z.shiftr (load32 inYVU (SemiPlanar.inYVU_4 st)) (0 + 8)) at 1.
  rewrite !pick_bytes by lia. rewrite load32_sum by exact in_bytes.
  change (2 ^ 0) with 1. change (2 ^ (0 + 16)) with 65536.
  change (2 ^ (0 + 8)) with 256. change (2 ^ (0 + 8 + 16)) with 16777216.
  pose proof (in_bytes (SemiPlanar.inYVU_4 st)).
  pose proof (in_bytes (SemiPlanar.inYVU_4 st + 1)).
  pose proof (in_bytes (SemiPlanar.inYVU_4 st + 2)).
  pose proof (in_bytes (SemiPlanar.inYVU_4 st + 3)).
  unfold store16, Int.u16. rewrite !Z.shiftr_div_pow2 by lia.
  change (2 ^ 8) with 256. change (2 ^ 16) with 65536.
  repeat split.
  - rewrite !store8_other, store8_same by lia. unfold Int.u8.
    change (2 ^ 8) with 256. zdiv.
  - rewrite !store8_other, store8_same by lia. unfold Int.u8.
    change (2 ^ 8) with 256. zdiv.
  - rewrite store8_other, store8_same by lia. unfold Int.u8.
    change (2 ^ 8) with 256. zdiv.
  - rewrite store8_same. unfold Int.u8.
    change (2 ^ 8) with 256. zdiv.
Qed.

Lemma body_frame (st : SemiPlanar.state) (a : Z) :
  ~ (SemiPlanar.outCb st <= a < SemiPlanar.outCb st + 2) ->
  ~ (SemiPlanar.outCr st <= a < SemiPlanar.outCr st + 2) ->
  SemiPlanar.out (body st) a = SemiPlanar.out st a.
Proof.
  intros HU HV. unfold SemiPlanar.body, store16. cbn [SemiPlanar.out].
  rewrite !store8_other by lia. reflexivity.
Qed.

Lemma loop_j_frame n : forall st a,
  ~ (SemiPlanar.outCb st <= a < SemiPlanar.outCb st + 2 * Z.of_nat n) ->
  ~ (SemiPlanar.outCr st <= a < SemiPlanar.outCr st + 2 * Z.of_nat n) ->
  SemiPlanar.out (loop_j n st) a = SemiPlanar.out st a.
Proof.
  induction n as [|n IH]; intros st a HU HV; [reflexivity|].
  cbn [SemiPlanar.loop_j]. rewrite IH.
  - apply body_frame; lia.
  - cbn [SemiPlanar.body SemiPlanar.outCb]. lia.
  - cbn [SemiPlanar.body SemiPlanar.outCr]. lia.
Qed.

(** After [n] passes the planes hold the even and the odd source bytes. *)
Lemma loop_j_written n : forall st,
  SemiPlanar.outCb st + 2 * Z.of_nat n <= SemiPlanar.outCr st ->
  forall k, 0 <= k < 2 * Z.of_nat n ->
  let o := SemiPlanar.out (loop_j n st) in
  o (SemiPlanar.outCb st + k) = inYVU (SemiPlanar.inYVU_4 st + 2 * k)
  /\ o (SemiPlanar.outCr st + k) = inYVU (SemiPlanar.inYVU_4 st + 2 * k + 1).
Proof.
  induction n as [|n IH]; intros st Sep k Hk; [lia|].
  cbv zeta. cbn [SemiPlanar.loop_j].
  destruct (Z.lt_ge_cases k 2) as [Lt | Ge].
  - assert (Sep1 : SemiPlanar.outCb st + 2 <= SemiPlanar.outCr st) by lia.
    destruct (body_written st Sep1) as (U0 & U1 & V0 & V1).
    rewrite !loop_j_frame;
      cbn [SemiPlanar.body SemiPlanar.outCb SemiPlanar.outCr]; try lia.
    change (SemiPlanar.out
              {| SemiPlanar.out := _; SemiPlanar.inYVU_4 := _;
                 SemiPlanar.outCb := _; SemiPlanar.outCr := _ |})
      with (SemiPlanar.out (body st)).
    assert (Ek : k = 0 \/ k = 1) by lia.
    destruct Ek as [-> | ->].
    + rewrite !Z.add_0_r. split; [exact U0 | exact V0].
    + split; [rewrite U1 | rewrite V1]; f_equal; lia.
  - specialize (IH (body st)).
    cbn [SemiPlanar.body SemiPlanar.inYVU_4 SemiPlanar.outCb SemiPlanar.outCr] in IH.
    destruct (IH ltac:(lia) (k - 2) ltac:(lia)) as [A B].
    replace (SemiPlanar.outCb st + 2 + (k - 2)) with (SemiPlanar.outCb st + k) in A by lia.
    replace (SemiPlanar.outCr st + 2 + (k - 2)) with (SemiPlanar.outCr st + k) in B by lia.
    split; [rewrite A | rewrite B]; f_equal; lia.
Qed.

Lemma loop_j_app a : forall b st, loop_j (a + b) st = loop_j b (loop_j a st).
Proof.
  induction a as [|a IH]; intros b st; [reflexivity|].
  cbn [Nat.add SemiPlanar.loop_j]. apply IH.
Qed.

(** The two nested loops make [i * (width >> 2)] passes in all. *)
Lemma loop_i_flat i : forall width st,
  loop_i i width st = loop_j (i * Z.to_nat (Z.shiftr width 2)) st.
Proof.
  induction i as [|i IH]; intros width st; [reflexivity|].
  cbn [SemiPlanar.loop_i Nat.mul]. rewrite IH, loop_j_app. reflexivity.
Qed.

End SemiPlanarFacts.

Lemma memcpy_spec n : forall dst d src s a,
  memcpy n dst d src s a
  = if (d <=? a) && (a <? d + Z.of_nat n)
    then Int.u8 (src (s + (a - d))) else dst a.
Proof.
  induction n as [|n IH]; intros dst d src s a.
  - cbn [memcpy]. destruct (Z.leb_spec d a), (Z.ltb_spec a (d + Z.of_nat 0));
      cbn; try reflexivity; lia.
  - cbn [memcpy]. rewrite IH.
    destruct (Z.eq_dec a d) as [-> | N].
    + replace (d + 1 <=? d) with false by (symmetry; apply Z.leb_gt; lia).
      replace (d <=? d) with true by (symmetry; apply Z.leb_le; lia).
      replace (d <? d + Z.of_nat (S n)) with true
        by (symmetry; apply Z.ltb_lt; lia).
      cbn [andb]. rewrite store8_same. f_equal. f_equal. lia.
    + rewrite store8_other by exact N.
      replace (d + 1 <=? a) with (d <=? a)
        by (destruct (Z.leb_spec d a), (Z.leb_spec (d + 1) a); lia).
      replace (d + 1 + Z.of_nat n) with (d + Z.of_nat (S n)) by lia.
      replace (s + 1 + (a - (d + 1))) with (s + (a - d)) by lia.
      reflexivity.
Qed.

Lemma bytes_of_list (l : list Z) : Forall is_byte l -> bytes (buffer_of_list l).
Proof.
  intros F a. unfold buffer_of_list.
  destruct (a <? 0); [lia|].
  destruct (nth_in_or_default (Z.to_nat a) l 0) as [I | ->]; [|lia].
  rewrite Forall_forall in F. exact (F _ I).
Qed.

Lemma buffer_of_list_nth (l : list Z) (i : nat) :
  buffer_of_list l (Z.of_nat i) = nth i l 0.
Proof.
  unfold buffer_of_list. destruct (Z.ltb_spec (Z.of_nat i) 0); [lia|].
  now rewrite Nat2Z.id.
Qed.

Lemma interleave_nth : forall cb cr k,
  List.length cb = List.length cr -> (k < List.length cb)%nat ->
  nth (2 * k) (interleave cb cr) 0 = nth k cb 0
  /\ nth (2 * k + 1) (interleave cb cr) 0 = nth k cr 0.
Proof.
  induction cb as [|u cb IH]; intros [|v cr] k E Hk; try discriminate E;
    cbn [List.length] in Hk; [lia|].
  destruct k as [|k]; [split; reflexivity|].
  replace (2 * S k)%nat with (S (S (2 * k))) by lia.
  replace (S (S (2 * k)) + 1)%nat with (S (S (2 * k + 1))) by lia.
  cbn [interleave nth]. apply IH; [now injection E | lia].
Qed.

Lemma read_S (m : buffer) (a : Z) (n : nat) :
  read m a (S n) = m a :: read m (a + 1) n.
Proof.
  unfold read. cbn [seq map]. rewrite <- seq_shift, map_map.
  f_equal; [f_equal; lia|].
  apply map_ext. intros i. f_equal. lia.
Qed.

Lemma read_eq (l : list Z) : forall (m : buffer) (a : Z),
  (forall i, (i < List.length l)%nat -> m (a + Z.of_nat i) = nth i l 0) ->
  read m a (List.length l) = l.
Proof.
  induction l as [|b l IH]; intros m a E; [reflexivity|].
  cbn [List.length]. rewrite read_S. f_equal.
  - specialize (E 0%nat ltac:(cbn [List.length]; lia)).
    cbn [nth] in E. rewrite <- E. f_equal. lia.
  - apply IH. intros i Hi.
    specialize (E (S i) ltac:(cbn [List.length]; lia)).
    cbn [nth] in E. rewrite <- E. f_equal. lia.
Qed.

(** C4. For a width divisible by 4 and a positive even height (whose
    product fits [int32_t]), packing a planar YUV420 image (the Y plane
    [y], the Cb plane [cb], the Cr plane [cr], each a list of bytes of
    the right length) into the semiplanar layout and converting the
    result with [ConvertYUV420SemiPlanarToYUV420Planar] leaves [y] at
    the start of the output, [cb] right after it and [cr] after that,
    byte for byte. *)
Theorem semiplanar_roundtrip (width height : Z) (y cb cr : list Z)
    (outYUV : buffer) :
  0 <= width -> width mod 4 = 0 -> 0 < height -> height mod 2 = 0 ->
  width * height <= Int.INT32_MAX ->
  Forall is_byte y -> Forall is_byte cb -> Forall is_byte cr ->
  Z.of_nat (List.length y) = width * height ->
  Z.of_nat (List.length cb) = (width / 2) * (height / 2) ->
  Z.of_nat (List.length cr) = (width / 2) * (height / 2) ->
  let planar :=
    ConvertYUV420SemiPlanarToYUV420Planar
      (buffer_of_list (packSemiPlanar y cb cr)) outYUV width height in
  read planar 0 (List.length y) = y
  /\ read planar (width * height) (List.length cb) = cb
  /\ read planar (width * height + width * height / 4) (List.length cr) = cr.
Proof.
  intros Hw Ew Hh Eh Fit By Bcb Bcr Ly Lcb Lcr. cbv zeta.
  set (inYVU := buffer_of_list (packSemiPlanar y cb cr)).
  assert (Bin : bytes inYVU).
  { apply bytes_of_list. unfold packSemiPlanar. apply Forall_app. split; [exact By|].
    clear - Bcb Bcr. revert cr Bcr.
    induction Bcb as [|u cb Hu _ IH]; intros cr Bcr; [constructor|].
    destruct Bcr as [|v cr Hv Bcr]; [constructor|].
    cbn [interleave]. constructor; [exact Hu|]. constructor; [exact Hv|].
    now apply IH. }
  assert (Llen : List.length cb = List.length cr) by lia.
  set (w' := width / 4). set (h' := height / 2).
  assert (Ew' : width = 4 * w') by (unfold w'; zdiv).
  assert (Eh' : height = 2 * h') by (unfold h'; zdiv).
  assert (Hw' : 0 <= w') by lia. assert (Hh' : 0 < h') by lia.
  assert (Ewh : width * height = 8 * (w' * h')) by (rewrite Ew', Eh'; ring).
  assert (Hwh : 0 <= w' * h') by (apply Z.mul_nonneg_nonneg; lia).
  assert (Eq4 : width * height / 4 = 2 * (w' * h')) by (rewrite Ewh; zdiv).
  assert (Ehalf : width / 2 * (height / 2) = 2 * (w' * h')).
  { replace (width / 2) with (2 * w') by zdiv.
    replace (height / 2) with h' by reflexivity. ring. }
  unfold ConvertYUV420SemiPlanarToYUV420Planar, Int.smul32.
  unfold Int.INT32_MAX in Fit.
  rewrite s32_small by lia.
  unfold Int.usize. rewrite (Z.mod_small (width * height)) by lia.
  rewrite !Z.shiftr_div_pow2 by lia.
  change (2 ^ 2) with 4. change (2 ^ 1) with 2.
  rewrite loop_i_flat. rewrite Z.shiftr_div_pow2 by lia. change (2 ^ 2) with 4.
  fold w' h'.
  set (N := (Z.to_nat h' * Z.to_nat w')%nat).
  assert (EN : Z.of_nat N = w' * h').
  { unfold N. rewrite Nat2Z.inj_mul, !Z2Nat.id by lia. ring. }
  set (st0 := SemiPlanar.mkState _ _ _ _).
  assert (Sep : SemiPlanar.outCb st0 + 2 * Z.of_nat N <= SemiPlanar.outCr st0).
  { unfold st0. cbn [SemiPlanar.outCb SemiPlanar.outCr]. lia. }
  pose proof (loop_j_written inYVU Bin N st0 Sep) as W.
  unfold st0 in W. cbn [SemiPlanar.outCb SemiPlanar.outCr SemiPlanar.inYVU_4] in W.
  fold st0 in W.
  split; [|split].
  - apply read_eq. intros i Hi.
    rewrite loop_j_frame; unfold st0;
      cbn [SemiPlanar.outCb SemiPlanar.outCr SemiPlanar.out]; try lia.
    rewrite memcpy_spec.
    replace ((0 <=? 0 + Z.of_nat i) && (0 + Z.of_nat i <? 0 + Z.of_nat (Z.to_nat (width * height))))
      with true
      by (symmetry; apply andb_true_intro; split;
          [apply Z.leb_le | apply Z.ltb_lt]; lia).
    replace (0 + (0 + Z.of_nat i - 0)) with (Z.of_nat i) by lia.
    pose proof (Bin (Z.of_nat i)) as Bi.
    unfold Int.u8. change (2 ^ 8) with 256. rewrite Z.mod_small by exact Bi.
    unfold inYVU. rewrite buffer_of_list_nth. unfold packSemiPlanar.
    now rewrite app_nth1.
  - apply read_eq. intros i Hi.
    destruct (W (Z.of_nat i) ltac:(lia)) as [A _]. rewrite A.
    replace (width * height + 2 * Z.of_nat i)
      with (Z.of_nat (List.length y + 2 * i)) by lia.
    unfold inYVU. rewrite buffer_of_list_nth. unfold packSemiPlanar.
    rewrite app_nth2 by lia.
    replace (List.length y + 2 * i - List.length y)%nat with (2 * i)%nat by lia.
    now apply interleave_nth.
  - apply read_eq. intros i Hi. rewrite Eq4.
    replace (width * height + 2 * (w' * h'))
      with (width * height + width * height / 4) by lia.
    rewrite Eq4.
    destruct (W (Z.of_nat i) ltac:(lia)) as [_ B].
    replace (width * height + width * height / 4) with (width * height + 2 * (w' * h')) in B by lia.
    rewrite B.
    replace (width * height + 2 * Z.of_nat i + 1)
      with (Z.of_nat (List.length y + (2 * i + 1))) by lia.
    unfold inYVU. rewrite buffer_of_list_nth. unfold packSemiPlanar.
    rewrite app_nth2 by lia.
    replace (List.length y + (2 * i + 1) - List.length y)%nat with (2 * i + 1)%nat by lia.
    apply interleave_nth; [assumption | lia].
Qed.

(** ** The conversion and extraction theorems at concrete frames *)

(** The 4 x 2 image packed and converted back. *)
Lemma semiplanar_roundtrip_witness :
  let planar :=
    ConvertYUV420SemiPlanarToYUV420Planar
      (buffer_of_list
         (packSemiPlanar Example.y_plane Example.cb_plane Example.cr_plane))
      Example.zeroed 4 2 in
  4 mod 4 = 0 /\ 2 mod 2 = 0
  /\ read planar 0 8 = Example.y_plane
  /\ read planar 8 2 = Example.cb_plane
  /\ read planar 10 2 = Example.cr_plane.
Proof.
  cbv zeta. split; [reflexivity|]. split; [reflexivity|].
  apply (semiplanar_roundtrip 4 2 Example.y_plane Example.cb_plane
           Example.cr_plane Example.zeroed);
    try reflexivity; try (unfold Int.INT32_MAX; lia);
    repeat constructor; unfold is_byte; lia.
Defined.

(** The red pixel of the 2 x 2 image becomes [Y = 81], [U = 90],
    [V = 240]. *)
Lemma ConvertRGB32ToPlanar_pixels_witness :
  bytes (buffer_of_list Example.rgba)
  /\ exists d,
       ConvertRGB32ToPlanar false Example.zeroed 0 2 2
         (buffer_of_list Example.rgba) 0 2 2 8 false = Returned d
       /\ d 0 = 81 /\ d 4 = 90 /\ d 5 = 240.
Proof.
  assert (B : bytes (buffer_of_list Example.rgba))
    by (apply bytes_of_list; repeat constructor; unfold is_byte; lia).
  split; [exact B|].
  destruct (ConvertRGB32ToPlanar_pixels false Example.zeroed 0 2 2
              (buffer_of_list Example.rgba) 0 2 2 8 false B)
    as (d & E & W & _); try lia; try reflexivity.
  exists d. split; [exact E|].
  destruct (W 0 0) as [L C]; try lia.
  destruct (C eq_refl eq_refl) as [U V].
  repeat split; [exact L | exact U | exact V].
Defined.

(** The fence of descriptor 5 times out. *)
Lemma fence_timeout_leaves_destination_witness :
  0 <= nFenceFd Example.fenced
  /\ exists e,
       Example.extract (-62) = Returned e
       /\ ret e = None /\ dst_after e = Example.zeroed.
Proof.
  split; [unfold Example.fenced; cbn; lia|].
  apply (fence_timeout_leaves_destination false
           Example.sizeof_VideoNativeMetadata
           Example.sizeof_VideoGrallocMetadata 1000 (fun _ _ => -62)
           (fun _ => (0, 0)) (fun _ => (0, mkYCbCr 0 0 0 0 0 0))
           (buffer_of_list Example.rgba) (fun _ _ _ => Example.zeroed)
           Example.encoder Example.zeroed 6 Example.fenced 24 2 2
           (mkYCbCr 0 0 0 0 0 0)).
  - reflexivity.
  - unfold Example.fenced; cbn; lia.
  - discriminate.
Defined.

(** When the same fence signals, the call returns [dst] and the frame
    has been written to it. *)
Lemma fence_signalled_writes_destination :
  match Example.extract 0 with
  | Returned e =>
      ret e = Some 0 /\ read (dst_after e) 0 6 = [81; 144; 41; 234; 90; 240]
  | Aborted => False
  end.
Proof. vm_compute. split; reflexivity. Qed.

(** * Further properties *)

(** ** Negotiation *)

(** Reduction of the record updates and projections alone. *)
Ltac records :=
  cbv beta iota zeta delta
    [updatePortParams with_geometry with_mShmData with_mFramerate
     with_mBitrate with_mColorFormat with_mInputDataIsMeta with_policy
     with_ports set_geometry set_frame_size set_xFramerate set_eColorFormat
     set_nBitrate set_video set_nBufferSize
     mInputDataIsMeta mWidth mHeight mBitrate mFramerate mColorFormat
     mMinOutputBufferSize mMinCompressionRatio mComponentRole mCodingType
     mProfileLevels mIsPowervr mEglDisplay mShmData inDef outDef
     nSize nPortIndex eDir nBufferCountActual nBufferCountMin nBufferSize
     bEnabled bPopulated bBuffersContiguous nBufferAlignment video
     cMIMEType nFrameWidth nFrameHeight nStride nSliceHeight nBitrate
     xFramerate bFlagErrorConcealment eCompressionFormat eColorFormat
     fst snd].


(** The [int32_t] frame size is the exact one for a geometry in range. *)
Lemma rawFrameSize_exact (c : Component) :
  0 <= mWidth c -> 0 <= mHeight c ->
  mWidth c * mHeight c * 3 <= Int.INT32_MAX ->
  rawFrameSize c = mWidth c * mHeight c * 3 / 2.
Proof.
  intros Hw Hh Fit. unfold rawFrameSize, Int.sdiv32, Int.smul32.
  unfold Int.INT32_MAX in Fit.
  assert (0 <= mWidth c * mHeight c) by lia.
  rewrite (s32_small (mWidth c * mHeight c)) by lia.
  rewrite (s32_small (mWidth c * mHeight c * 3)) by lia.
  rewrite Z.quot_div_nonneg by lia.
  apply s32_small. zdiv.
Qed.

Section MoreNegotiationFacts.

Variable sizeof_VideoNativeMetadata : Z.
Variable sizeof_VideoGrallocMetadata : Z.
Context {valid_portdef : OMXParam OMX_PARAM_PORTDEFINITIONTYPE}.
Context {valid_portformat : OMXParam OMX_VIDEO_PARAM_PORTFORMATTYPE}.
Context {valid_storemeta : OMXParam StoreMetaDataInBuffersParams}.
Context {valid_role : OMXParam OMX_PARAM_COMPONENTROLETYPE}.
Context {valid_profilelevel : OMXParam OMX_VIDEO_PARAM_PROFILELEVELTYPE}.
Variable SimpleSoftOMXComponent_internalSetParameter :
  OMX_PARAM -> Component -> OMX_ERRORTYPE * Component.
Variable SimpleSoftOMXComponent_internalGetParameter :
  OMX_PARAM -> Component -> OMX_ERRORTYPE * OMX_PARAM.
Variable SimpleSoftOMXComponent_getPortDefinition :
  OMX_PARAM_PORTDEFINITIONTYPE -> Component ->
  OMX_ERRORTYPE * OMX_PARAM_PORTDEFINITIONTYPE.
Variable property_get : string -> string -> Z * string.
Variable OMX_MAX_STRINGNAME_SIZE : Z.
Variable GRALLOC_USAGE_SW_READ_OFTEN : Z.

Local Abbreviation updatePortParams :=
  (updatePortParams sizeof_VideoNativeMetadata sizeof_VideoGrallocMetadata).
Local Abbreviation internalSetPortParams :=
  (internalSetPortParams sizeof_VideoNativeMetadata sizeof_VideoGrallocMetadata).
Local Abbreviation internalSetParameter :=
  (internalSetParameter sizeof_VideoNativeMetadata sizeof_VideoGrallocMetadata
     SimpleSoftOMXComponent_internalSetParameter OMX_MAX_STRINGNAME_SIZE).
Local Abbreviation apply_change :=
  (apply_change sizeof_VideoNativeMetadata sizeof_VideoGrallocMetadata
     SimpleSoftOMXComponent_internalSetParameter OMX_MAX_STRINGNAME_SIZE).
Local Abbreviation internalGetParameter :=
  (internalGetParameter SimpleSoftOMXComponent_internalGetParameter
     property_get GRALLOC_USAGE_SW_READ_OFTEN
     SimpleSoftOMXComponent_getPortDefinition).
Local Abbreviation validateInputBuffer :=
  (validateInputBuffer sizeof_VideoNativeMetadata sizeof_VideoGrallocMetadata).
Local Abbreviation frameSize :=
  (frameSize sizeof_VideoNativeMetadata sizeof_VideoGrallocMetadata).
Local Abbreviation metadataBufferSize :=
  (metadataBufferSize sizeof_VideoNativeMetadata sizeof_VideoGrallocMetadata).

Lemma supportedInputColor_In (f : OMX_COLOR_FORMATTYPE) :
  supportedInputColor f = true <-> In f kSupportedColorFormats.
Proof.
  unfold supportedInputColor, kSupportedColorFormats. cbn [In].
  rewrite !orb_true_iff, !color_eqb_eq. intuition congruence.
Qed.

(** Recomputing the port definitions twice is recomputing them once. *)
Lemma updatePortParams_idem (c : Component) :
  updatePortParams (updatePortParams c) = updatePortParams c.
Proof. destruct c. reflexivity. Qed.

(** X1. Every configuration request is idempotent: made a second time
    right after the first, it returns the same error and leaves the
    component as the first left it, whether it was accepted or
    rejected. *)
Theorem change_idempotent (ch : ConfigChange) (c : Component) :
  apply_change ch (snd (apply_change ch c)) = apply_change ch c.
Proof.
  destruct ch as [port | format | storeParam].
  - unfold apply_change, internalSetPortParams.
    destruct (negb (isValidOMXParam port)); [reflexivity|].
    destruct (nPortIndex port =? kInputPortIndex).
    + destruct (negb (coding_eqb (eCompressionFormat (video port))
                        OMX_VIDEO_CodingUnused)
                || negb (supportedInputColor (eColorFormat (video port))));
        destruct c as [? ? ? ? ? ? ? ? ? ? ? pvr ? shm ? ?];
        destruct pvr, shm; records; reflexivity.
    + destruct (nPortIndex port =? kOutputPortIndex); [|reflexivity].
      destruct (negb (coding_eqb (eCompressionFormat (video port))
                        (mCodingType c))
                || negb (color_eqb (eColorFormat (video port))
                           OMX_COLOR_FormatUnused)) eqn:B.
      * cbv beta iota delta [snd]. now rewrite B.
      * cbv beta iota delta [snd].
        change (mCodingType (updatePortParams
                               (with_mBitrate (nBitrate (video port)) c)))
          with (mCodingType c).
        rewrite B. destruct c. reflexivity.
  - unfold apply_change, internalSetParameter.
    destruct (negb (isValidOMXParam format)); [reflexivity|].
    destruct (pf_nPortIndex format =? kInputPortIndex).
    + destruct (supportedInputColor _); destruct c; reflexivity.
    + destruct (pf_nPortIndex format =? kOutputPortIndex); [|reflexivity].
      destruct (coding_eqb (pf_eCompressionFormat format) (mCodingType c))
        eqn:B; cbv beta iota delta [snd]; now rewrite B.
  - unfold apply_change, internalSetParameter.
    destruct (negb (isValidOMXParam storeParam)); [reflexivity|].
    destruct (sm_nPortIndex storeParam =? kOutputPortIndex); [reflexivity|].
    destruct (negb (sm_nPortIndex storeParam =? kInputPortIndex));
      [reflexivity|].
    destruct c as [? ? ? ? ? col ? ? ? ? ? ? ? ? ? ?].
    destruct (bStoreMetaData storeParam =? OMX_TRUE); [reflexivity|].
    destruct col; records; reflexivity.
Qed.

(** X2. A rejected call of [internalSetPortParams], and a rejected
    port-format or store-metadata request to [internalSetParameter],
    leave the component exactly as it was, except a well-sized
    input-port definition that [internalSetPortParams] rejects for its
    format (which has stored its geometry and framerate by then). *)
Theorem rejected_change_keeps_state (ch : ConfigChange) (c : Component) :
  fst (apply_change ch c) <> OMX_ErrorNone ->
  snd (apply_change ch c) = c
  \/ (exists port,
        ch = PortParams port /\ isValidOMXParam port = true
        /\ nPortIndex port = kInputPortIndex
        /\ fst (apply_change ch c) = OMX_ErrorUnsupportedSetting).
Proof.
  destruct ch as [port | format | storeParam]; cbn.
  - unfold internalSetPortParams.
    destruct (isValidOMXParam port) eqn:V; cbn [negb]; [|now left].
    destruct (nPortIndex port =? kInputPortIndex) eqn:P.
    + apply Z.eqb_eq in P.
      destruct (_ || _); cbn [fst snd]; [|congruence].
      intros _. right. exists port. repeat split; assumption.
    + destruct (nPortIndex port =? kOutputPortIndex); [|now left].
      destruct (_ || _); cbn [fst snd]; [now left | congruence].
  - destruct (negb (isValidOMXParam format)); [now left|].
    destruct (pf_nPortIndex format =? kInputPortIndex).
    + destruct (supportedInputColor _); cbn [fst snd];
        [congruence | now left].
    + destruct (pf_nPortIndex format =? kOutputPortIndex); [|now left].
      destruct (coding_eqb _ _); now left.
  - destruct (negb (isValidOMXParam storeParam)); [now left|].
    destruct (sm_nPortIndex storeParam =? kOutputPortIndex); [now left|].
    destruct (negb (sm_nPortIndex storeParam =? kInputPortIndex));
      cbn [fst snd]; [now left | congruence].
Qed.

(** X3. A well-sized store-metadata request on the input port sets
    [mInputDataIsMeta] to whether the request carried [OMX_TRUE]; every
    other store-metadata request, every port format handed to
    [internalSetParameter] and every port definition handed to
    [internalSetPortParams] leaves the flag as it was. *)
Theorem metadata_flag_only_toggled (ch : ConfigChange) (c : Component) :
  mInputDataIsMeta (snd (apply_change ch c))
  = match ch with
    | MetadataMode storeParam =>
        if isValidOMXParam storeParam
           && (sm_nPortIndex storeParam =? kInputPortIndex)
        then bStoreMetaData storeParam =? OMX_TRUE
        else mInputDataIsMeta c
    | _ => mInputDataIsMeta c
    end.
Proof.
  destruct ch as [port | format | storeParam]; cbn [apply_change].
  - unfold internalSetPortParams.
    destruct (negb (isValidOMXParam port)); [reflexivity|].
    destruct (nPortIndex port =? kInputPortIndex).
    + destruct (_ || _); records; destruct c as [? ? ? ? ? ? ? ? ? ? ? pvr ? shm ? ?];
        destruct pvr, shm; reflexivity.
    + destruct (nPortIndex port =? kOutputPortIndex); [|reflexivity].
      destruct (_ || _); reflexivity.
  - unfold internalSetParameter.
    destruct (negb (isValidOMXParam format)); [reflexivity|].
    destruct (pf_nPortIndex format =? kInputPortIndex).
    + destruct (supportedInputColor _); reflexivity.
    + destruct (pf_nPortIndex format =? kOutputPortIndex); [|reflexivity].
      destruct (coding_eqb _ _); reflexivity.
  - unfold internalSetParameter.
    destruct (isValidOMXParam storeParam) eqn:V; cbn [negb andb];
      [|reflexivity].
    destruct (sm_nPortIndex storeParam =? kOutputPortIndex) eqn:P.
    + apply Z.eqb_eq in P. rewrite P. reflexivity.
    + destruct (sm_nPortIndex storeParam =? kInputPortIndex) eqn:Q;
        cbn [negb]; [|reflexivity].
      records. destruct (bStoreMetaData storeParam =? OMX_TRUE);
        [reflexivity|]. destruct c as [? ? ? ? ? col ? ? ? ? ? ? ? ? ? ?].
      destruct col; reflexivity.
Qed.

(** X4. Choosing [OMX_COLOR_FormatAndroidOpaque] through the port format
    is accepted and stores the metadata size as [nBufferSize] of the
    input port definition the component keeps, but it does not switch
    metadata mode on: [mInputDataIsMeta] and the length
    [validateInputBuffer] expects are as before.  (The stored field is
    not what a port-definition query returns: the query overwrites
    [nBufferSize].) *)
Theorem opaque_format_keeps_metadata_flag
    (format : OMX_VIDEO_PARAM_PORTFORMATTYPE) (c : Component) :
  isValidOMXParam format = true ->
  pf_nPortIndex format = kInputPortIndex ->
  pf_eColorFormat format = OMX_COLOR_FormatAndroidOpaque ->
  let r := internalSetParameter (OMX_IndexParamVideoPortFormat format) c in
  fst r = OMX_ErrorNone
  /\ mColorFormat (snd r) = OMX_COLOR_FormatAndroidOpaque
  /\ nBufferSize (inDef (snd r)) = Int.u32 metadataBufferSize
  /\ mInputDataIsMeta (snd r) = mInputDataIsMeta c
  /\ frameSize (snd r) = frameSize c.
Proof.
  intros V P F. cbv zeta. unfold internalSetParameter.
  rewrite V, P, F. cbn. repeat split.
Qed.

(** X5. The input-port format enumeration and the input-port format
    setter agree: index [0], [1], [2] yield the three entries of
    [kSupportedColorFormats] with [OMX_VIDEO_CodingUnused] and the
    stored framerate, every larger index yields [OMX_ErrorNoMore], and
    a color format is accepted by the setter exactly when some index
    yields it. *)
Theorem input_formats_enumerated
    (formatParams : OMX_VIDEO_PARAM_PORTFORMATTYPE) (c : Component) :
  isValidOMXParam formatParams = true ->
  pf_nPortIndex formatParams = kInputPortIndex ->
  0 <= pf_nIndex formatParams ->
  let got := internalGetParameter (OMX_IndexParamVideoPortFormat formatParams) c in
  let accepted :=
    fst (internalSetParameter (OMX_IndexParamVideoPortFormat formatParams) c)
    = OMX_ErrorNone in
  (3 <= pf_nIndex formatParams ->
   got = Returned (OMX_ErrorNoMore, OMX_IndexParamVideoPortFormat formatParams))
  /\ (pf_nIndex formatParams < 3 ->
      exists f,
        nth_error kSupportedColorFormats (Z.to_nat (pf_nIndex formatParams))
        = Some f
        /\ got
           = Returned
               (OMX_ErrorNone,
                OMX_IndexParamVideoPortFormat
                  (mkPortFormat (pf_nSize formatParams) kInputPortIndex
                     (pf_nIndex formatParams) OMX_VIDEO_CodingUnused f
                     (mFramerate c))))
  /\ (accepted <-> In (pf_eColorFormat formatParams) kSupportedColorFormats).
Proof.
  intros V P I. cbv zeta.
  unfold internalGetParameter, internalSetParameter. rewrite V, P. cbn [negb].
  change (kInputPortIndex =? kInputPortIndex) with true. cbv iota.
  split; [|split].
  - intros Big.
    destruct (nth_error kSupportedColorFormats
                (Z.to_nat (pf_nIndex formatParams))) eqn:E; [|reflexivity].
    assert (N : nth_error kSupportedColorFormats
                  (Z.to_nat (pf_nIndex formatParams)) <> None) by congruence.
    apply nth_error_Some in N. cbn in N. lia.
  - intros Small.
    assert (Hi : pf_nIndex formatParams = 0 \/ pf_nIndex formatParams = 1
                 \/ pf_nIndex formatParams = 2) by lia.
    destruct Hi as [E | [E | E]]; rewrite E; eexists; split; reflexivity.
  - rewrite <- supportedInputColor_In.
    destruct (supportedInputColor (pf_eColorFormat formatParams));
      cbn [fst]; split; congruence.
Qed.

(** X6. What the output-port format query reports is what the setters
    accept: the reported structure (the coding type of the component,
    [OMX_COLOR_FormatUnused], framerate 0) is accepted back as a port
    format without any change.  For a well-sized output-port definition,
    [internalSetPortParams] returns [OMX_ErrorNone] exactly when the
    definition carries these two formats; the port-definition request to
    [internalSetParameter] is then answered by the base class, on the
    component with the bitrate stored and the ports recomputed, and
    otherwise it is rejected with [OMX_ErrorUnsupportedSetting] without
    reaching the base class, the component unchanged. *)
Theorem output_format_round_trip
    (formatParams : OMX_VIDEO_PARAM_PORTFORMATTYPE)
    (port : OMX_PARAM_PORTDEFINITIONTYPE) (c : Component) :
  isValidOMXParam formatParams = true ->
  pf_nPortIndex formatParams = kOutputPortIndex ->
  isValidOMXParam port = true ->
  nPortIndex port = kOutputPortIndex ->
  let reported :=
    mkPortFormat (pf_nSize formatParams) kOutputPortIndex
      (pf_nIndex formatParams) (mCodingType c) OMX_COLOR_FormatUnused 0 in
  let formats_agree :=
    eCompressionFormat (video port) = mCodingType c
    /\ eColorFormat (video port) = OMX_COLOR_FormatUnused in
  internalGetParameter (OMX_IndexParamVideoPortFormat formatParams) c
  = Returned (OMX_ErrorNone, OMX_IndexParamVideoPortFormat reported)
  /\ (isValidOMXParam reported = true ->
      internalSetParameter (OMX_IndexParamVideoPortFormat reported) c
      = (OMX_ErrorNone, c))
  /\ (fst (internalSetPortParams port c) = OMX_ErrorNone <-> formats_agree)
  /\ (formats_agree ->
      internalSetParameter (OMX_IndexParamPortDefinition port) c
      = SimpleSoftOMXComponent_internalSetParameter
          (OMX_IndexParamPortDefinition port)
          (updatePortParams (with_mBitrate (nBitrate (video port)) c)))
  /\ (~ formats_agree ->
      internalSetParameter (OMX_IndexParamPortDefinition port) c
      = (OMX_ErrorUnsupportedSetting, c)).
Proof.
  intros V P Vp Pp. cbv zeta.
  unfold internalGetParameter, internalSetParameter, internalSetPortParams.
  rewrite V, P, Vp, Pp. cbn.
  split; [reflexivity|]. split.
  - intros ->. cbn. replace (coding_eqb (mCodingType c) (mCodingType c))
      with true by (symmetry; now apply coding_eqb_eq). reflexivity.
  - destruct (coding_eqb (eCompressionFormat (video port)) (mCodingType c))
      eqn:E1;
      destruct (color_eqb (eColorFormat (video port)) OMX_COLOR_FormatUnused)
        eqn:E2; cbn;
      rewrite ?coding_eqb_eq, ?color_eqb_eq, ?coding_eqb_neq, ?color_eqb_neq
        in *;
      (split; [split; intros H; try discriminate H; try (now split);
               destruct H; congruence|]);
      (split; [intros [H1 H2] | intros H]);
      try reflexivity; try congruence;
      exfalso; apply H; now split.
Qed.

(** X7. After a store-metadata request on the input port, the
    [nBufferSize] that [updatePortParams] has stored in the input port
    definition is the length [validateInputBuffer] expects: a buffer
    filled to that length passes without a warning, in metadata mode and
    out of it (for metadata structures below 4 GiB and a non-negative
    geometry whose frame fits [int32_t]).  The stored field, not the
    size a port-definition query returns, is meant. *)
Theorem stored_input_size_validates
    (storeParam : StoreMetaDataInBuffersParams) (c : Component) :
  isValidOMXParam storeParam = true ->
  sm_nPortIndex storeParam = kInputPortIndex ->
  0 <= sizeof_VideoNativeMetadata < 2 ^ 32 ->
  0 <= sizeof_VideoGrallocMetadata < 2 ^ 32 ->
  0 <= mWidth c -> 0 <= mHeight c ->
  mWidth c * mHeight c * 3 <= Int.INT32_MAX ->
  let c' := snd (internalSetParameter (kStoreMetaDataExtensionIndex storeParam) c) in
  validateInputBuffer (nBufferSize (inDef c')) c' = (OMX_ErrorNone, []).
Proof.
  clear SimpleSoftOMXComponent_internalGetParameter
    SimpleSoftOMXComponent_getPortDefinition.
  intros V P Sn Sg Hw Hh Fit. cbv zeta.
  assert (E : forall d,
            mWidth d = mWidth c -> mHeight d = mHeight c ->
            (mInputDataIsMeta d = true ->
             mColorFormat d = OMX_COLOR_FormatAndroidOpaque) ->
            (mInputDataIsMeta d = false ->
             mColorFormat d <> OMX_COLOR_FormatAndroidOpaque) ->
            validateInputBuffer (nBufferSize (inDef (updatePortParams d)))
              (updatePortParams d) = (OMX_ErrorNone, [])).
  { intros d Ew Eh On Off.
    assert (S : nBufferSize (inDef (updatePortParams d))
                = frameSize (updatePortParams d)).
    { unfold frameSize.
      change (mInputDataIsMeta (updatePortParams d)) with (mInputDataIsMeta d).
      change (rawFrameSize (updatePortParams d)) with (rawFrameSize d).
      change (nBufferSize (inDef (updatePortParams d)))
        with (if color_eqb (mColorFormat d) OMX_COLOR_FormatAndroidOpaque
              then Int.u32 metadataBufferSize
              else rawBufferSize (Int.s32 (Int.u32 (mWidth d)))
                     (Int.u32 (mHeight d))).
      destruct (mInputDataIsMeta d).
      - rewrite (On eq_refl). cbn [color_eqb].
        unfold Int.u32, metadataBufferSize. apply Z.mod_small. lia.
      - specialize (Off eq_refl). apply color_eqb_neq in Off. rewrite Off.
        unfold Int.INT32_MAX in Fit.
        assert (0 <= mWidth c * mHeight c) by lia.
        rewrite rawBufferSize_stored, rawFrameSize_exact, Ew, Eh
          by (rewrite ?Ew, ?Eh; assumption).
        rewrite Z.mod_small by lia.
        unfold Int.usize. symmetry. apply Z.mod_small. zdiv. }
    unfold validateInputBuffer. rewrite S, Z.ltb_irrefl. reflexivity. }
  unfold internalSetParameter. rewrite V, P.
  change (kInputPortIndex =? kOutputPortIndex) with false.
  change (negb (kInputPortIndex =? kInputPortIndex)) with false. cbv iota.
  cbv beta iota delta [snd].
  destruct (bStoreMetaData storeParam =? OMX_TRUE).
  - apply E; [reflexivity | reflexivity | intros M | intros M];
      [reflexivity | discriminate M].
  - change (mInputDataIsMeta (with_mInputDataIsMeta false c)) with false.
    cbv iota.
    change (mColorFormat (with_mInputDataIsMeta false c)) with (mColorFormat c).
    destruct (color_eqb (mColorFormat c) OMX_COLOR_FormatAndroidOpaque) eqn:B.
    + apply E; [reflexivity | reflexivity | intros M | intros M];
        [discriminate M | discriminate].
    + apply E; [reflexivity | reflexivity | intros M | intros M];
        [discriminate M | now apply color_eqb_neq].
Qed.


(** [strncmp] finds a string equal to itself. *)
Lemma strncmp_eq_refl (a : string) (n : nat) : strncmp_eq a a n = true.
Proof.
  revert a. induction n as [| n IH]; intros a; [now destruct a|].
  destruct a as [| x a]; [reflexivity|].
  cbn. now rewrite Ascii.eqb_refl, IH.
Qed.

(** Within [n] characters, [strncmp] compares whole strings. *)
Lemma strncmp_eq_short (a b : string) (n : nat) :
  (String.length a < n)%nat -> strncmp_eq a b n = true -> a = b.
Proof.
  revert a b. induction n as [| n IH]; intros a b L E; [inversion L|].
  destruct a as [| x a], b as [| y b]; try discriminate E; [reflexivity|].
  cbn in E, L. apply andb_true_iff in E as [Exy E].
  apply Ascii.eqb_eq in Exy. subst y. f_equal. apply IH; [lia | exact E].
Qed.

(** X9. A role request never changes the component.  A valid request
    naming the component's own role is accepted; a valid request whose
    role is shorter than [OMX_MAX_STRINGNAME_SIZE - 1] characters is
    accepted only if it is the component's role, and is answered with
    [OMX_ErrorUnsupportedSetting] otherwise. *)
Theorem role_request (roleParams : OMX_PARAM_COMPONENTROLETYPE)
    (c : Component) :
  isValidOMXParam roleParams = true ->
  let r := internalSetParameter (OMX_IndexParamStandardComponentRole roleParams) c in
  snd r = c
  /\ (cRole roleParams = mComponentRole c -> fst r = OMX_ErrorNone)
  /\ (Z.of_nat (String.length (cRole roleParams)) < OMX_MAX_STRINGNAME_SIZE - 1 ->
      cRole roleParams <> mComponentRole c ->
      fst r = OMX_ErrorUnsupportedSetting).
Proof.
  intros V. cbv zeta. unfold internalSetParameter. rewrite V. cbn [negb].
  destruct (strncmp_eq _ _ _) eqn:E; cbn [negb fst snd].
  - split; [reflexivity|]. split; [reflexivity|].
    intros L N. exfalso. apply N.
    apply strncmp_eq_short with (n := Z.to_nat (OMX_MAX_STRINGNAME_SIZE - 1));
      [lia | exact E].
  - split; [reflexivity|]. split; [|reflexivity].
    intros Eq. rewrite Eq, strncmp_eq_refl in E. discriminate E.
Qed.


End MoreNegotiationFacts.

(** ** The states a component goes through *)

Section ReachableFacts.

Variable sizeof_VideoNativeMetadata : Z.
Variable sizeof_VideoGrallocMetadata : Z.
Context {valid_portdef : OMXParam OMX_PARAM_PORTDEFINITIONTYPE}.
Context {valid_portformat : OMXParam OMX_VIDEO_PARAM_PORTFORMATTYPE}.
Context {valid_storemeta : OMXParam StoreMetaDataInBuffersParams}.
Context {valid_role : OMXParam OMX_PARAM_COMPONENTROLETYPE}.
Variable SimpleSoftOMXComponent_internalSetParameter :
  OMX_PARAM -> Component -> OMX_ERRORTYPE * Component.
Variable OMX_MAX_STRINGNAME_SIZE : Z.
Variable property_get : string -> string -> Z * string.
Variable noPort def : OMX_PARAM_PORTDEFINITIONTYPE.
Variable componentRole mime : string.
Variable codingType : OMX_VIDEO_CODINGTYPE.
Variable profileLevels : list (Z * Z).
Variables width height size : Z.
Variables numInputBuffers numOutputBuffers outputBufferSize : Z.
Variable minCompressionRatio : Z.

Local Abbreviation updatePortParams :=
  (updatePortParams sizeof_VideoNativeMetadata sizeof_VideoGrallocMetadata).
Local Abbreviation apply_change :=
  (apply_change sizeof_VideoNativeMetadata sizeof_VideoGrallocMetadata
     SimpleSoftOMXComponent_internalSetParameter OMX_MAX_STRINGNAME_SIZE).
Local Abbreviation negotiated :=
  (negotiated sizeof_VideoNativeMetadata sizeof_VideoGrallocMetadata
     codingType outputBufferSize minCompressionRatio).
Local Abbreviation reachable :=
  (reachable sizeof_VideoNativeMetadata sizeof_VideoGrallocMetadata
     SimpleSoftOMXComponent_internalSetParameter OMX_MAX_STRINGNAME_SIZE
     property_get noPort def componentRole mime codingType profileLevels
     width height size numInputBuffers numOutputBuffers outputBufferSize
     minCompressionRatio).

(** [updatePortParams] establishes the invariant from the members and the
    fields it leaves alone. *)
Lemma negotiated_updatePortParams (d : Component) :
  supportedInputColor (mColorFormat d) = true ->
  mCodingType d = codingType ->
  eCompressionFormat (video (outDef d)) = codingType ->
  eColorFormat (video (outDef d)) = OMX_COLOR_FormatUnused ->
  eCompressionFormat (video (inDef d)) = OMX_VIDEO_CodingUnused ->
  nPortIndex (inDef d) = kInputPortIndex ->
  nPortIndex (outDef d) = kOutputPortIndex ->
  mMinOutputBufferSize d = outputBufferSize ->
  mMinCompressionRatio d = minCompressionRatio ->
  (mIsPowervr d = false -> mShmData d = None) ->
  negotiated (updatePortParams d).
Proof.
  intros. unfold negotiated. repeat split; assumption.
Qed.

Lemma negotiated_step (ch : ConfigChange) (c : Component) :
  negotiated c -> negotiated (snd (apply_change ch c)).
Proof.
  intros I.
  pose proof I as (_ & Sup & _ & _ & _ & _ & _ & Ct & Oc & Of & Ic & Pi & Po
                   & Ms & Mr & Shm).
  destruct ch as [port | format | storeParam]; cbn [apply_change].
  - unfold internalSetPortParams.
    destruct (negb (isValidOMXParam port)); [exact I|].
    destruct (nPortIndex port =? kInputPortIndex).
    + destruct (_ || _) eqn:B.
      * cbn [snd]. destruct I as (I1 & I2 & I3 & I4 & I5 & I6 & I7 & I8).
        destruct c as [? ? ? ? ? ? ? ? ? ? ? pvr ? shm ? ?].
        destruct pvr, shm; repeat split; try assumption;
          try (exact I1); try (exact I4); try discriminate.
        all: apply Shm.
      * apply orb_false_elim in B as [_ B]. apply negb_false_iff in B.
        cbn [snd].
        destruct c as [? ? ? ? ? ? ? ? ? ? ? pvr ? shm ? ?].
        destruct pvr, shm; apply negotiated_updatePortParams;
          try assumption; try discriminate.
        all: apply Shm.
    + destruct (nPortIndex port =? kOutputPortIndex); [|exact I].
      destruct (_ || _); [exact I|].
      cbn [snd]. now apply negotiated_updatePortParams.
  - unfold internalSetParameter.
    destruct (negb (isValidOMXParam format)); [exact I|].
    destruct (pf_nPortIndex format =? kInputPortIndex).
    + destruct (supportedInputColor (pf_eColorFormat format)) eqn:B;
        [|exact I].
      cbn [snd]. now apply negotiated_updatePortParams.
    + destruct (pf_nPortIndex format =? kOutputPortIndex); [|exact I].
      destruct (coding_eqb _ _); exact I.
  - unfold internalSetParameter.
    destruct (negb (isValidOMXParam storeParam)); [exact I|].
    destruct (sm_nPortIndex storeParam =? kOutputPortIndex); [exact I|].
    destruct (negb (sm_nPortIndex storeParam =? kInputPortIndex)); [exact I|].
    cbn [snd].
    destruct (bStoreMetaData storeParam =? OMX_TRUE).
    + now apply negotiated_updatePortParams.
    + change (mInputDataIsMeta (with_mInputDataIsMeta false c)) with false.
      cbv iota.
      change (mColorFormat (with_mInputDataIsMeta false c))
        with (mColorFormat c).
      destruct (color_eqb (mColorFormat c) OMX_COLOR_FormatAndroidOpaque);
        now apply negotiated_updatePortParams.
Qed.

(** X11. Every state the component reaches from its constructor and
    [initPorts] by calls of [internalSetPortParams] and of
    [internalSetParameter] for a port format or the metadata mode,
    accepted or rejected, satisfies [negotiated]: the stored colour
    format is one of the three supported ones and is the one the input
    port shows; the input-port buffer size is the metadata size for the
    opaque format and the raw size of the port's geometry otherwise; the
    output port has the input port's width and height, the stored
    bitrate, the constructor's coding type and no colour format; its
    buffer size follows the policy given to [initPorts]; and no scratch
    buffer exists off the powervr platform. *)
Theorem reachable_negotiated (c : Component) :
  reachable c -> negotiated c.
Proof.
  induction 1 as [| ch c R I].
  - unfold initPorts, construct. destruct (property_get _ _) as [len p].
    apply negotiated_updatePortParams; reflexivity.
  - now apply negotiated_step.
Qed.

End ReachableFacts.

(** ** Teardown of the rendering context *)

(** X12. [closeEgl] is idempotent: called again on what it leaves, it
    releases nothing and changes nothing.  On the powervr platform it
    leaves neither a scratch buffer nor a display; of the component it
    touches only [mShmData] and [mEglDisplay]. *)
Theorem closeEgl_idempotent (c : Component) (h : EglHandles) :
  let c1 := fst (fst (closeEgl c h)) in
  let h1 := snd (fst (closeEgl c h)) in
  closeEgl c1 h1 = (c1, h1, [])
  /\ (mIsPowervr c = true -> mShmData c1 = None /\ mEglDisplay c1 = None)
  /\ with_mEglDisplay (mEglDisplay c) (with_mShmData (mShmData c) c1) = c.
Proof.
  cbv zeta. unfold closeEgl.
  destruct c as [? ? ? ? ? ? ? ? ? ? ? pvr dpy shm ? ?].
  destruct h as [program surface context].
  destruct pvr; [|repeat split; discriminate].
  destruct shm, dpy; cbn;
    destruct (negb (program =? 0)) eqn:Pg;
    repeat split; cbn; try rewrite Pg; reflexivity.
Qed.

(** ** The colour transform *)

(** X13. The three bytes [ConvertRGB32ToPlanar] computes for a pixel are
    in video range: the luma is between 16 and 234, the two chroma
    values between 16 and 240; a grey pixel has both chroma values at
    128. *)
Theorem rgb_video_range (r g b : Z) :
  0 <= r < 256 -> 0 <= g < 256 -> 0 <= b < 256 ->
  16 <= Int.u8 (RGB.luma r g b) <= 234
  /\ 16 <= Int.u8 (RGB.U r g b) <= 240
  /\ 16 <= Int.u8 (RGB.V r g b) <= 240
  /\ (r = g -> g = b ->
      Int.u8 (RGB.U r g b) = 128 /\ Int.u8 (RGB.V r g b) = 128).
Proof.
  intros Hr Hg Hb.
  rewrite luma_exact, U_exact, V_exact by assumption. rewrite !shr8.
  repeat split; try zdiv.
  all: intros -> ->; zdiv.
Qed.

(** ** Extraction of a graphic buffer *)

(** The destination size [extractGraphicBuffer] asks for, without the
    wrap-around of [size_t]. *)
Lemma neededSize_exact (width height : Z) :
  0 <= width -> 0 <= height -> width * height * 3 / 2 < 2 ^ 64 ->
  Int.usize
    (width * height + Z.shiftr width 1
     + Z.shiftr width 1
       * Int.usize (Z.shiftr height 1 + Z.shiftr height 1 - 1))
  = width * height + width / 2 * (2 * (height / 2)).
Proof.
  intros Hw Hh Fit. unfold Int.usize.
  rewrite !Z.shiftr_div_pow2 by lia. change (2 ^ 1) with 2.
  rewrite <- Z.add_mod_idemp_r, Z.mul_mod_idemp_r, Z.add_mod_idemp_r
    by discriminate.
  replace (width * height + width / 2
           + width / 2 * (height / 2 + height / 2 - 1))
    with (width * height + width / 2 * (2 * (height / 2))) by ring.
  apply Z.mod_small.
  assert (0 <= width / 2 * (2 * (height / 2))).
  { apply Z.mul_nonneg_nonneg; zdiv. }
  assert (width / 2 * (2 * (height / 2)) <= width * height / 2).
  { apply Z.div_le_lower_bound; [lia|].
    assert (2 * (width / 2) <= width) by zdiv.
    assert (2 * (height / 2) <= height) by zdiv.
    assert (0 <= width / 2) by zdiv. assert (0 <= height / 2) by zdiv.
    nia. }
  assert (0 <= width * height) by lia.
  split; [lia|]. zdiv.
Qed.

Section MoreExtractionFacts.

Variable SURFACE_IS_BGR32 : bool.
Variable sizeof_VideoNativeMetadata : Z.
Variable sizeof_VideoGrallocMetadata : Z.
Variable kFenceTimeoutMs : Z.
Variable Fence_wait : Z -> Z -> Z.
Variable mapper_lock : Z -> Z * Z.
Variable mapper_lockYCbCr : Z -> Z * android_ycbcr.
Variable mapped : buffer.
Variable glReadPixels : ANativeWindowBuffer -> Z -> Z -> buffer.

Local Abbreviation convertLocked :=
  (convertLocked SURFACE_IS_BGR32 mapper_lock mapper_lockYCbCr mapped
     glReadPixels).
Local Abbreviation extractGraphicBuffer :=
  (extractGraphicBuffer SURFACE_IS_BGR32 sizeof_VideoNativeMetadata
     sizeof_VideoGrallocMetadata kFenceTimeoutMs Fence_wait mapper_lock
     mapper_lockYCbCr mapped glReadPixels).

(** After the metadata has been read, a call that returns leaves the
    metadata alone, and returns either [NULL] with the destination
    untouched or [dst]. *)
Lemma convertLocked_clean c dst dstSize meta width height handle format
    srcStride srcVStride ycbcr0 e :
  convertLocked c dst dstSize meta width height handle format
    srcStride srcVStride ycbcr0 = Returned e ->
  src_after e = meta
  /\ (ret e = None /\ dst_after e = dst \/ ret e = Some 0).
Proof.
  unfold convertLocked.
  destruct (dstSize <? _);
    [intros [= <-]; split; [reflexivity | now left]|].
  destruct (match format with
            | HAL_PIXEL_FORMAT_YCbCr_420_888 => _
            | _ => _
            end) as [[res bits] ycbcr].
  destruct (negb (res =? 0));
    [intros [= <-]; split; [reflexivity | now left]|].
  destruct format, (mIsPowervr c), (mEglDisplay c);
    try destruct (ConvertRGB32ToPlanar _ _ _ _ _ _ _ _ _ _ _);
    intros [= <-]; split; try reflexivity; (now left) || (now right).
Qed.

(** X14. Whenever [extractGraphicBuffer] returns, it returns [NULL] or
    [dst] itself; on [NULL] the destination holds what it held before;
    and of the metadata it changes nothing but the fence descriptor,
    which it resets to [-1] when the metadata brought one. *)
Theorem extraction_failure_is_clean (c : Component) (dst : buffer)
    (dstSize : Z) (src : Metadata) (srcSize width height : Z)
    (ycbcr0 : android_ycbcr) (e : Extracted) :
  extractGraphicBuffer c dst dstSize src srcSize width height ycbcr0
  = Returned e ->
  (ret e = None \/ ret e = Some 0)
  /\ (ret e = None -> dst_after e = dst)
  /\ (src_after e = src
      \/ eType src = kMetadataBufferTypeANWBuffer /\ 0 <= nFenceFd src
         /\ src_after e = set_nFenceFd (-1) src).
Proof.
  assert (K : forall m h f s v,
            convertLocked c dst dstSize m width height h f s v ycbcr0
            = Returned e ->
            (ret e = None \/ ret e = Some 0)
            /\ (ret e = None -> dst_after e = dst) /\ src_after e = m).
  { intros m h f s v E. apply convertLocked_clean in E as (Em & [[R D] | R]).
    - repeat split; [now left | now intros _ | exact Em].
    - repeat split; [now right | rewrite R; discriminate | exact Em]. }
  unfold extractGraphicBuffer. destruct (eType src) eqn:T.
  - destruct (srcSize <? _);
      [intros [= <-]; repeat split; now left|].
    destruct (0 <=? nFenceFd src) eqn:F.
    + apply Z.leb_le in F.
      destruct (negb (Fence_wait _ _ =? 0)).
      * intros [= <-]. repeat split; [now left|]. right. now repeat split.
      * intros E. apply K in E as (R & D & M).
        repeat split; [exact R | exact D |]. right. now repeat split.
    + intros E. apply K in E as (R & D & M).
      repeat split; [exact R | exact D | now left].
  - destruct (srcSize <? _);
      [intros [= <-]; repeat split; now left|].
    intros E. apply K in E as (R & D & M).
    repeat split; [exact R | exact D | now left].
  - intros [= <-]. repeat split; now left.
Qed.

(** X15. For gralloc-source metadata off the powervr platform, with a
    lockable buffer and an even, in-range frame, the destination size
    decides the call: below [width * height * 3 / 2] bytes it returns
    [NULL] and leaves the destination untouched; from that size on it
    returns [dst]. *)
Theorem destination_size_threshold (c : Component) (dst : buffer)
    (dstSize : Z) (src : Metadata) (srcSize width height : Z)
    (ycbcr0 : android_ycbcr) :
  eType src = kMetadataBufferTypeGrallocSource ->
  sizeof_VideoGrallocMetadata <= srcSize ->
  mIsPowervr c = false ->
  fst (mapper_lock (pHandle src)) = 0 ->
  0 <= width -> 0 <= height -> width mod 2 = 0 -> height mod 2 = 0 ->
  width * height * 3 / 2 < 2 ^ 64 ->
  exists e,
    extractGraphicBuffer c dst dstSize src srcSize width height ycbcr0
    = Returned e
    /\ src_after e = src
    /\ (dstSize < width * height * 3 / 2 ->
        ret e = None /\ dst_after e = dst)
    /\ (width * height * 3 / 2 <= dstSize -> ret e = Some 0).
Proof.
  intros T S P L Hw Hh Ew Eh Fit.
  unfold extractGraphicBuffer. rewrite T.
  replace (srcSize <? sizeof_VideoGrallocMetadata) with false
    by (symmetry; apply Z.ltb_ge; exact S).
  unfold convertLocked. rewrite neededSize_exact by assumption.
  replace (width * height + width / 2 * (2 * (height / 2)))
    with (width * height * 3 / 2) by zdiv.
  destruct (dstSize <? width * height * 3 / 2) eqn:D.
  - apply Z.ltb_lt in D. eexists. split; [reflexivity|].
    cbn [ret dst_after src_after]. split; [reflexivity|].
    split; [now intros _ | lia].
  - apply Z.ltb_ge in D. rewrite P.
    destruct (mapper_lock (pHandle src)) as [res bits]. cbn in L. subst res.
    cbn [Z.eqb negb]. cbv iota.
    unfold ConvertRGB32ToPlanar.
    rewrite !land1, Ew, Eh. cbn [Z.eqb negb].
    eexists. split; [reflexivity|].
    cbn [ret dst_after src_after]. split; [reflexivity|].
    split; [lia | now intros _].
Qed.

(** X16. A frame with an odd width or height does not make the call fail:
    for gralloc-source metadata off the powervr platform, with a
    lockable buffer and room in the destination, the call aborts the
    process in [ConvertRGB32ToPlanar]'s [CHECK] instead of returning. *)
Theorem odd_rgb_frame_aborts (c : Component) (dst : buffer)
    (dstSize : Z) (src : Metadata) (srcSize width height : Z)
    (ycbcr0 : android_ycbcr) :
  eType src = kMetadataBufferTypeGrallocSource ->
  sizeof_VideoGrallocMetadata <= srcSize ->
  mIsPowervr c = false ->
  fst (mapper_lock (pHandle src)) = 0 ->
  0 <= width -> 0 <= height ->
  width mod 2 = 1 \/ height mod 2 = 1 ->
  width * height * 3 / 2 < 2 ^ 64 ->
  width * height * 3 / 2 <= dstSize ->
  extractGraphicBuffer c dst dstSize src srcSize width height ycbcr0
  = Aborted.
Proof.
  intros T S P L Hw Hh Odd Fit D.
  unfold extractGraphicBuffer. rewrite T.
  replace (srcSize <? sizeof_VideoGrallocMetadata) with false
    by (symmetry; apply Z.ltb_ge; exact S).
  unfold convertLocked. rewrite neededSize_exact by assumption.
  replace (dstSize <? _) with false.
  2:{ symmetry. apply Z.ltb_ge.
      assert (0 <= width / 2) by zdiv. assert (0 <= height / 2) by zdiv.
      assert (2 * (width / 2) <= width) by zdiv.
      assert (2 * (height / 2) <= height) by zdiv.
      assert (width / 2 * (2 * (height / 2)) <= width * height / 2).
      { apply Z.div_le_lower_bound; [lia|]. nia. }
      assert (0 <= width * height) by lia.
      assert (width * height + width * height / 2 <= width * height * 3 / 2)
        by zdiv.
      lia. }
  rewrite P.
  destruct (mapper_lock (pHandle src)) as [res bits]. cbn in L. subst res.
  cbn [Z.eqb negb]. cbv iota.
  unfold ConvertRGB32ToPlanar. rewrite !land1.
  destruct Odd as [O | O]; rewrite O; [reflexivity|].
  destruct (negb (width mod 2 =? 0)); reflexivity.
Qed.

End MoreExtractionFacts.

(** ** Semiplanar to planar: what is written *)

(** The bytes [ConvertYUV420SemiPlanarToYUV420Planar] can change: the Y
    plane, and two bytes in each chroma plane for every word the loop
    reads. *)
Lemma semiplanar_frame (inYVU outYUV : buffer) (width height a : Z) :
  0 <= width -> 0 <= height -> width * height < 2 ^ 31 ->
  let words := height / 2 * (width / 4) in
  let Cb := width * height in
  let Cr := width * height + width * height / 4 in
  ~ (0 <= a < width * height) ->
  ~ (Cb <= a < Cb + 2 * words) ->
  ~ (Cr <= a < Cr + 2 * words) ->
  ConvertYUV420SemiPlanarToYUV420Planar inYVU outYUV width height a
  = outYUV a.
Proof.
  intros Hw Hh Fit words Cb Cr NY NCb NCr.
  unfold ConvertYUV420SemiPlanarToYUV420Planar, Int.smul32.
  assert (0 <= width * height) by lia.
  rewrite s32_small by lia.
  rewrite usize_small by lia.
  rewrite loop_i_flat.
  assert (W : Z.of_nat (Z.to_nat (Z.shiftr height 1)
                        * Z.to_nat (Z.shiftr width 2)) = words).
  { rewrite Nat2Z.inj_mul, !Z2Nat.id by (apply Z.shiftr_nonneg; lia).
    rewrite !Z.shiftr_div_pow2 by lia. reflexivity. }
  rewrite loop_j_frame; cbn [SemiPlanar.out SemiPlanar.outCb SemiPlanar.outCr].
  - rewrite memcpy_spec, Z2Nat.id by lia.
    destruct (0 <=? a) eqn:A, (a <? 0 + width * height) eqn:B;
      try reflexivity.
    exfalso. apply NY. apply Z.leb_le in A. apply Z.ltb_lt in B. lia.
  - rewrite W. exact NCb.
  - rewrite W, Z.shiftr_div_pow2 by lia. exact NCr.
Qed.

(** X17. [ConvertYUV420SemiPlanarToYUV420Planar] writes nothing outside
    the first [width * height + 2 * (width * height / 4)] bytes of the
    output, whatever the width and the height. *)
Theorem semiplanar_stays_in_frame (inYVU outYUV : buffer)
    (width height a : Z) :
  0 <= width -> 0 <= height -> width * height < 2 ^ 31 ->
  a < 0 \/ width * height + 2 * (width * height / 4) <= a ->
  ConvertYUV420SemiPlanarToYUV420Planar inYVU outYUV width height a
  = outYUV a.
Proof.
  intros Hw Hh Fit Out.
  assert (0 <= height / 2) by zdiv. assert (0 <= width / 4) by zdiv.
  assert (2 * (height / 2) <= height) by zdiv.
  assert (4 * (width / 4) <= width) by zdiv.
  assert (2 * (height / 2 * (width / 4)) <= width * height / 4).
  { apply Z.div_le_lower_bound; [lia|]. nia. }
  assert (0 <= width * height / 4) by (apply Z.div_pos; lia).
  apply semiplanar_frame; try assumption; lia.
Qed.

(** X18. With a width that is even but no multiple of four, the last
    [height / 2] bytes of each chroma plane of the output are never
    written: they keep what the output buffer held before the call. *)
Theorem semiplanar_narrow_width_leaves_chroma (inYVU outYUV : buffer)
    (width height a : Z) :
  0 <= width -> 0 <= height -> width * height < 2 ^ 31 ->
  width mod 4 = 2 -> height mod 2 = 0 ->
  let plane := width * height / 4 in
  let Cb := width * height in
  let Cr := width * height + plane in
  Cb + plane - height / 2 <= a < Cb + plane
  \/ Cr + plane - height / 2 <= a < Cr + plane ->
  ConvertYUV420SemiPlanarToYUV420Planar inYVU outYUV width height a
  = outYUV a.
Proof.
  intros Hw Hh Fit W4 H2 plane Cb Cr In.
  assert (Ew : width = 4 * (width / 4) + 2) by zdiv.
  assert (Eh : height = 2 * (height / 2)) by zdiv.
  assert (0 <= height / 2) by zdiv. assert (0 <= width / 4) by zdiv.
  assert (Ep : plane = 2 * (height / 2 * (width / 4)) + height / 2).
  { unfold plane. rewrite Ew at 1. rewrite Eh at 1.
    replace ((4 * (width / 4) + 2) * (2 * (height / 2)))
      with ((2 * (height / 2 * (width / 4)) + height / 2) * 4) by ring.
    apply Z.div_mul. discriminate. }
  assert (0 <= height / 2 * (width / 4)) by (apply Z.mul_nonneg_nonneg; lia).
  apply semiplanar_frame; try assumption; unfold Cb, Cr in *;
    fold plane; lia.
Qed.

(** ** Flexible YUV to planar *)

Lemma memcpy_inside n dst d src s x :
  0 <= x < Z.of_nat n -> memcpy n dst d src s (d + x) = Int.u8 (src (s + x)).
Proof.
  intros Hx. rewrite memcpy_spec.
  replace (d <=? d + x) with true by (symmetry; apply Z.leb_le; lia).
  replace (d + x <? d + Z.of_nat n) with true
    by (symmetry; apply Z.ltb_lt; lia).
  cbn [andb]. do 2 f_equal. ring.
Qed.

Lemma memcpy_outside n dst d src s a :
  ~ (d <= a < d + Z.of_nat n) -> memcpy n dst d src s a = dst a.
Proof.
  intros N. rewrite memcpy_spec.
  destruct (d <=? a) eqn:A, (a <? d + Z.of_nat n) eqn:B; try reflexivity.
  exfalso. apply N. apply Z.leb_le in A. apply Z.ltb_lt in B. lia.
Qed.

(** The rows [copy_rows] writes, and the bytes it puts there. *)
Lemma copy_rows_frame n : forall len d dp dstep s sp sstep a,
  (forall i, 0 <= i < Z.of_nat n ->
     ~ (dp + i * dstep <= a < dp + i * dstep + Z.of_nat len)) ->
  copy_rows n len d dp dstep s sp sstep a = d a.
Proof.
  induction n as [| n IH]; intros len d dp dstep s sp sstep a N;
    [reflexivity|].
  cbn [copy_rows]. rewrite IH.
  - apply memcpy_outside. specialize (N 0). rewrite Z.add_0_r in N.
    apply N. lia.
  - intros i Hi. specialize (N (i + 1)).
    replace (dp + (i + 1) * dstep) with (dp + dstep + i * dstep) in N by ring.
    apply N. lia.
Qed.

Lemma copy_rows_written n : forall len d dp dstep s sp sstep i x,
  Z.of_nat len <= dstep ->
  0 <= i < Z.of_nat n -> 0 <= x < Z.of_nat len ->
  copy_rows n len d dp dstep s sp sstep (dp + i * dstep + x)
  = Int.u8 (s (sp + i * sstep + x)).
Proof.
  induction n as [| n IH]; intros len d dp dstep s sp sstep i x L Hi Hx;
    [lia|].
  cbn [copy_rows]. destruct (Z.eq_dec i 0) as [-> | Ni].
  - rewrite copy_rows_frame.
    + rewrite !Z.add_0_r. now apply memcpy_inside.
    + intros j Hj. assert (0 <= j * dstep) by nia. lia.
  - replace (dp + i * dstep + x) with (dp + dstep + (i - 1) * dstep + x)
      by ring.
    rewrite IH by lia. do 2 f_equal. ring.
Qed.

(** The same for the planar chroma loop. *)
Lemma planar_rows_frame n : forall len d dU dV dstep s sU sV sstep a,
  (forall i, 0 <= i < Z.of_nat n ->
     ~ (dU + i * dstep <= a < dU + i * dstep + Z.of_nat len)
     /\ ~ (dV + i * dstep <= a < dV + i * dstep + Z.of_nat len)) ->
  planar_rows n len d dU dV dstep s sU sV sstep a = d a.
Proof.
  induction n as [| n IH]; intros len d dU dV dstep s sU sV sstep a N;
    [reflexivity|].
  cbn [planar_rows]. rewrite IH.
  - destruct (N 0 ltac:(lia)) as [NU NV]. rewrite Z.add_0_r in NU, NV.
    now rewrite !memcpy_outside.
  - intros i Hi. specialize (N (i + 1) ltac:(lia)).
    replace (dU + (i + 1) * dstep) with (dU + dstep + i * dstep) in N by ring.
    replace (dV + (i + 1) * dstep) with (dV + dstep + i * dstep) in N by ring.
    exact N.
Qed.

Lemma planar_rows_written n : forall len d dU dV dstep s sU sV sstep i x,
  Z.of_nat len <= dstep -> dU + Z.of_nat n * dstep <= dV ->
  0 <= i < Z.of_nat n -> 0 <= x < Z.of_nat len ->
  let o := planar_rows n len d dU dV dstep s sU sV sstep in
  o (dU + i * dstep + x) = Int.u8 (s (sU + i * sstep + x))
  /\ o (dV + i * dstep + x) = Int.u8 (s (sV + i * sstep + x)).
Proof.
  induction n as [| n IH];
    intros len d dU dV dstep s sU sV sstep i x L Sep Hi Hx; [lia|].
  cbv zeta. cbn [planar_rows].
  assert (0 <= Z.of_nat n * dstep) by nia.
  destruct (Z.eq_dec i 0) as [-> | Ni].
  - rewrite !Z.add_0_r. split.
    + rewrite planar_rows_frame.
      * rewrite memcpy_outside by lia. now apply memcpy_inside.
      * intros j Hj. assert (0 <= j * dstep) by nia. lia.
    + rewrite planar_rows_frame.
      * now apply memcpy_inside.
      * intros j Hj. assert (0 <= j * dstep) by nia.
        assert ((j + 1) * dstep <= Z.of_nat n * dstep) by nia. lia.
  - replace (dU + i * dstep + x) with (dU + dstep + (i - 1) * dstep + x)
      by ring.
    replace (dV + i * dstep + x) with (dV + dstep + (i - 1) * dstep + x)
      by ring.
    replace (sU + i * sstep + x) with (sU + sstep + (i - 1) * sstep + x)
      by ring.
    replace (sV + i * sstep + x) with (sV + sstep + (i - 1) * sstep + x)
      by ring.
    apply IH; lia.
Qed.

(** The inner loop of the arbitrary-step walk. *)
Lemma step_row_pointers n : forall d dU dV s sU sV step,
  snd (step_row n d dU dV s sU sV step)
  = (dU + Z.of_nat n, dV + Z.of_nat n,
     sU + Z.of_nat n * step, sV + Z.of_nat n * step).
Proof.
  induction n as [| n IH]; intros d dU dV s sU sV step.
  - cbn. now rewrite !Z.add_0_r.
  - cbn [step_row]. rewrite IH, Nat2Z.inj_succ.
    f_equal; [f_equal; [f_equal|]|]; lia.
Qed.

Lemma step_row_frame n : forall d dU dV s sU sV step a,
  ~ (dU <= a < dU + Z.of_nat n) -> ~ (dV <= a < dV + Z.of_nat n) ->
  fst (step_row n d dU dV s sU sV step) a = d a.
Proof.
  induction n as [| n IH]; intros d dU dV s sU sV step a NU NV;
    [reflexivity|].
  cbn [step_row]. rewrite IH by lia. now rewrite !store8_other by lia.
Qed.

Lemma step_row_written n : forall d dU dV s sU sV step x,
  dU + Z.of_nat n <= dV -> 0 <= x < Z.of_nat n ->
  let o := fst (step_row n d dU dV s sU sV step) in
  o (dU + x) = Int.u8 (s (sU + x * step))
  /\ o (dV + x) = Int.u8 (s (sV + x * step)).
Proof.
  induction n as [| n IH]; intros d dU dV s sU sV step x Sep Hx; [lia|].
  cbv zeta. cbn [step_row]. destruct (Z.eq_dec x 0) as [-> | Nx].
  - rewrite !Z.add_0_r, !step_row_frame by lia.
    rewrite store8_same, store8_other, store8_same by lia. now split.
  - replace (dU + x) with (dU + 1 + (x - 1)) by ring.
    replace (dV + x) with (dV + 1 + (x - 1)) by ring.
    replace (sU + x * step) with (sU + step + (x - 1) * step) by ring.
    replace (sV + x * step) with (sV + step + (x - 1) * step) by ring.
    apply IH; lia.
Qed.

(** The outer loop: a row of the destination is [len + dskip] bytes, a
    row of the source [len * step + sskip]. *)
Lemma step_rows_frame n : forall len d dU dV dskip s sU sV step sskip a,
  (forall i, 0 <= i < Z.of_nat n ->
     let row := i * (Z.of_nat len + dskip) in
     ~ (dU + row <= a < dU + row + Z.of_nat len)
     /\ ~ (dV + row <= a < dV + row + Z.of_nat len)) ->
  step_rows n len d dU dV dskip s sU sV step sskip a = d a.
Proof.
  induction n as [| n IH];
    intros len d dU dV dskip s sU sV step sskip a N; [reflexivity|].
  cbn [step_rows].
  pose proof (step_row_pointers len d dU dV s sU sV step) as P.
  pose proof (step_row_frame len d dU dV s sU sV step a) as F.
  destruct (step_row len d dU dV s sU sV step) as [d' [[[dU' dV'] sU'] sV']].
  cbn [fst snd] in P, F. injection P as -> -> -> ->.
  rewrite IH.
  - destruct (N 0 ltac:(lia)) as [NU NV]. cbv zeta in NU, NV.
    rewrite Z.mul_0_l, Z.add_0_r in NU, NV. now apply F.
  - intros i Hi. specialize (N (i + 1) ltac:(lia)). cbv zeta in N |- *.
    replace (dU + (i + 1) * (Z.of_nat len + dskip))
      with (dU + Z.of_nat len + dskip + i * (Z.of_nat len + dskip))
      in N by ring.
    replace (dV + (i + 1) * (Z.of_nat len + dskip))
      with (dV + Z.of_nat len + dskip + i * (Z.of_nat len + dskip))
      in N by ring.
    exact N.
Qed.

Lemma step_rows_written n :
  forall len d dU dV dskip s sU sV step sskip i x,
  0 <= dskip -> dU + Z.of_nat n * (Z.of_nat len + dskip) <= dV ->
  0 <= i < Z.of_nat n -> 0 <= x < Z.of_nat len ->
  let o := step_rows n len d dU dV dskip s sU sV step sskip in
  let drow := i * (Z.of_nat len + dskip) in
  let srow := i * (Z.of_nat len * step + sskip) in
  o (dU + drow + x) = Int.u8 (s (sU + srow + x * step))
  /\ o (dV + drow + x) = Int.u8 (s (sV + srow + x * step)).
Proof.
  induction n as [| n IH];
    intros len d dU dV dskip s sU sV step sskip i x Sk Sep Hi Hx; [lia|].
  cbv zeta. cbn [step_rows].
  pose proof (step_row_pointers len d dU dV s sU sV step) as P.
  pose proof (step_row_written len d dU dV s sU sV step x) as Wr.
  destruct (step_row len d dU dV s sU sV step) as [d' [[[dU' dV'] sU'] sV']].
  cbn [fst snd] in P, Wr. injection P as -> -> -> ->.
  assert (0 <= Z.of_nat n * (Z.of_nat len + dskip)) by nia.
  destruct (Z.eq_dec i 0) as [-> | Ni].
  - rewrite !Z.mul_0_l, !Z.add_0_r.
    rewrite !step_rows_frame.
    + apply Wr; lia.
    + intros j Hj. cbv zeta.
      assert (0 <= j * (Z.of_nat len + dskip)) by nia.
      assert ((j + 1) * (Z.of_nat len + dskip)
              <= Z.of_nat n * (Z.of_nat len + dskip)) by nia.
      lia.
    + intros j Hj. cbv zeta.
      assert (0 <= j * (Z.of_nat len + dskip)) by nia.
      lia.
  - replace (dU + i * (Z.of_nat len + dskip) + x)
      with (dU + Z.of_nat len + dskip
            + (i - 1) * (Z.of_nat len + dskip) + x) by ring.
    replace (dV + i * (Z.of_nat len + dskip) + x)
      with (dV + Z.of_nat len + dskip
            + (i - 1) * (Z.of_nat len + dskip) + x) by ring.
    replace (sU + i * (Z.of_nat len * step + sskip) + x * step)
      with (sU + Z.of_nat len * step + sskip
            + (i - 1) * (Z.of_nat len * step + sskip) + x * step) by ring.
    replace (sV + i * (Z.of_nat len * step + sskip) + x * step)
      with (sV + Z.of_nat len * step + sskip
            + (i - 1) * (Z.of_nat len * step + sskip) + x * step) by ring.
    apply IH; lia.
Qed.

(** The three planes [ConvertFlexYUVToPlanar] fills. *)
Lemma flex_planes (dst : buffer)
    (dstStride dstVStride : Z) (mapped : buffer) (ycbcr : android_ycbcr)
    (width height : Z) :
  0 <= width < 2 ^ 31 -> 0 <= height < 2 ^ 31 ->
  width <= dstStride -> height <= dstVStride ->
  dstVStride * dstStride < 2 ^ 64 ->
  let out :=
    ConvertFlexYUVToPlanar dst dstStride dstVStride mapped ycbcr
      width height in
  let U0 := dstVStride * dstStride in
  let V0 := U0 + dstVStride / 2 * (dstStride / 2) in
  (forall y x, 0 <= y < height -> 0 <= x < width ->
     out (y * dstStride + x)
     = Int.u8 (mapped (ycbcr_y ycbcr + y * ystride ycbcr + x)))
  /\ (forall y x, 0 <= y < height / 2 -> 0 <= x < width / 2 ->
        out (U0 + y * (dstStride / 2) + x)
        = Int.u8 (mapped (ycbcr_cb ycbcr + y * cstride ycbcr
                          + x * chroma_step ycbcr))
        /\ out (V0 + y * (dstStride / 2) + x)
           = Int.u8 (mapped (ycbcr_cr ycbcr + y * cstride ycbcr
                             + x * chroma_step ycbcr))).
Proof.
  intros Hw Hh Lw Lh Fit out U0 V0.
  assert (Hw2 : 0 <= width / 2 <= dstStride / 2) by zdiv.
  assert (Hh2 : 0 <= height / 2 <= dstVStride / 2) by zdiv.
  assert (Pu : 0 <= U0) by (unfold U0; nia).
  assert (Pq : 0 <= dstVStride / 2 * (dstStride / 2)) by nia.
  assert (Pq' : dstVStride / 2 * (dstStride / 2) <= U0).
  { unfold U0. assert (dstVStride / 2 <= dstVStride) by zdiv.
    assert (dstStride / 2 <= dstStride) by zdiv. nia. }
  assert (Rows : height / 2 * (dstStride / 2)
                 <= dstVStride / 2 * (dstStride / 2)) by nia.
  assert (Top : height * dstStride <= U0) by (unfold U0; nia).
  assert (B31 : 2 ^ 31 < 2 ^ 64) by reflexivity.
  subst out. unfold ConvertFlexYUVToPlanar. rewrite !shr1.
  rewrite (usize_small (dstVStride * dstStride)) by (fold U0; lia).
  rewrite (usize_small (dstVStride / 2 * (dstStride / 2)))
    by (split; [exact Pq | lia]).
  rewrite (usize_small width), (usize_small height),
    (usize_small (width / 2)), (usize_small (height / 2)) by zdiv.
  fold U0. fold V0.
  set (Yd := copy_rows _ _ dst 0 dstStride mapped _ _).
  assert (Yw : forall y x, 0 <= y < height -> 0 <= x < width ->
                 Yd (y * dstStride + x)
                 = Int.u8 (mapped (ycbcr_y ycbcr + y * ystride ycbcr + x))).
  { intros y x Hy Hx. unfold Yd.
    replace (y * dstStride + x) with (0 + y * dstStride + x) by ring.
    apply copy_rows_written; rewrite ?Z2Nat.id; lia. }
  assert (Below : forall y x, 0 <= y < height -> 0 <= x < width ->
                    y * dstStride + x < U0).
  { intros y x Hy Hx. assert ((y + 1) * dstStride <= height * dstStride)
      by nia. lia. }
  assert (RowU : forall i, 0 <= i < height / 2 ->
                   0 <= i * (dstStride / 2)
                   /\ (i + 1) * (dstStride / 2)
                      <= height / 2 * (dstStride / 2)) by (intros; nia).
  destruct (_ && _) eqn:Planar.
  - apply andb_true_iff in Planar as [_ St]. apply Z.eqb_eq in St.
    rewrite St. split.
    + intros y x Hy Hx. rewrite planar_rows_frame; [now apply Yw|].
      intros i Hi. rewrite !Z2Nat.id in * by lia.
      specialize (Below y x Hy Hx). specialize (RowU i Hi). lia.
    + intros y x Hy Hx. rewrite !Z.mul_1_r.
      apply planar_rows_written; rewrite ?Z2Nat.id; lia.
  - split.
    + intros y x Hy Hx. rewrite step_rows_frame; [now apply Yw|].
      intros i Hi. cbv zeta. rewrite !Z2Nat.id in * by lia.
      replace (width / 2 + (dstStride / 2 - width / 2))
        with (dstStride / 2) by ring.
      specialize (Below y x Hy Hx). specialize (RowU i Hi). lia.
    + intros y x Hy Hx.
      pose proof (step_rows_written (Z.to_nat (height / 2))
                    (Z.to_nat (width / 2)) Yd U0 V0
                    (dstStride / 2 - width / 2) mapped
                    (ycbcr_cb ycbcr) (ycbcr_cr ycbcr) (chroma_step ycbcr)
                    (cstride ycbcr - width / 2 * chroma_step ycbcr) y x)
        as Wr.
      cbv zeta in Wr. rewrite !Z2Nat.id in Wr by lia.
      replace (width / 2 + (dstStride / 2 - width / 2))
        with (dstStride / 2) in Wr by ring.
      replace (width / 2 * chroma_step ycbcr
               + (cstride ycbcr - width / 2 * chroma_step ycbcr))
        with (cstride ycbcr) in Wr by ring.
      apply Wr; lia.
Qed.

(** What [ConvertFlexYUVToPlanar] leaves alone: everything before the
    destination and behind its three planes. *)
Lemma flex_frame (dst : buffer)
    (dstStride dstVStride : Z) (mapped : buffer) (ycbcr : android_ycbcr)
    (width height a : Z) :
  0 <= width < 2 ^ 31 -> 0 <= height < 2 ^ 31 ->
  width <= dstStride -> height <= dstVStride ->
  dstVStride * dstStride < 2 ^ 64 ->
  a < 0
  \/ dstVStride * dstStride + 2 * (dstVStride / 2 * (dstStride / 2)) <= a ->
  ConvertFlexYUVToPlanar dst dstStride dstVStride mapped ycbcr width height a
  = dst a.
Proof.
  intros Hw Hh Lw Lh Fit Out.
  set (U0 := dstVStride * dstStride) in *.
  assert (Hw2 : 0 <= width / 2 <= dstStride / 2) by zdiv.
  assert (Hh2 : 0 <= height / 2 <= dstVStride / 2) by zdiv.
  assert (Pu : 0 <= U0) by (unfold U0; nia).
  assert (Pq : 0 <= dstVStride / 2 * (dstStride / 2)) by nia.
  assert (Pq' : dstVStride / 2 * (dstStride / 2) <= U0).
  { unfold U0. assert (dstVStride / 2 <= dstVStride) by zdiv.
    assert (dstStride / 2 <= dstStride) by zdiv. nia. }
  assert (Rows : height / 2 * (dstStride / 2)
                 <= dstVStride / 2 * (dstStride / 2)) by nia.
  assert (Top : height * dstStride <= U0) by (unfold U0; nia).
  unfold ConvertFlexYUVToPlanar. rewrite !shr1.
  rewrite (usize_small (dstVStride * dstStride)) by (fold U0; lia).
  rewrite (usize_small (dstVStride / 2 * (dstStride / 2)))
    by (split; [exact Pq | lia]).
  rewrite (usize_small width), (usize_small height),
    (usize_small (width / 2)), (usize_small (height / 2)) by zdiv.
  fold U0.
  assert (RowY : forall i, 0 <= i < height ->
                   0 <= i * dstStride
                   /\ (i + 1) * dstStride <= height * dstStride)
    by (intros; nia).
  assert (RowU : forall i, 0 <= i < height / 2 ->
                   0 <= i * (dstStride / 2)
                   /\ (i + 1) * (dstStride / 2)
                      <= height / 2 * (dstStride / 2)) by (intros; nia).
  assert (Yf : copy_rows (Z.to_nat height) (Z.to_nat width) dst 0 dstStride
                 mapped (ycbcr_y ycbcr) (ystride ycbcr) a = dst a).
  { apply copy_rows_frame. intros i Hi. rewrite !Z2Nat.id in * by lia.
    specialize (RowY i Hi). lia. }
  destruct (_ && _).
  - rewrite planar_rows_frame; [exact Yf|].
    intros i Hi. rewrite !Z2Nat.id in * by lia.
    specialize (RowU i Hi). lia.
  - rewrite step_rows_frame; [exact Yf|].
    intros i Hi. cbv zeta. rewrite !Z2Nat.id in * by lia.
    replace (width / 2 + (dstStride / 2 - width / 2))
      with (dstStride / 2) by ring.
    specialize (RowU i Hi). lia.
Qed.

(** X19. [ConvertFlexYUVToPlanar] fills the three planes of the
    destination from the three planes the [android_ycbcr] describes: the
    byte at column [x] of row [y] of the Y plane comes from
    [y + row * ystride + x], and the bytes at column [x] of row [y] of
    the U and the V plane come from [cb] and [cr] at
    [row * cstride + x * chroma_step], on the planar path and on the
    arbitrary-step path alike.  Nothing is written before the
    destination or behind its V plane. *)
Theorem ConvertFlexYUVToPlanar_planes (dst : buffer)
    (dstStride dstVStride : Z) (mapped : buffer) (ycbcr : android_ycbcr)
    (width height : Z) :
  0 <= width < 2 ^ 31 -> 0 <= height < 2 ^ 31 ->
  width <= dstStride -> height <= dstVStride ->
  dstVStride * dstStride < 2 ^ 64 ->
  let out :=
    ConvertFlexYUVToPlanar dst dstStride dstVStride mapped ycbcr
      width height in
  let U0 := dstVStride * dstStride in
  let V0 := U0 + dstVStride / 2 * (dstStride / 2) in
  (forall y x, 0 <= y < height -> 0 <= x < width ->
     out (y * dstStride + x)
     = Int.u8 (mapped (ycbcr_y ycbcr + y * ystride ycbcr + x)))
  /\ (forall y x, 0 <= y < height / 2 -> 0 <= x < width / 2 ->
        out (U0 + y * (dstStride / 2) + x)
        = Int.u8 (mapped (ycbcr_cb ycbcr + y * cstride ycbcr
                          + x * chroma_step ycbcr))
        /\ out (V0 + y * (dstStride / 2) + x)
           = Int.u8 (mapped (ycbcr_cr ycbcr + y * cstride ycbcr
                             + x * chroma_step ycbcr)))
  /\ (forall a,
        a < 0 \/ V0 + dstVStride / 2 * (dstStride / 2) <= a ->
        out a = dst a).
Proof.
  intros Hw Hh Lw Lh Fit out U0 V0.
  destruct (flex_planes dst dstStride dstVStride mapped ycbcr width height
              Hw Hh Lw Lh Fit) as [Y C].
  split; [exact Y|]. split; [exact C|].
  intros a Out. apply flex_frame; try assumption.
  unfold V0, U0 in Out. lia.
Qed.

(** ** Extraction of YUV buffers *)

(** The size check passes with room for [width * height * 3 / 2]
    bytes. *)
Lemma room_suffices (width height dstSize : Z) :
  0 <= width < 2 ^ 31 -> 0 <= height < 2 ^ 31 ->
  width * height * 3 / 2 <= dstSize ->
  (dstSize
   <? Int.usize
        (width * height + Z.shiftr width 1
         + Z.shiftr width 1
           * Int.usize (Z.shiftr height 1 + Z.shiftr height 1 - 1)))
  = false.
Proof.
  intros Hw Hh D.
  assert (0 <= width * height < 2 ^ 62) by nia.
  rewrite neededSize_exact by (try lia; zdiv).
  apply Z.ltb_ge.
  assert (0 <= width / 2) by zdiv. assert (0 <= height / 2) by zdiv.
  assert (2 * (width / 2) <= width) by zdiv.
  assert (2 * (height / 2) <= height) by zdiv.
  assert (width / 2 * (2 * (height / 2)) <= width * height / 2).
  { apply Z.div_le_lower_bound; [lia|]. nia. }
  assert (width * height + width * height / 2 <= width * height * 3 / 2)
    by zdiv.
  lia.
Qed.

(** The stride in bytes that the call derives from the window buffer of
    a YUV layout: four times the buffer's stride on powervr. *)
Lemma yuv_stride (c : Component) (b : ANativeWindowBuffer) :
  0 <= anw_stride b < 2 ^ 31 ->
  is_yuv_layout (anw_format b) = true ->
  (if mIsPowervr c || negb (is_yuv_layout (anw_format b))
   then Int.usize (Int.usize (anw_stride b) * 4)
   else Int.usize (anw_stride b))
  = if mIsPowervr c then anw_stride b * 4 else anw_stride b.
Proof.
  intros S Y. rewrite Y. cbn [negb]. rewrite orb_false_r.
  rewrite (usize_small (anw_stride b)) by lia.
  destruct (mIsPowervr c); [apply usize_small; lia | reflexivity].
Qed.

Section YUVExtractionFacts.

Variable SURFACE_IS_BGR32 : bool.
Variable sizeof_VideoNativeMetadata : Z.
Variable sizeof_VideoGrallocMetadata : Z.
Variable kFenceTimeoutMs : Z.
Variable Fence_wait : Z -> Z -> Z.
Variable mapper_lock : Z -> Z * Z.
Variable mapper_lockYCbCr : Z -> Z * android_ycbcr.
Variable mapped : buffer.
Variable glReadPixels : ANativeWindowBuffer -> Z -> Z -> buffer.

Local Abbreviation extractGraphicBuffer :=
  (extractGraphicBuffer SURFACE_IS_BGR32 sizeof_VideoNativeMetadata
     sizeof_VideoGrallocMetadata kFenceTimeoutMs Fence_wait mapper_lock
     mapper_lockYCbCr mapped glReadPixels).

(** X20. A window buffer in the NV21 layout ([HAL_PIXEL_FORMAT_YCrCb_420_SP])
    without a fence, lockable at [bits], is extracted into the three
    planes of the destination: the Y plane row by row from [bits], the V
    plane from the even and the U plane from the odd bytes of the
    interleaved plane that follows [stride * height] bytes later.  The
    stride is the buffer's, and four times the buffer's on powervr. *)
Theorem nv21_extraction (c : Component) (dst : buffer) (dstSize : Z)
    (src : Metadata) (srcSize width height : Z) (ycbcr0 : android_ycbcr)
    (bits : Z) :
  eType src = kMetadataBufferTypeANWBuffer ->
  anw_format (pBuffer src) = HAL_PIXEL_FORMAT_YCrCb_420_SP ->
  sizeof_VideoNativeMetadata <= srcSize ->
  nFenceFd src < 0 ->
  mapper_lock (anw_handle (pBuffer src)) = (0, bits) ->
  0 <= width < 2 ^ 31 -> 0 <= height < 2 ^ 31 ->
  width * height * 3 / 2 <= dstSize ->
  0 <= anw_stride (pBuffer src) < 2 ^ 31 ->
  0 <= anw_height (pBuffer src) < 2 ^ 31 ->
  let stride :=
    if mIsPowervr c then anw_stride (pBuffer src) * 4
    else anw_stride (pBuffer src) in
  let chroma := bits + stride * anw_height (pBuffer src) in
  exists e,
    extractGraphicBuffer c dst dstSize src srcSize width height ycbcr0
    = Returned e
    /\ ret e = Some 0
    /\ (forall y x, 0 <= y < height -> 0 <= x < width ->
          dst_after e (y * width + x)
          = Int.u8 (mapped (bits + y * stride + x)))
    /\ (forall y x, 0 <= y < height / 2 -> 0 <= x < width / 2 ->
          dst_after e (width * height + y * (width / 2) + x)
          = Int.u8 (mapped (chroma + 1 + y * stride + 2 * x))
          /\ dst_after e
               (width * height + height / 2 * (width / 2)
                + y * (width / 2) + x)
             = Int.u8 (mapped (chroma + y * stride + 2 * x))).
Proof.
  intros T F S Fd L Hw Hh D Hs Hv stride chroma.
  unfold extractGraphicBuffer. rewrite T.
  replace (srcSize <? sizeof_VideoNativeMetadata) with false
    by (symmetry; apply Z.ltb_ge; exact S).
  replace (0 <=? nFenceFd src) with false
    by (symmetry; apply Z.leb_gt; exact Fd).
  cbv zeta. rewrite yuv_stride by (rewrite ?F; first [assumption | reflexivity]).
  fold stride. rewrite (usize_small (anw_height (pBuffer src))) by lia.
  unfold convertLocked. rewrite room_suffices by assumption.
  rewrite F, L. cbn [Z.eqb negb]. cbv iota.
  assert (Ps : 0 <= stride < 2 ^ 33) by (unfold stride; destruct (mIsPowervr c); lia).
  rewrite usize_small by nia.
  rewrite !s32_small by lia.
  eexists. split; [reflexivity|]. cbn [ret dst_after].
  split; [reflexivity|].
  destruct (flex_planes dst width height mapped
              (mkYCbCr bits
                 (bits + stride * anw_height (pBuffer src) + 1)
                 (bits + stride * anw_height (pBuffer src))
                 stride stride 2)
              width height Hw Hh ltac:(lia) ltac:(lia) ltac:(nia))
    as [Y C].
  cbn [ycbcr_y ycbcr_cb ycbcr_cr ystride cstride chroma_step] in Y, C.
  split.
  - exact Y.
  - intros y x Hy Hx. destruct (C y x Hy Hx) as [U V].
    unfold chroma. split.
    + rewrite (Z.mul_comm width height), U. do 2 f_equal. ring.
    + rewrite (Z.mul_comm width height), V. do 2 f_equal. ring.
Qed.

(** X21. A window buffer in the YV12 layout without a fence, lockable at
    [bits], is extracted into the three planes of the destination: the Y
    plane from [bits], the V plane from the plane that follows
    [stride * height] bytes later, and the U plane from the one that
    follows the V plane, both read with half the stride. *)
Theorem yv12_extraction (c : Component) (dst : buffer) (dstSize : Z)
    (src : Metadata) (srcSize width height : Z) (ycbcr0 : android_ycbcr)
    (bits : Z) :
  eType src = kMetadataBufferTypeANWBuffer ->
  anw_format (pBuffer src) = HAL_PIXEL_FORMAT_YV12 ->
  sizeof_VideoNativeMetadata <= srcSize ->
  nFenceFd src < 0 ->
  mapper_lock (anw_handle (pBuffer src)) = (0, bits) ->
  0 <= width < 2 ^ 31 -> 0 <= height < 2 ^ 31 ->
  width * height * 3 / 2 <= dstSize ->
  0 <= anw_stride (pBuffer src) < 2 ^ 31 ->
  0 <= anw_height (pBuffer src) < 2 ^ 31 ->
  let stride :=
    if mIsPowervr c then anw_stride (pBuffer src) * 4
    else anw_stride (pBuffer src) in
  let Cr := bits + stride * anw_height (pBuffer src) in
  let Cb := Cr + stride / 2 * (anw_height (pBuffer src) / 2) in
  exists e,
    extractGraphicBuffer c dst dstSize src srcSize width height ycbcr0
    = Returned e
    /\ ret e = Some 0
    /\ (forall y x, 0 <= y < height -> 0 <= x < width ->
          dst_after e (y * width + x)
          = Int.u8 (mapped (bits + y * stride + x)))
    /\ (forall y x, 0 <= y < height / 2 -> 0 <= x < width / 2 ->
          dst_after e (width * height + y * (width / 2) + x)
          = Int.u8 (mapped (Cb + y * (stride / 2) + x))
          /\ dst_after e
               (width * height + height / 2 * (width / 2)
                + y * (width / 2) + x)
             = Int.u8 (mapped (Cr + y * (stride / 2) + x))).
Proof.
  intros T F S Fd L Hw Hh D Hs Hv stride Cr Cb.
  unfold extractGraphicBuffer. rewrite T.
  replace (srcSize <? sizeof_VideoNativeMetadata) with false
    by (symmetry; apply Z.ltb_ge; exact S).
  replace (0 <=? nFenceFd src) with false
    by (symmetry; apply Z.leb_gt; exact Fd).
  cbv zeta. rewrite yuv_stride by (rewrite ?F; first [assumption | reflexivity]).
  fold stride. rewrite (usize_small (anw_height (pBuffer src))) by lia.
  unfold convertLocked. rewrite room_suffices by assumption.
  rewrite F, L. cbn [Z.eqb negb]. cbv iota.
  assert (Ps : 0 <= stride < 2 ^ 33) by (unfold stride; destruct (mIsPowervr c); lia).
  rewrite !shr1.
  assert (0 <= stride / 2 < 2 ^ 32) by zdiv.
  assert (0 <= anw_height (pBuffer src) / 2 < 2 ^ 30) by zdiv.
  rewrite (usize_small (stride * _)) by nia.
  rewrite (usize_small (stride / 2 * _)) by nia.
  rewrite !s32_small by lia.
  eexists. split; [reflexivity|]. cbn [ret dst_after].
  split; [reflexivity|].
  destruct (flex_planes dst width height mapped
              (mkYCbCr bits Cb Cr stride (stride / 2) 1)
              width height Hw Hh ltac:(lia) ltac:(lia) ltac:(nia))
    as [Y C].
  cbn [ycbcr_y ycbcr_cb ycbcr_cr ystride cstride chroma_step] in Y, C.
  split.
  - exact Y.
  - intros y x Hy Hx. destruct (C y x Hy Hx) as [U V].
    split.
    + rewrite (Z.mul_comm width height).
      etransitivity; [exact U|]. do 2 f_equal. ring.
    + rewrite (Z.mul_comm width height).
      etransitivity; [exact V|]. do 2 f_equal. ring.
Qed.

(** X22. A window buffer in one of the three RGB layouts without a fence,
    lockable at [bits], off the powervr platform, with an even frame: the
    call returns [dst], whose Y plane holds the luma of every pixel and
    whose U and V planes hold the chroma of the pixels in even rows and
    columns.  The pixel at [(x, y)] is read [y * 4 * stride + 4 * x]
    bytes behind [bits], and red and blue change places for
    [HAL_PIXEL_FORMAT_BGRA_8888]. *)
Theorem rgb_extraction (c : Component) (dst : buffer) (dstSize : Z)
    (src : Metadata) (srcSize width height : Z) (ycbcr0 : android_ycbcr)
    (bits : Z) :
  eType src = kMetadataBufferTypeANWBuffer ->
  anw_format (pBuffer src) = HAL_PIXEL_FORMAT_RGBX_8888
  \/ anw_format (pBuffer src) = HAL_PIXEL_FORMAT_RGBA_8888
  \/ anw_format (pBuffer src) = HAL_PIXEL_FORMAT_BGRA_8888 ->
  sizeof_VideoNativeMetadata <= srcSize ->
  nFenceFd src < 0 ->
  mIsPowervr c = false ->
  mapper_lock (anw_handle (pBuffer src)) = (0, bits) ->
  0 <= width < 2 ^ 31 -> 0 <= height < 2 ^ 31 ->
  width mod 2 = 0 -> height mod 2 = 0 ->
  width * height * 3 / 2 <= dstSize ->
  0 <= anw_stride (pBuffer src) < 2 ^ 31 ->
  let bgr := is_BGRA (anw_format (pBuffer src)) in
  let ro := redOffset SURFACE_IS_BGR32 bgr in
  let bo := blueOffset SURFACE_IS_BGR32 bgr in
  exists e,
    extractGraphicBuffer c dst dstSize src srcSize width height ycbcr0
    = Returned e
    /\ ret e = Some 0
    /\ (forall y x, 0 <= y < height -> 0 <= x < width ->
          let p := bits + y * (anw_stride (pBuffer src) * 4) + 4 * x in
          dst_after e (y * width + x) = RGB.lumaAt mapped ro greenOffset bo p
          /\ (x mod 2 = 0 -> y mod 2 = 0 ->
              dst_after e (width * height + y / 2 * (width / 2) + x / 2)
              = RGB.UAt mapped ro greenOffset bo p
              /\ dst_after e
                   (width * height + width / 2 * (height / 2)
                    + y / 2 * (width / 2) + x / 2)
                 = RGB.VAt mapped ro greenOffset bo p)).
Proof.
  intros T F S Fd P L Hw Hh Ew Eh D Hs bgr ro bo.
  unfold extractGraphicBuffer. rewrite T.
  replace (srcSize <? sizeof_VideoNativeMetadata) with false
    by (symmetry; apply Z.ltb_ge; exact S).
  replace (0 <=? nFenceFd src) with false
    by (symmetry; apply Z.leb_gt; exact Fd).
  cbv zeta.
  replace (mIsPowervr c || negb (is_yuv_layout (anw_format (pBuffer src))))
    with true by (destruct F as [-> | [-> | ->]]; now rewrite P).
  rewrite (usize_small (anw_stride (pBuffer src))) by lia.
  rewrite (usize_small (anw_stride (pBuffer src) * 4)) by lia.
  set (stride4 := anw_stride (pBuffer src) * 4).
  assert (Px : forall y x, 0 <= y < height -> 0 <= x < width ->
            let p := bits + y * stride4 + 4 * x in
            let d :=
              RGB.dst
                (RGB.loop_y mapped width width stride4 ro greenOffset bo
                   (Z.to_nat height) 0
                   (RGB.mkState dst bits 0 (0 + width * height)
                      (0 + width * height + width / 2 * (height / 2)))) in
            d (y * width + x) = RGB.lumaAt mapped ro greenOffset bo p
            /\ (x mod 2 = 0 -> y mod 2 = 0 ->
                d (width * height + y / 2 * (width / 2) + x / 2)
                = RGB.UAt mapped ro greenOffset bo p
                /\ d (width * height + width / 2 * (height / 2)
                      + y / 2 * (width / 2) + x / 2)
                   = RGB.VAt mapped ro greenOffset bo p)).
  { intros y x Hy Hx.
    set (st0 := RGB.mkState dst bits 0 _ _).
    assert (Row : RGB.at_row width stride4 0 height bits 0 st0).
    { unfold RGB.at_row, st0. cbn. repeat split; ring. }
    assert (Hy' : 0 <= y < 0 + Z.of_nat (Z.to_nat height))
      by (rewrite Z2Nat.id; lia).
    assert (Hn : 0 + Z.of_nat (Z.to_nat height) <= height)
      by (rewrite Z2Nat.id; lia).
    destruct (loop_y_written mapped width width stride4 ro greenOffset bo
                0 height height bits ltac:(lia) Ew ltac:(lia) Eh
                (Z.to_nat height) 0 st0 (Z.le_refl 0) Hn Row y x Hy' Hx)
      as [WL WC].
    cbv zeta. rewrite !Z.add_0_l in WL, WC. split; [exact WL | exact WC]. }
  unfold convertLocked. rewrite room_suffices by assumption.
  fold bgr. rewrite P.
  assert (0 <= width * height < 2 ^ 62) by nia.
  assert (0 <= width / 2 * (height / 2) < 2 ^ 62).
  { assert (0 <= width / 2 < 2 ^ 31) by zdiv.
    assert (0 <= height / 2 < 2 ^ 31) by zdiv. nia. }
  destruct F as [F | [F | F]]; rewrite F, L; cbn [Z.eqb negb]; cbv iota;
    unfold ConvertRGB32ToPlanar; rewrite !land1, Ew, Eh;
    cbn [Z.eqb negb]; rewrite !shr1, !usize_small by lia;
    (eexists; split; [reflexivity|]; split; [reflexivity|]; exact Px).
Qed.

End YUVExtractionFacts.

(** ** Scenarios for the further properties *)

(** An output-port definition with a foreign coding type is rejected
    and leaves the QCIF encoder as it was. *)
Lemma rejected_change_keeps_state_witness :
  let ch :=
    PortParams (Example.output_request (OMX_VIDEO_CodingOther 8) 64000) in
  fst (Example.change ch Example.encoder) <> OMX_ErrorNone
  /\ snd (Example.change ch Example.encoder) = Example.encoder.
Proof.
  cbv zeta.
  assert (R : fst (Example.change
                     (PortParams
                        (Example.output_request (OMX_VIDEO_CodingOther 8) 64000))
                     Example.encoder) <> OMX_ErrorNone)
    by (vm_compute; discriminate).
  split; [exact R|].
  destruct (rejected_change_keeps_state
              Example.sizeof_VideoNativeMetadata
              Example.sizeof_VideoGrallocMetadata
              (valid_portdef := Example.well_sized _)
              (valid_portformat := Example.well_sized _)
              (valid_storemeta := Example.well_sized _)
              (valid_role := Example.well_sized _)
              Example.base_set 128
              (PortParams
                 (Example.output_request (OMX_VIDEO_CodingOther 8) 64000))
              Example.encoder R)
    as [K | (port & E & _ & P & _)].
  - exact K.
  - injection E as <-. discriminate P.
Defined.

(** The opaque format chosen as a port format on the QCIF encoder: the
    port definition holds 24 bytes, a frame is still expected to have
    38016. *)
Lemma opaque_format_keeps_metadata_flag_witness :
  let format :=
    mkPortFormat 24 kInputPortIndex 0 OMX_VIDEO_CodingUnused
      OMX_COLOR_FormatAndroidOpaque 0 in
  let r :=
    Example.set_parameter (OMX_IndexParamVideoPortFormat format)
      Example.encoder in
  fst r = OMX_ErrorNone
  /\ nBufferSize (inDef (snd r)) = 24
  /\ mInputDataIsMeta (snd r) = false
  /\ Example.frameSize_of (snd r) = 38016.
Proof.
  cbv zeta.
  destruct (opaque_format_keeps_metadata_flag
              Example.sizeof_VideoNativeMetadata
              Example.sizeof_VideoGrallocMetadata
              (valid_portdef := Example.well_sized _)
              (valid_portformat := Example.well_sized _)
              (valid_storemeta := Example.well_sized _)
              (valid_role := Example.well_sized _)
              Example.base_set 128
              (mkPortFormat 24 kInputPortIndex 0 OMX_VIDEO_CodingUnused
                 OMX_COLOR_FormatAndroidOpaque 0)
              Example.encoder eq_refl eq_refl eq_refl)
    as (A & _ & B & C & D).
  split; [exact A|]. split; [exact B|]. split; [exact C|].
  etransitivity; [exact D | reflexivity].
Defined.

(** The fourth entry of the input-port format enumeration does not
    exist. *)
Lemma input_formats_enumerated_witness :
  let formatParams :=
    mkPortFormat 24 kInputPortIndex 3 OMX_VIDEO_CodingUnused
      OMX_COLOR_FormatUnused 0 in
  Example.get_parameter Example.property_unset
    (OMX_IndexParamVideoPortFormat formatParams) Example.encoder
  = Returned (OMX_ErrorNoMore, OMX_IndexParamVideoPortFormat formatParams).
Proof.
  cbv zeta.
  destruct (input_formats_enumerated
              Example.sizeof_VideoNativeMetadata
              Example.sizeof_VideoGrallocMetadata
              (valid_portdef := Example.well_sized _)
              (valid_portformat := Example.well_sized _)
              (valid_storemeta := Example.well_sized _)
              (valid_role := Example.well_sized _)
              (valid_profilelevel := Example.well_sized _)
              Example.base_set (fun p _ => (OMX_ErrorNone, p))
              Example.base_getPortDefinition Example.property_unset 128 3
              (mkPortFormat 24 kInputPortIndex 3 OMX_VIDEO_CodingUnused
                 OMX_COLOR_FormatUnused 0)
              Example.encoder eq_refl eq_refl ltac:(cbn; lia))
    as (More & _ & _).
  apply More. cbn. lia.
Defined.

(** The output-port format query on the QCIF encoder reports AVC, and
    an output-port definition carrying AVC is accepted. *)
Lemma output_format_round_trip_witness :
  let formatParams :=
    mkPortFormat 24 kOutputPortIndex 0 OMX_VIDEO_CodingUnused
      OMX_COLOR_FormatUnused 0 in
  Example.get_parameter Example.property_unset
    (OMX_IndexParamVideoPortFormat formatParams) Example.encoder
  = Returned
      (OMX_ErrorNone,
       OMX_IndexParamVideoPortFormat
         (mkPortFormat 24 kOutputPortIndex 0 Example.avc
            OMX_COLOR_FormatUnused 0))
  /\ fst (Example.set_port_params
            (Example.output_request Example.avc 64000) Example.encoder)
     = OMX_ErrorNone.
Proof.
  cbv zeta.
  destruct (output_format_round_trip
              Example.sizeof_VideoNativeMetadata
              Example.sizeof_VideoGrallocMetadata
              (valid_portdef := Example.well_sized _)
              (valid_portformat := Example.well_sized _)
              (valid_storemeta := Example.well_sized _)
              (valid_role := Example.well_sized _)
              (valid_profilelevel := Example.well_sized _)
              Example.base_set (fun p _ => (OMX_ErrorNone, p))
              Example.base_getPortDefinition Example.property_unset 128 3
              (mkPortFormat 24 kOutputPortIndex 0 OMX_VIDEO_CodingUnused
                 OMX_COLOR_FormatUnused 0)
              (Example.output_request Example.avc 64000)
              Example.encoder eq_refl eq_refl eq_refl eq_refl)
    as (G & _ & S & _).
  split; [exact G|]. apply S. split; reflexivity.
Defined.

(** In metadata mode the input port definition of the QCIF encoder
    holds 24 bytes, and 24 bytes pass the validation. *)
Lemma stored_input_size_validates_witness :
  nBufferSize (inDef Example.opaque_encoder) = 24
  /\ Example.validate 24 Example.opaque_encoder = (OMX_ErrorNone, []).
Proof.
  split; [reflexivity|].
  apply (stored_input_size_validates
           Example.sizeof_VideoNativeMetadata
           Example.sizeof_VideoGrallocMetadata
           (valid_portdef := Example.well_sized _)
           (valid_portformat := Example.well_sized _)
           (valid_storemeta := Example.well_sized _)
           (valid_role := Example.well_sized _)
           Example.base_set 128
           (mkStoreMeta 12 kInputPortIndex OMX_TRUE) Example.encoder
           eq_refl eq_refl).
  - unfold Example.sizeof_VideoNativeMetadata. lia.
  - unfold Example.sizeof_VideoGrallocMetadata. lia.
  - cbn. lia.
  - cbn. lia.
  - cbn. lia.
Defined.


(** The QCIF encoder accepts its own role and rejects another one. *)
Lemma role_request_witness :
  fst (Example.set_parameter
         (OMX_IndexParamStandardComponentRole (mkRole 136 "video_encoder.avc"))
         Example.encoder) = OMX_ErrorNone
  /\ fst (Example.set_parameter
            (OMX_IndexParamStandardComponentRole
               (mkRole 136 "video_encoder.hevc"))
            Example.encoder) = OMX_ErrorUnsupportedSetting.
Proof.
  split.
  - apply (role_request
             Example.sizeof_VideoNativeMetadata
             Example.sizeof_VideoGrallocMetadata
             (valid_portdef := Example.well_sized _)
             (valid_portformat := Example.well_sized _)
             (valid_storemeta := Example.well_sized _)
             (valid_role := Example.well_sized _)
             Example.base_set 128
             (mkRole 136 "video_encoder.avc") Example.encoder eq_refl).
    reflexivity.
  - apply (role_request
             Example.sizeof_VideoNativeMetadata
             Example.sizeof_VideoGrallocMetadata
             (valid_portdef := Example.well_sized _)
             (valid_portformat := Example.well_sized _)
             (valid_storemeta := Example.well_sized _)
             (valid_role := Example.well_sized _)
             Example.base_set 128
             (mkRole 136 "video_encoder.hevc") Example.encoder eq_refl).
    + cbn. lia.
    + discriminate.
Defined.


(** The QCIF encoder after metadata mode was switched on and a VGA
    proposal was rejected. *)
Lemma reachable_negotiated_witness :
  Scenario.reachable Scenario.after_rejection
  /\ Scenario.negotiated Scenario.after_rejection.
Proof.
  assert (R : Scenario.reachable Scenario.after_rejection).
  { unfold Scenario.reachable, Scenario.after_rejection.
    apply (reachable_change _ _ _ _ _ _ _ _ _ _ _ _ _ _ _ _ _ _
             (PortParams
                (Example.input_request 640 480 (OMX_COLOR_FormatOther 99)))
             Example.opaque_encoder).
    apply (reachable_change _ _ _ _ _ _ _ _ _ _ _ _ _ _ _ _ _ _
             (MetadataMode (mkStoreMeta 12 kInputPortIndex OMX_TRUE))
             Example.encoder).
    apply reachable_init. }
  split; [exact R|].
  exact (reachable_negotiated _ _ _ _ _ _ _ _ _ _ _ _ _ _ _ _ _ _ _ R).
Defined.

(** A red pixel, and a grey one. *)
Lemma rgb_video_range_witness :
  16 <= Int.u8 (RGB.luma 255 0 0) <= 234
  /\ Int.u8 (RGB.U 128 128 128) = 128
  /\ Int.u8 (RGB.V 128 128 128) = 128.
Proof.
  destruct (rgb_video_range 255 0 0 ltac:(lia) ltac:(lia) ltac:(lia))
    as (Y & _).
  destruct (rgb_video_range 128 128 128 ltac:(lia) ltac:(lia) ltac:(lia))
    as (_ & _ & _ & G).
  destruct (G eq_refl eq_refl) as [U V].
  split; [exact Y|]. split; [exact U | exact V].
Defined.

(** The fence of [Example.fenced] times out: [NULL], the destination
    as it was, the descriptor reset. *)
Lemma extraction_failure_is_clean_witness :
  Example.extract (-62) = Returned Scenario.timed_out
  /\ dst_after Scenario.timed_out = Example.zeroed
  /\ nFenceFd (src_after Scenario.timed_out) = -1.
Proof.
  assert (E : Example.extract (-62) = Returned Scenario.timed_out)
    by reflexivity.
  split; [exact E|].
  destruct (extraction_failure_is_clean false
              Example.sizeof_VideoNativeMetadata
              Example.sizeof_VideoGrallocMetadata 1000 (fun _ _ => -62)
              (fun _ => (0, 0)) (fun _ => (0, mkYCbCr 0 0 0 0 0 0))
              (buffer_of_list Example.rgba) (fun _ _ _ => Example.zeroed)
              Example.encoder Example.zeroed 6 Example.fenced 24 2 2
              (mkYCbCr 0 0 0 0 0 0) Scenario.timed_out E)
    as (_ & D & [S | (_ & _ & S)]).
  - split; [exact (D eq_refl)|]. discriminate S.
  - split; [exact (D eq_refl)|]. rewrite S. reflexivity.
Defined.

(** Five bytes are too few for a 2 x 2 frame, six are enough. *)
Lemma destination_size_threshold_witness :
  (exists e,
     Scenario.extract Example.rgba Scenario.gralloc 5 2 2 = Returned e
     /\ ret e = None /\ dst_after e = Example.zeroed)
  /\ (exists e,
        Scenario.extract Example.rgba Scenario.gralloc 6 2 2 = Returned e
        /\ ret e = Some 0).
Proof.
  split.
  - destruct (destination_size_threshold false
                Example.sizeof_VideoNativeMetadata
                Example.sizeof_VideoGrallocMetadata 1000 (fun _ _ => 0)
                (fun _ => (0, 0)) (fun _ => (0, mkYCbCr 0 0 0 0 0 0))
                (buffer_of_list Example.rgba) (fun _ _ _ => Example.zeroed)
                Example.encoder Example.zeroed 5 Scenario.gralloc 24 2 2
                (mkYCbCr 0 0 0 0 0 0))
      as (e & E & _ & Small & _);
      try reflexivity; try (vm_compute; congruence).
    exists e. split; [exact E|]. apply Small. vm_compute. reflexivity.
  - destruct (destination_size_threshold false
                Example.sizeof_VideoNativeMetadata
                Example.sizeof_VideoGrallocMetadata 1000 (fun _ _ => 0)
                (fun _ => (0, 0)) (fun _ => (0, mkYCbCr 0 0 0 0 0 0))
                (buffer_of_list Example.rgba) (fun _ _ _ => Example.zeroed)
                Example.encoder Example.zeroed 6 Scenario.gralloc 24 2 2
                (mkYCbCr 0 0 0 0 0 0))
      as (e & E & _ & _ & Room);
      try reflexivity; try (vm_compute; congruence).
    exists e. split; [exact E|]. apply Room. vm_compute. congruence.
Defined.

(** A 3 x 2 frame aborts the process. *)
Lemma odd_rgb_frame_aborts_witness :
  Scenario.extract Example.rgba Scenario.gralloc 100 3 2 = Aborted.
Proof.
  apply (odd_rgb_frame_aborts false
           Example.sizeof_VideoNativeMetadata
           Example.sizeof_VideoGrallocMetadata 1000 (fun _ _ => 0)
           (fun _ => (0, 0)) (fun _ => (0, mkYCbCr 0 0 0 0 0 0))
           (buffer_of_list Example.rgba) (fun _ _ _ => Example.zeroed)
           Example.encoder Example.zeroed 100 Scenario.gralloc 24 3 2
           (mkYCbCr 0 0 0 0 0 0));
    try reflexivity; try (vm_compute; congruence).
  left. reflexivity.
Defined.

(** The byte behind a 4 x 2 frame keeps its 7. *)
Lemma semiplanar_stays_in_frame_witness :
  ConvertYUV420SemiPlanarToYUV420Planar
    (buffer_of_list
       (packSemiPlanar Example.y_plane Example.cb_plane Example.cr_plane))
    Scenario.sevens 4 2 12
  = 7.
Proof.
  rewrite semiplanar_stays_in_frame.
  - reflexivity.
  - lia.
  - lia.
  - reflexivity.
  - right. vm_compute. congruence.
Defined.

(** In a 2 x 2 frame the loop reads no word at all: both chroma bytes
    keep their 7. *)
Lemma semiplanar_narrow_width_leaves_chroma_witness :
  let out :=
    ConvertYUV420SemiPlanarToYUV420Planar
      (buffer_of_list [16; 32; 48; 64; 100; 200]) Scenario.sevens 2 2 in
  out 4 = 7 /\ out 5 = 7.
Proof.
  cbv zeta. split.
  - rewrite semiplanar_narrow_width_leaves_chroma;
      [reflexivity | lia | lia | reflexivity | reflexivity | reflexivity |].
    left. vm_compute. split; congruence.
  - rewrite semiplanar_narrow_width_leaves_chroma;
      [reflexivity | lia | lia | reflexivity | reflexivity | reflexivity |].
    right. vm_compute. split; congruence.
Defined.

(** The NV21 image handed to the conversion as three planes. *)
Lemma ConvertFlexYUVToPlanar_planes_witness :
  let out :=
    ConvertFlexYUVToPlanar Example.zeroed 4 2 (buffer_of_list Scenario.nv21)
      (mkYCbCr 0 9 8 4 4 2) 4 2 in
  out 5 = 96 /\ out 8 = 100 /\ out 9 = 101 /\ out 10 = 200 /\ out 11 = 201
  /\ out 12 = 0.
Proof.
  cbv zeta.
  destruct (ConvertFlexYUVToPlanar_planes Example.zeroed 4 2
              (buffer_of_list Scenario.nv21) (mkYCbCr 0 9 8 4 4 2) 4 2)
    as (Y & C & F); try lia; try reflexivity.
  split; [exact (Y 1 1 ltac:(lia) ltac:(lia))|].
  destruct (C 0 0 ltac:(cbn; lia) ltac:(cbn; lia)) as [U0 V0].
  destruct (C 0 1 ltac:(cbn; lia) ltac:(cbn; lia)) as [U1 V1].
  split; [exact U0|]. split; [exact U1|].
  split; [exact V0|]. split; [exact V1|].
  apply (F 12). right. vm_compute. congruence.
Defined.

(** The NV21 window buffer becomes the planar image. *)
Lemma nv21_extraction_witness :
  exists e,
    Scenario.extract Scenario.nv21
      (Scenario.window HAL_PIXEL_FORMAT_YCrCb_420_SP 4 2) 12 4 2
    = Returned e
    /\ ret e = Some 0
    /\ dst_after e 5 = 96
    /\ dst_after e 8 = 100 /\ dst_after e 10 = 200.
Proof.
  destruct (nv21_extraction false
              Example.sizeof_VideoNativeMetadata
              Example.sizeof_VideoGrallocMetadata 1000 (fun _ _ => 0)
              (fun _ => (0, 0)) (fun _ => (0, mkYCbCr 0 0 0 0 0 0))
              (buffer_of_list Scenario.nv21) (fun _ _ _ => Example.zeroed)
              Example.encoder Example.zeroed 12
              (Scenario.window HAL_PIXEL_FORMAT_YCrCb_420_SP 4 2)
              24 4 2 (mkYCbCr 0 0 0 0 0 0) 0)
    as (e & E & R & Y & C);
    try reflexivity; try (cbn; lia); try (vm_compute; congruence).
  exists e. split; [exact E|]. split; [exact R|].
  split; [exact (Y 1 1 ltac:(lia) ltac:(lia))|].
  destruct (C 0 0 ltac:(cbn; lia) ltac:(cbn; lia)) as [U V].
  split; [exact U | exact V].
Defined.

(** The YV12 window buffer becomes the same planar image. *)
Lemma yv12_extraction_witness :
  exists e,
    Scenario.extract Scenario.yv12
      (Scenario.window HAL_PIXEL_FORMAT_YV12 4 2) 12 4 2
    = Returned e
    /\ ret e = Some 0
    /\ dst_after e 5 = 96
    /\ dst_after e 8 = 100 /\ dst_after e 10 = 200.
Proof.
  destruct (yv12_extraction false
              Example.sizeof_VideoNativeMetadata
              Example.sizeof_VideoGrallocMetadata 1000 (fun _ _ => 0)
              (fun _ => (0, 0)) (fun _ => (0, mkYCbCr 0 0 0 0 0 0))
              (buffer_of_list Scenario.yv12) (fun _ _ _ => Example.zeroed)
              Example.encoder Example.zeroed 12
              (Scenario.window HAL_PIXEL_FORMAT_YV12 4 2)
              24 4 2 (mkYCbCr 0 0 0 0 0 0) 0)
    as (e & E & R & Y & C);
    try reflexivity; try (cbn; lia); try (vm_compute; congruence).
  exists e. split; [exact E|]. split; [exact R|].
  split; [exact (Y 1 1 ltac:(lia) ltac:(lia))|].
  destruct (C 0 0 ltac:(cbn; lia) ltac:(cbn; lia)) as [U V].
  split; [exact U | exact V].
Defined.

(** The red pixel of the 2 x 2 RGBA window buffer. *)
Lemma rgb_extraction_witness :
  exists e,
    Scenario.extract Example.rgba
      (Scenario.window HAL_PIXEL_FORMAT_RGBA_8888 2 2) 6 2 2
    = Returned e
    /\ ret e = Some 0
    /\ dst_after e 0 = 81 /\ dst_after e 4 = 90 /\ dst_after e 5 = 240.
Proof.
  destruct (rgb_extraction false
              Example.sizeof_VideoNativeMetadata
              Example.sizeof_VideoGrallocMetadata 1000 (fun _ _ => 0)
              (fun _ => (0, 0)) (fun _ => (0, mkYCbCr 0 0 0 0 0 0))
              (buffer_of_list Example.rgba) (fun _ _ _ => Example.zeroed)
              Example.encoder Example.zeroed 6
              (Scenario.window HAL_PIXEL_FORMAT_RGBA_8888 2 2)
              24 2 2 (mkYCbCr 0 0 0 0 0 0) 0)
    as (e & E & R & P);
    try reflexivity; try (cbn; lia); try (vm_compute; congruence).
  { right. left. reflexivity. }
  exists e. split; [exact E|]. split; [exact R|].
  destruct (P 0 0) as [L C]; [lia | lia |].
  destruct (C eq_refl eq_refl) as [U V].
  split; [exact L|]. split; [exact U | exact V].
Defined.
